(** * Robusta Supabase data-access layer: a shallow embedding

    Source: [src/robusta/core/sinks/robusta/dal/supabase_dal.py].

    The Python module is a stateful client: it reads the wall clock, signs in
    against an identity service, and talks to an HTTP gateway.  We embed it as
    a state-and-exception monad over a [World] that holds the [SupabaseDal]
    instance together with the trace of effects performed so far.  Everything
    the module does not own (clock, identity service, gateway, JSON decoder,
    domain models) is supplied by an environment record [Env]; theorems
    quantify over every environment.

    Not modelled: the refresh timer started by [RobustaAuthClient._set_timeout]
    (a background thread), the construction of the auth client in
    [_init_supabase_auth_client], floating-point rounding of clock values
    (times are exact rationals), and the interpolation of values into log and
    exception messages (a message is the text of its f-string). *)

From Stdlib Require Import ZArith QArith Lqa Lia Bool Ascii String.
From stdpp Require Import base option list strings gmap.

Local Open Scope string_scope.
#[local] Set Warnings "-register-all".

(** ** Python values *)

(** JSON-like values, as exchanged with the gateway.  Integers only; floating
    point numbers are not represented. *)
Inductive JSON : Type :=
| JNull
| JBool (b : bool)
| JNum (n : Z)
| JStr (s : string)
| JArr (items : list JSON)
| JObj (fields : list (string * JSON)).

(** A Python [dict] with string keys. *)
Abbreviation Dict := (gmap string JSON).

(** Truthiness of a value ([bool(v)]). *)
Definition truthy (v : JSON) : bool :=
  match v with
  | JNull => false
  | JBool b => b
  | JNum n => negb (n =? 0)%Z
  | JStr s => negb (String.eqb s "")
  | JArr items => match items with [] => false | _ => true end
  | JObj fields => match fields with [] => false | _ => true end
  end.

(** [v in [c1, c2, ...]] for a value returned by [dict.get] and a list of
    integer literals: [None], strings, lists and dicts equal no integer, and
    [True == 1], [False == 0]. *)
Definition py_in (v : option JSON) (codes : list Z) : bool :=
  match v with
  | Some (JNum n) => existsb (Z.eqb n) codes
  | Some (JBool b) => existsb (Z.eqb (Z.b2z b)) codes
  | _ => false
  end.

Definition py_not_in (v : option JSON) (codes : list Z) : bool :=
  negb (py_in v codes).

(** [v != c] for an integer literal [c]. *)
Definition py_ne (v : option JSON) (c : Z) : bool := py_not_in v [c].

(** ** Exceptions

    All exceptions of the model are instances of subclasses of Python's
    [Exception]. *)
Inductive exn : Type :=
| Exception (msg : string)
| KeyError (key : string)
| TypeError (msg : string)
| LibraryError (origin : string).

(** ** Table names *)

Definition SERVICES_TABLE := "Services".
Definition NODES_TABLE := "Nodes".
Definition EVIDENCE_TABLE := "Evidence".
Definition ISSUES_TABLE := "Issues".
Definition CLUSTERS_STATUS_TABLE := "ClustersStatus".
Definition JOBS_TABLE := "Jobs".
Definition HELM_RELEASES_TABLE := "HelmReleases".
Definition NAMESPACES_TABLE := "Namespaces".
Definition UPDATE_CLUSTER_NODE_COUNT := "update_cluster_node_count".
Definition SCANS_RESULT_TABLE := "ScansResults".

(** ** Requests *)

(** Body of an [insert]: the code passes either a list of rows or one row. *)
Inductive Payload : Type :=
| Rows (rows : list Dict)
| OneRow (row : Dict).

Inductive Verb : Type :=
| Select (columns : list string)
| Insert (body : Payload) (upsert : bool)
| Delete.

(** A request built with the query builder:
    [client.table(t).<verb>.filter(c, "eq", v)...limit(n)]. *)
Record Query : Type := mkQuery {
  q_table : string;
  q_verb : Verb;
  q_filters : list (string * JSON);   (* column "eq" value, in call order *)
  q_limit : option nat
}.

Definition table_select (t : string) (cols : list string) : Query :=
  mkQuery t (Select cols) [] None.
Definition table_insert (t : string) (body : Payload) (upsert : bool) : Query :=
  mkQuery t (Insert body upsert) [] None.
Definition table_delete (t : string) : Query :=
  mkQuery t Delete [] None.
Definition filter_eq (col : string) (v : JSON) (q : Query) : Query :=
  mkQuery (q_table q) (q_verb q) (q_filters q ++ [(col, v)]) (q_limit q).
Definition limit (n : nat) (q : Query) : Query :=
  mkQuery (q_table q) (q_verb q) (q_filters q) (Some n).

(** A raw HTTP response as seen through [requests]. *)
Record Response : Type := mkResponse {
  status_code : Z;
  content : string
}.

(** ** Effects *)

Inductive Level : Type := DEBUG | INFO | ERROR.

Inductive Event : Type :=
| EvTime                                        (* time.time() *)
| EvLog (lvl : Level) (msg : string)            (* logging.<lvl>(msg) *)
| EvAuthSignIn (email password : string)        (* client.auth.sign_in(...) *)
| EvExecute (q : Query)                         (* <builder>.execute() *)
| EvRequestsDelete (target : string) (q : Query)(* requests.delete(target, ...) *)
| EvRequestsPost (url : string) (body : Dict).  (* requests.post(url, json=body) *)

Definition is_time (e : Event) : bool :=
  match e with EvTime => true | _ => false end.
Definition is_auth_sign_in (e : Event) : bool :=
  match e with EvAuthSignIn _ _ => true | _ => false end.
Definition is_execute (e : Event) : bool :=
  match e with EvExecute _ => true | _ => false end.
Definition is_requests (e : Event) : bool :=
  match e with EvRequestsDelete _ _ | EvRequestsPost _ _ => true | _ => false end.
Definition is_error_log (e : Event) : bool :=
  match e with EvLog ERROR _ => true | _ => false end.

Fixpoint count (p : Event -> bool) (tr : list Event) : nat :=
  match tr with
  | [] => 0
  | e :: tr' => (if p e then 1 else 0) + count p tr'
  end.

(** ** Domain models

    The domain classes ([ServiceInfo], [NodeInfo], [Finding], ...) are defined
    outside this module.  Each is represented by what the data-access layer
    reads from it: the attributes it accesses and the mapping its [.dict()]
    returns. *)

(** [ServiceInfo], with the attributes read by [to_service]. *)
Record ServiceInfo : Type := mkServiceInfo {
  svc_name : JSON;
  service_type : JSON;
  svc_namespace : JSON;
  classification : JSON;
  svc_deleted : JSON;
  service_config : option JSON;      (* Some c: a config object whose .dict() is c *)
  total_pods : JSON;
  ready_pods : JSON
}.

(** [NodeInfo], [NamespaceInfo] and [ScanReportRow]: only [.dict()] is used. *)
Record NodeInfo : Type := mkNodeInfo { node_dict : Dict }.
Record NamespaceInfo : Type := mkNamespaceInfo { namespace_dict : Dict }.
Record ScanReportRow : Type := mkScanReportRow { scan_row_dict : Dict }.

(** [JobInfo] and [HelmRelease]: [.dict()] and [get_service_key()]. *)
Record JobInfo : Type := mkJobInfo {
  job_dict : Dict;
  job_service_key : JSON
}.
Record HelmRelease : Type := mkHelmRelease {
  helm_dict : Dict;
  helm_service_key : JSON
}.

(** [ClusterStatus]: the attributes [last_alert_at] and [light_actions] and
    the remaining fields of [.dict()]. *)
Record ClusterStatus : Type := mkClusterStatus {
  last_alert_at : option JSON;
  light_actions : list JSON;
  status_fields : Dict
}.

Definition cluster_status_dict (data : ClusterStatus) : Dict :=
  <["last_alert_at" := default JNull (last_alert_at data)]>
    (<["light_actions" := JArr (light_actions data)]> (status_fields data)).

(** A block of an enrichment: a [ScanReportBlock] or any other block. *)
Inductive Block : Type :=
| ScanReportBlock (scan_id : JSON) (start_time end_time : string)
    (type score : JSON) (results : list ScanReportRow)
| OtherBlock.

Record Enrichment : Type := mkEnrichment {
  blocks : list Block;
  annotations : Dict
}.

Record Finding : Type := mkFinding {
  finding_id : JSON;
  enrichments : list Enrichment
}.

(** ** The environment

    [now n] is the value of the [n]-th call of [time.time()];
    [identity n] is the outcome of the [n]-th [auth.sign_in]: the exception it
    raises, if any, and the session the auth client holds afterwards;
    [gateway n] is the outcome of the [n]-th [execute()] of a query builder;
    [transport n] is the outcome of the [n]-th raw [requests] call.
    The remaining fields stand for code outside this module. *)
Record Env : Type := mkEnv {
  SUPABASE_LOGIN_RATE_LIMIT_SEC : Q;
  now : nat -> Q;
  identity : nat -> option exn * option Dict;
  gateway : nat -> exn + Dict;
  transport : nat -> exn + Response;
  json_loads : string -> option JSON;           (* response.json(); None: raises *)
  base_url : string -> string;                  (* str(builder.session.base_url) *)
  params : Query -> string;                     (* str(builder.session.params) *)
  SCAN : string;                                (* EnrichmentAnnotation.SCAN *)
  repr : JSON -> string;                        (* str() of a non-string value *)
  service_get_service_key : ServiceInfo -> JSON;(* ServiceInfo.get_service_key *)
  job_from_db_row : JSON -> exn + JobInfo;      (* JobInfo.from_db_row *)
  helm_from_db_row : JSON -> exn + HelmRelease; (* HelmRelease.from_db_row *)
  namespace_from_db_row : JSON -> exn + NamespaceInfo;
  (* ModelConversion.to_evidence_json(account_id, cluster_id, sink_name,
       signing_key, finding_id, enrichment) *)
  to_evidence_json :
    string -> string -> string -> string -> JSON -> Enrichment -> Dict;
  (* ModelConversion.to_finding_json(account_id, cluster, finding) *)
  to_finding_json : string -> string -> Finding -> Dict;
  (* ServiceInfo(...) and NodeInfo(...) on keyword arguments: the model constructors,
     which validate and coerce their keyword arguments and may raise *)
  ServiceInfo_init : Dict -> exn + ServiceInfo;
  NodeInfo_init : Dict -> exn + NodeInfo;
  (* RobustaClient(url, key): None when the client is built, Some e when the
     library constructor raises e *)
  RobustaClient_init : string -> string -> option exn
}.

(** ** The client

    [RobustaClient] extends the library client; [client_auth] is [None] while
    the attribute [auth] is not set yet. *)
Record AuthClient : Type := mkAuthClient {
  current_session : option Dict
}.
Record RobustaClient : Type := mkClient {
  supabase_key : string;
  client_auth : option AuthClient
}.

(** [auth.session()]: the auth client's accessor of its current session. *)
Definition auth_session (auth : option AuthClient) : option Dict :=
  match auth with
  | Some a => current_session a
  | None => None
  end.

(** Truthiness of a dict: it is not empty. *)
Definition dict_truthy (d : Dict) : bool :=
  match map_to_list d with
  | [] => false
  | _ => true
  end.

(** [d[k]] on a dict *)
Definition dict_subscript (d : Dict) (k : string) : exn + JSON :=
  match d !! k with
  | Some v => inr v
  | None => inl (KeyError k)
  end.

(** ** State *)

(** The attributes of a [SupabaseDal] instance.  [session] is
    [self.client.auth.current_session]; the client's key is [key]. *)
Record SupabaseDal : Type := mkDal {
  url : string;
  key : string;
  account_id : string;
  cluster : string;
  email : string;
  password : string;
  sign_in_time : Q;
  sink_name : string;
  signing_key : string;
  session : option Dict
}.

(** The instance and the effects performed so far, most recent first. *)
Record World : Type := mkWorld {
  self : SupabaseDal;
  trace : list Event
}.

(** ** The monad: state and exceptions *)

Definition M (A : Type) : Type := World -> (exn + A) * World.

Definition ret {A} (a : A) : M A := fun w => (inr a, w).
Definition raise {A} (e : exn) : M A := fun w => (inl e, w).
Definition bind {A B} (m : M A) (k : A -> M B) : M B :=
  fun w => match m w with
           | (inr a, w') => k a w'
           | (inl e, w') => (inl e, w')
           end.
(** [try: m except Exception: h] *)
Definition try_except {A} (m : M A) (h : exn -> M A) : M A :=
  fun w => match m w with
           | (inr a, w') => (inr a, w')
           | (inl e, w') => h e w'
           end.

Declare Scope dal_scope.
Delimit Scope dal_scope with dal.
Notation "'let*' x ':=' m 'in' k" := (bind m (fun x => k))
  (at level 10, x name, m at level 100, k at level 200) : dal_scope.
Notation "m ;; k" := (bind m (fun _ => k))
  (at level 100, k at level 200, right associativity) : dal_scope.
Local Open Scope dal_scope.

Definition get_self : M SupabaseDal := fun w => (inr (self w), w).
Definition emit (e : Event) : M unit :=
  fun w => (inr tt, mkWorld (self w) (e :: trace w)).
Definition get_index (p : Event -> bool) : M nat :=
  fun w => (inr (count p (trace w)), w).

Fixpoint for_each {A} (l : list A) (body : A -> M unit) : M unit :=
  match l with
  | [] => ret tt
  | x :: l' => body x ;; for_each l' body
  end.

Definition logging (lvl : Level) (msg : string) : M unit := emit (EvLog lvl msg).

(** Lift a pure computation that may raise. *)
Definition lift {A} (r : exn + A) : M A :=
  match r with
  | inl e => raise e
  | inr a => ret a
  end.

(** ** Python helpers *)

(** [s.rstrip("/")] *)
Fixpoint rstrip_slash (s : string) : string :=
  match s with
  | EmptyString => EmptyString
  | String c r =>
      match rstrip_slash r with
      | EmptyString => if Ascii.eqb c "/"%char then EmptyString else String c EmptyString
      | r' => String c r'
      end
  end.

(** [s.replace("%22", "")] *)
Fixpoint remove_pct22 (s : string) : string :=
  match s with
  | String "%"%char (String "2"%char (String "2"%char r)) => remove_pct22 r
  | String c r => String c (remove_pct22 r)
  | EmptyString => EmptyString
  end.

Fixpoint assoc (k : string) (fields : list (string * JSON)) : option JSON :=
  match fields with
  | [] => None
  | (k', v) :: rest => if String.eqb k k' then Some v else assoc k rest
  end.

(** [v[k]] for a string key. *)
Definition subscript (v : JSON) (k : string) : exn + JSON :=
  match v with
  | JObj fields =>
      match assoc k fields with
      | Some x => inr x
      | None => inl (KeyError k)
      end
  | JStr _ | JArr _ => inl (TypeError "indices must be integers")
  | _ => inl (TypeError "object is not subscriptable")
  end.

(** [v.get(k)] *)
Definition get_method (v : JSON) (k : string) : exn + option JSON :=
  match v with
  | JObj fields => inr (assoc k fields)
  | _ => inl (LibraryError "AttributeError: get")
  end.

Fixpoint chars (s : string) : list JSON :=
  match s with
  | EmptyString => []
  | String c r => JStr (String c EmptyString) :: chars r
  end.

(** The items visited by [for x in v], for [v] returned by [dict.get]. *)
Definition py_iter (v : option JSON) : exn + list JSON :=
  match v with
  | Some (JArr items) => inr items
  | Some (JObj fields) => inr (map (fun kv => JStr (fst kv)) fields)
  | Some (JStr s) => inr (chars s)
  | _ => inl (TypeError "object is not iterable")
  end.

(** [len(v)] *)
Definition py_len (v : option JSON) : exn + nat :=
  match v with
  | Some (JArr items) => inr (length items)
  | Some (JObj fields) => inr (length fields)
  | Some (JStr s) => inr (String.length s)
  | _ => inl (TypeError "object has no len()")
  end.

Fixpoint traverse {A B} (f : A -> exn + B) (l : list A) : exn + list B :=
  match l with
  | [] => inr []
  | x :: l' =>
      match f x with
      | inl e => inl e
      | inr y =>
          match traverse f l' with
          | inl e => inl e
          | inr ys => inr (y :: ys)
          end
      end
  end.

(** [json.loads(v)]: the argument must be a string. *)
Definition json_loads_value (loads : string -> option JSON) (v : JSON) : exn + JSON :=
  match v with
  | JStr s =>
      match loads s with
      | Some x => inr x
      | None => inl (LibraryError "json.JSONDecodeError")
      end
  | _ => inl (TypeError "the JSON object must be str, bytes or bytearray")
  end.

Definition bind_sum {A B} (r : exn + A) (k : A -> exn + B) : exn + B :=
  match r with
  | inl e => inl e
  | inr a => k a
  end.
Notation "'let+' x ':=' r 'in' k" := (bind_sum r (fun x => k))
  (at level 10, x name, r at level 100, k at level 200) : dal_scope.
(** Method chaining on query builders. *)
Notation "q |> f" := (f q) (at level 45, left associativity, only parsing) : dal_scope.

(** Strict [a > b] on times. *)
Definition Qgtb (a b : Q) : bool := negb (Qle_bool a b).

Section Dal.

Variable E : Env.

(** [time.time()] *)
Definition time_time : M Q :=
  let* n := get_index is_time in
  emit EvTime ;;
  ret (now E n).

Definition set_sign_in_time (t : Q) : M unit :=
  fun w =>
    let s := self w in
    (inr tt,
     mkWorld (mkDal (url s) (key s) (account_id s) (cluster s) (email s)
                (password s) t (sink_name s) (signing_key s) (session s))
       (trace w)).

Definition set_session (ss : option Dict) : M unit :=
  fun w =>
    let s := self w in
    (inr tt,
     mkWorld (mkDal (url s) (key s) (account_id s) (cluster s) (email s)
                (password s) (sign_in_time s) (sink_name s) (signing_key s) ss)
       (trace w)).

(** [self.client.auth.sign_in(email=..., password=...)]: one round trip to the
    identity service. *)
Definition auth_sign_in (em pw : string) : M unit :=
  let* n := get_index is_auth_sign_in in
  emit (EvAuthSignIn em pw) ;;
  let '(failure, ss) := identity E n in
  set_session ss ;;
  match failure with
  | Some e => raise e
  | None => ret tt
  end.

(** [SupabaseDal.sign_in] *)
Definition sign_in : M unit :=
  let* t := time_time in
  let* s := get_self in
  if Qgtb t (sign_in_time s + SUPABASE_LOGIN_RATE_LIMIT_SEC E) then
    logging INFO "Supabase dal login" ;;
    let* t' := time_time in
    set_sign_in_time t' ;;
    auth_sign_in (email s) (password s)
  else ret tt.

(** [SupabaseDal.handle_supabase_error] *)
Definition handle_supabase_error : M unit :=
  try_except sign_in
    (fun _ => logging ERROR "Failed to sign in on error").

(** *** Response normalisation *)

(** [<builder>.execute()]: one round trip to the gateway through the client
    library, which returns a dict or raises. *)
Definition execute (q : Query) : M Dict :=
  let* n := get_index is_execute in
  emit (EvExecute q) ;;
  lift (gateway E n).

Definition requests_delete (target : string) (q : Query) : M Response :=
  let* n := get_index is_requests in
  emit (EvRequestsDelete target q) ;;
  lift (transport E n).

Definition requests_post (target : string) (body : Dict) : M Response :=
  let* n := get_index is_requests in
  emit (EvRequestsPost target body) ;;
  lift (transport E n).

(** [response.json()] *)
Definition response_json (response : Response) : M JSON :=
  match json_loads E (content response) with
  | Some v => ret v
  | None => raise (LibraryError "json.JSONDecodeError")
  end.

(** [SupabaseDal.__delete_patch] *)
Definition __delete_patch (supabase_request_obj : Query) : M Dict :=
  let target := rstrip_slash (base_url E (q_table supabase_request_obj)) in
  let query := remove_pct22 (params E supabase_request_obj) in
  let* response :=
    requests_delete (target ++ "?" ++ query) supabase_request_obj in
  let* response_data :=
    try_except (response_json response)
      (fun _ => logging DEBUG "Failed to parse delete response data" ;;
                ret (JStr "")) in
  ret (<["data" := response_data]>
         (<["status_code" := JNum (status_code response)]> ∅)).

(** [SupabaseDal.__rpc_patch] *)
Definition __rpc_patch (func_name : string) (body : Dict) : M Dict :=
  let target := rstrip_slash (base_url E ("rpc/" ++ func_name)) in
  let* response := requests_post target body in
  let* response_data :=
    try_except
      (if negb (String.eqb (content response) "")
       then response_json response
       else ret (JObj []))
      (fun _ => logging DEBUG "Failed to parse delete response data" ;;
                ret (JObj [])) in
  ret (<["data" := response_data]>
         (<["status_code" := JNum (status_code response)]> ∅)).

(** *** Scans and findings *)

(** [SupabaseDal.__to_db_scanResult] *)
Definition __to_db_scanResult (s : SupabaseDal) (scanResult : ScanReportRow) : Dict :=
  <["cluster_id" := JStr (cluster s)]>
    (<["account_id" := JStr (account_id s)]> (scan_row_dict scanResult)).

(** The body of the loop of [SupabaseDal.persist_scan]; [continue] on a block
    that is not a [ScanReportBlock]. *)
Definition persist_scan_block (block : Block) : M unit :=
  match block with
  | OtherBlock => ret tt
  | ScanReportBlock scan_id start_time end_time type score results =>
      let* s := get_self in
      let db_scanResults := map (__to_db_scanResult s) results in
      let* res :=
        execute (table_insert SCANS_RESULT_TABLE (Rows db_scanResults) false) in
      (if py_not_in (res !! "status_code") [200; 201]%Z then
         logging ERROR "Failed to persist scan {block.scan_id} error: {res.get('data')}" ;;
         handle_supabase_error ;;
         raise (Exception "Failed to persist scan {block.scan_id} error: {res.get('data')}")
       else ret tt) ;;
      let* res :=
        __rpc_patch "insert_scan_meta"
          (<["_account_id" := JStr (account_id s)]>
          (<["_cluster" := JStr (cluster s)]>
          (<["_scan_id" := scan_id]>
          (<["_scan_start" := JStr start_time]>
          (<["_scan_end" := JStr end_time]>
          (<["_type" := type]>
          (<["_grade" := score]> ∅))))))) in
      if py_not_in (res !! "status_code") [200; 201; 204]%Z then
        logging ERROR "Failed to persist scan meta {block.scan_id} error: {res.get('data')}" ;;
        handle_supabase_error ;;
        raise (Exception "Failed to persist scan meta {block.scan_id} error: {res.get('data')}")
      else ret tt
  end.

(** [SupabaseDal.persist_scan] *)
Definition persist_scan (enrichment : Enrichment) : M unit :=
  for_each (blocks enrichment) persist_scan_block.

(** [enrich.annotations.get(EnrichmentAnnotation.SCAN, False)] as a condition *)
Definition is_scan (enrich : Enrichment) : bool :=
  truthy (default (JBool false) (annotations enrich !! SCAN E)).

(** [SupabaseDal.persist_finding] *)
Definition persist_finding (finding : Finding) : M unit :=
  let scans := List.filter is_scan (enrichments finding) in
  let enrichments := List.filter (fun e => negb (is_scan e)) (enrichments finding) in
  for_each scans persist_scan ;;
  if (0 <? length scans)%nat && (length enrichments =? 0)%nat then ret tt
  else
    for_each enrichments (fun enrichment =>
      let* s := get_self in
      let* res :=
        execute (table_insert EVIDENCE_TABLE
                   (OneRow (to_evidence_json E (account_id s) (cluster s)
                              (sink_name s) (signing_key s)
                              (finding_id finding) enrichment))
                   false) in
      if py_ne (res !! "status_code") 201 then
        logging ERROR "Failed to persist finding {finding.id} enrichment {enrichment} error: {res.get('data')}"
      else ret tt) ;;
    let* s := get_self in
    let* res :=
      execute (table_insert ISSUES_TABLE
                 (OneRow (to_finding_json E (account_id s) (cluster s) finding))
                 false) in
    if py_ne (res !! "status_code") 201 then
      logging ERROR "Failed to persist finding {finding.id} error: {res.get('data')}" ;;
      handle_supabase_error
    else ret tt.

(** *** Services *)

(** [SupabaseDal.to_service] *)
Definition to_service (s : SupabaseDal) (service : ServiceInfo) : Dict :=
  <["name" := svc_name service]>
  (<["type" := service_type service]>
  (<["namespace" := svc_namespace service]>
  (<["classification" := classification service]>
  (<["cluster" := JStr (cluster s)]>
  (<["account_id" := JStr (account_id s)]>
  (<["deleted" := svc_deleted service]>
  (<["service_key" := service_get_service_key E service]>
  (<["config" := default JNull (service_config service)]>
  (<["total_pods" := total_pods service]>
  (<["ready_pods" := ready_pods service]>
  (<["update_time" := JStr "now()"]> ∅))))))))))).

(** [SupabaseDal.persist_services] *)
Definition persist_services (services : list ServiceInfo) : M unit :=
  match services with
  | [] => ret tt
  | _ =>
      let* s := get_self in
      let db_services := map (to_service s) services in
      let* res := execute (table_insert SERVICES_TABLE (Rows db_services) true) in
      if py_not_in (res !! "status_code") [200; 201]%Z then
        logging ERROR "Failed to persist services {services} error: {res.get('data')}" ;;
        handle_supabase_error ;;
        raise (Exception "publish service failed. status: {status_code}")
      else ret tt
  end.

(** The keyword arguments of [ServiceInfo(...)] in [get_active_services],
    evaluated in order; a keyword whose value is Python's [None] holds
    [JNull]. *)
Definition service_kwargs (service : JSON) : exn + Dict :=
  let+ name := subscript service "name" in
  let+ type := subscript service "type" in
  let+ namespace := subscript service "namespace" in
  let+ classification := subscript service "classification" in
  let+ config := get_method service "config" in
  let+ ready_pods := subscript service "ready_pods" in
  let+ total_pods := subscript service "total_pods" in
  inr (<["name" := name]>
      (<["service_type" := type]>
      (<["namespace" := namespace]>
      (<["classification" := classification]>
      (<["service_config" := default JNull config]>
      (<["ready_pods" := ready_pods]>
      (<["total_pods" := total_pods]> ∅))))))).

(** The [ServiceInfo(...)] built from one row in [get_active_services]. *)
Definition service_of_row (service : JSON) : exn + ServiceInfo :=
  let+ kwargs := service_kwargs service in
  ServiceInfo_init E kwargs.

(** [SupabaseDal.get_active_services] *)
Definition get_active_services : M (list ServiceInfo) :=
  let* s := get_self in
  let* res :=
    execute (table_select SERVICES_TABLE
               ["name"; "type"; "namespace"; "classification"; "config";
                "ready_pods"; "total_pods"]
             |> filter_eq "account_id" (JStr (account_id s))
             |> filter_eq "cluster" (JStr (cluster s))
             |> filter_eq "deleted" (JBool false)) in
  (if py_not_in (res !! "status_code") [200]%Z then
     logging ERROR "Failed to get existing services (supabase) error: {res.get('data')}" ;;
     handle_supabase_error ;;
     raise (Exception "Failed to get existing services (supabase) error: {res.get('data')}")
   else ret tt) ;;
  lift (let+ rows := py_iter (res !! "data") in traverse service_of_row rows).

(** [SupabaseDal.has_cluster_findings] *)
Definition has_cluster_findings : M bool :=
  let* s := get_self in
  let* res :=
    execute (table_select ISSUES_TABLE ["*"]
             |> filter_eq "account_id" (JStr (account_id s))
             |> filter_eq "cluster" (JStr (cluster s))
             |> limit 1) in
  (if py_not_in (res !! "status_code") [200]%Z then
     logging ERROR "Failed to check cluster issues: {res.get('data')}" ;;
     handle_supabase_error ;;
     raise (Exception "Failed to check cluster issues: {res.get('data')}")
   else ret tt) ;;
  lift (let+ n := py_len (res !! "data") in inr (0 <? n)%nat).

(** *** Nodes *)

Definition node_columns : list string :=
  ["name"; "node_creation_time"; "taints"; "conditions"; "memory_capacity";
   "memory_allocatable"; "memory_allocated"; "cpu_capacity"; "cpu_allocatable";
   "cpu_allocated"; "pods_count"; "pods"; "internal_ip"; "external_ip"].

(** The keyword arguments of [NodeInfo(...)] in [get_active_nodes], evaluated
    in order. *)
Definition node_kwargs (node : JSON) : exn + Dict :=
  let+ values := traverse (subscript node) node_columns in
  let+ raw := subscript node "node_info" in
  let+ node_info := json_loads_value (json_loads E) raw in
  inr (<["node_info" := node_info]> (list_to_map (zip node_columns values))).

(** The [NodeInfo(...)] built from one row in [get_active_nodes]. *)
Definition node_of_row (node : JSON) : exn + NodeInfo :=
  let+ kwargs := node_kwargs node in
  NodeInfo_init E kwargs.

(** [SupabaseDal.get_active_nodes] *)
Definition get_active_nodes : M (list NodeInfo) :=
  let* s := get_self in
  let* res :=
    execute (table_select NODES_TABLE ["*"]
             |> filter_eq "account_id" (JStr (account_id s))
             |> filter_eq "cluster_id" (JStr (cluster s))
             |> filter_eq "deleted" (JBool false)) in
  (if py_not_in (res !! "status_code") [200]%Z then
     logging ERROR "Failed to get existing nodes (supabase) error: {res.get('data')}" ;;
     handle_supabase_error ;;
     raise (Exception "Failed to get existing nodes (supabase) error: {res.get('data')}")
   else ret tt) ;;
  lift (let+ rows := py_iter (res !! "data") in traverse node_of_row rows).

(** [SupabaseDal.__to_db_node] *)
Definition __to_db_node (s : SupabaseDal) (node : NodeInfo) : Dict :=
  <["updated_at" := JStr "now()"]>
    (<["cluster_id" := JStr (cluster s)]>
       (<["account_id" := JStr (account_id s)]> (node_dict node))).

(** [SupabaseDal.publish_nodes] *)
Definition publish_nodes (nodes : list NodeInfo) : M unit :=
  match nodes with
  | [] => ret tt
  | _ =>
      let* s := get_self in
      let db_nodes := map (__to_db_node s) nodes in
      let* res := execute (table_insert NODES_TABLE (Rows db_nodes) true) in
      if py_not_in (res !! "status_code") [200; 201]%Z then
        logging ERROR "Failed to persist node {nodes} error: {res.get('data')}" ;;
        handle_supabase_error ;;
        raise (Exception "publish nodes failed. status: {status_code}")
      else ret tt
  end.

(** *** Jobs *)

(** [SupabaseDal.get_active_jobs] *)
Definition get_active_jobs : M (list JobInfo) :=
  let* s := get_self in
  let* res :=
    execute (table_select JOBS_TABLE ["*"]
             |> filter_eq "account_id" (JStr (account_id s))
             |> filter_eq "cluster_id" (JStr (cluster s))
             |> filter_eq "deleted" (JBool false)) in
  (if py_not_in (res !! "status_code") [200]%Z then
     logging ERROR "Failed to get existing jobs (supabase) error: {res.get('data')}" ;;
     handle_supabase_error ;;
     raise (Exception "Failed to get existing jobs (supabase) error: {res.get('data')}")
   else ret tt) ;;
  lift (let+ rows := py_iter (res !! "data") in traverse (job_from_db_row E) rows).

(** [SupabaseDal.__to_db_job] *)
Definition __to_db_job (s : SupabaseDal) (job : JobInfo) : Dict :=
  <["updated_at" := JStr "now()"]>
    (<["service_key" := job_service_key job]>
       (<["cluster_id" := JStr (cluster s)]>
          (<["account_id" := JStr (account_id s)]> (job_dict job)))).

(** [SupabaseDal.publish_jobs] *)
Definition publish_jobs (jobs : list JobInfo) : M unit :=
  match jobs with
  | [] => ret tt
  | _ =>
      let* s := get_self in
      let db_jobs := map (__to_db_job s) jobs in
      let* res := execute (table_insert JOBS_TABLE (Rows db_jobs) true) in
      if py_not_in (res !! "status_code") [200; 201]%Z then
        logging ERROR "Failed to persist jobs {jobs} error: {res.get('data')}" ;;
        handle_supabase_error ;;
        raise (Exception "publish jobs failed. status: {status_code}")
      else ret tt
  end.

(** [SupabaseDal.remove_deleted_job]; [None] is Python's [None]. *)
Definition remove_deleted_job (job : option JobInfo) : M unit :=
  match job with
  | None => ret tt
  | Some j =>
      let* s := get_self in
      let* res :=
        __delete_patch (table_delete JOBS_TABLE
                        |> filter_eq "account_id" (JStr (account_id s))
                        |> filter_eq "cluster_id" (JStr (cluster s))
                        |> filter_eq "service_key" (job_service_key j)) in
      let status_code := res !! "status_code" in
      let valid_deleted_statuses := [204; 200; 202]%Z in
      if py_not_in status_code valid_deleted_statuses then
        logging ERROR "Failed to delete job {job} error: {res.get('data')}" ;;
        handle_supabase_error ;;
        raise (Exception "remove deleted job failed. status: {status_code}")
      else ret tt
  end.

(** *** Helm releases *)

(** [SupabaseDal.get_active_helm_release] *)
Definition get_active_helm_release : M (list HelmRelease) :=
  let* s := get_self in
  let* res :=
    execute (table_select HELM_RELEASES_TABLE ["*"]
             |> filter_eq "account_id" (JStr (account_id s))
             |> filter_eq "cluster_id" (JStr (cluster s))
             |> filter_eq "deleted" (JBool false)) in
  (if py_not_in (res !! "status_code") [200]%Z then
     logging ERROR "Failed to get existing helm releases (supabase) error: {res.get('data')}" ;;
     handle_supabase_error ;;
     raise (Exception "Failed to get existing helm releases (supabase) error: {res.get('data')}")
   else ret tt) ;;
  lift (let+ rows := py_iter (res !! "data") in traverse (helm_from_db_row E) rows).

(** [SupabaseDal.__to_db_helm_release] *)
Definition __to_db_helm_release (s : SupabaseDal) (helm_release : HelmRelease) : Dict :=
  <["updated_at" := JStr "now()"]>
    (<["service_key" := helm_service_key helm_release]>
       (<["cluster_id" := JStr (cluster s)]>
          (<["account_id" := JStr (account_id s)]> (helm_dict helm_release)))).

(** [SupabaseDal.publish_helm_releases] *)
Definition publish_helm_releases (helm_releases : list HelmRelease) : M unit :=
  match helm_releases with
  | [] => ret tt
  | _ =>
      let* s := get_self in
      let db_helm_releases := map (__to_db_helm_release s) helm_releases in
      logging DEBUG "[supabase] Publishing the helm_releases {db_helm_releases}" ;;
      let* res :=
        execute (table_insert HELM_RELEASES_TABLE (Rows db_helm_releases) true) in
      if py_not_in (res !! "status_code") [200; 201]%Z then
        logging ERROR "Failed to persist helm_releases {helm_releases} error: {res.get('data')}" ;;
        handle_supabase_error ;;
        raise (Exception "publish helm_releases failed. status: {status_code}")
      else ret tt
  end.

(** *** Cluster status *)

(** [SupabaseDal.to_db_cluster_status] *)
Definition to_db_cluster_status (data : ClusterStatus) : M Dict :=
  let db_cluster_status := cluster_status_dict data in
  let db_cluster_status :=
    match last_alert_at data with
    | None => delete "last_alert_at" db_cluster_status
    | Some _ => db_cluster_status
    end in
  let db_cluster_status := <["updated_at" := JStr "now()"]> db_cluster_status in
  logging INFO "cluster status {log_cluster_status}" ;;
  ret db_cluster_status.

(** [SupabaseDal.publish_cluster_status] *)
Definition publish_cluster_status (cluster_status : ClusterStatus) : M unit :=
  let* row := to_db_cluster_status cluster_status in
  let* res := execute (table_insert CLUSTERS_STATUS_TABLE (OneRow row) true) in
  if py_not_in (res !! "status_code") [200; 201]%Z then
    let* _row := to_db_cluster_status cluster_status in
    logging ERROR "Failed to upsert {self.to_db_cluster_status(cluster_status)} error: {res.get('data')}" ;;
    handle_supabase_error
  else ret tt.

(** *** Namespaces *)

(** [SupabaseDal.get_active_namespaces] *)
Definition get_active_namespaces : M (list NamespaceInfo) :=
  let* s := get_self in
  let* res :=
    execute (table_select NAMESPACES_TABLE ["*"]
             |> filter_eq "account_id" (JStr (account_id s))
             |> filter_eq "cluster_id" (JStr (cluster s))
             |> filter_eq "deleted" (JBool false)) in
  (if py_not_in (res !! "status_code") [200]%Z then
     logging ERROR "Failed to get existing namespaces (supabase) error: {res.get('data')}" ;;
     handle_supabase_error ;;
     raise (Exception "get active namespaces failed. status: {res.get('status_code')}")
   else ret tt) ;;
  lift (let+ rows := py_iter (res !! "data") in
        traverse (namespace_from_db_row E) rows).

(** [SupabaseDal.__to_db_namespace] *)
Definition __to_db_namespace (s : SupabaseDal) (namespace : NamespaceInfo) : Dict :=
  <["updated_at" := JStr "now()"]>
    (<["cluster_id" := JStr (cluster s)]>
       (<["account_id" := JStr (account_id s)]> (namespace_dict namespace))).

(** [SupabaseDal.publish_namespaces] *)
Definition publish_namespaces (namespaces : list NamespaceInfo) : M unit :=
  match namespaces with
  | [] => ret tt
  | _ =>
      let* s := get_self in
      let db_namespaces := map (__to_db_namespace s) namespaces in
      let* res := execute (table_insert NAMESPACES_TABLE (Rows db_namespaces) true) in
      if py_not_in (res !! "status_code") [200; 201]%Z then
        logging ERROR "Failed to persist namespaces {namespaces} error: {res.get('data')}" ;;
        handle_supabase_error ;;
        raise (Exception "publish namespaces failed. status: {status_code}")
      else ret tt
  end.

(** [SupabaseDal.publish_cluster_nodes] *)
Definition publish_cluster_nodes (node_count : Z) : M unit :=
  let* s := get_self in
  let data : Dict :=
    <["_account_id" := JStr (account_id s)]>
    (<["_cluster_id" := JStr (cluster s)]>
    (<["_node_count" := JNum node_count]> ∅)) in
  let* res := __rpc_patch UPDATE_CLUSTER_NODE_COUNT data in
  (if py_not_in (res !! "status_code") [200; 201; 204]%Z then
     logging ERROR "Failed to publish node count {data} error: {res.get('data')}" ;;
     handle_supabase_error
   else ret tt) ;;
  logging INFO "cluster nodes: {UPDATE_CLUSTER_NODE_COUNT} => {data}".

(** [SupabaseDal.__init__], run after the effects [before].  The attributes
    are set, the client is built (which may raise), then [sign_in] runs (which
    may raise too).  When the constructor raises no instance is returned, so
    the attributes of the world on that path are not observable; the
    assignments that follow [sign_in] cannot fail and are made at once. *)
Definition __init__ (url key account_id email password sink_name cluster_name
                       signing_key : string) (before : list Event)
  : (exn + unit) * World :=
  let w := mkWorld (mkDal url key account_id cluster_name email password 0
                      sink_name signing_key None)
             before in
  match RobustaClient_init E url key with
  | Some e => (inl e, w)
  | None => sign_in w
  end.

(** *** Auth headers *)

(** [str(v)] as used in an f-string. *)
Definition py_str (v : JSON) : string :=
  match v with
  | JStr s => s
  | _ => repr E v
  end.

(** [RobustaClient._get_auth_headers] *)
Definition _get_auth_headers (self : RobustaClient) : exn + gmap string string :=
  let auth := client_auth self in
  let session := match auth with
                 | Some a => current_session a
                 | None => None
                 end in
  let+ access_token :=
    match session with
    | Some d =>
        if dict_truthy d then
          let+ tok := dict_subscript d "access_token" in
          if truthy tok then
            (* auth.session()["access_token"] *)
            match auth_session auth with
            | Some d' => let+ v := dict_subscript d' "access_token" in inr (py_str v)
            | None => inl (TypeError "'NoneType' object is not subscriptable")
            end
          else inr (supabase_key self)
        else inr (supabase_key self)
    | None => inr (supabase_key self)
    end in
  inr (<["apiKey" := supabase_key self]>
         (<["Authorization" := "Bearer " ++ access_token]> ∅)).

End Dal.

(** ** The caller-facing operations *)

Inductive Operation : Type :=
| PersistFinding (finding : Finding)
| PersistServices (services : list ServiceInfo)
| GetActiveServices
| HasClusterFindings
| GetActiveNodes
| PublishNodes (nodes : list NodeInfo)
| GetActiveJobs
| PublishJobs (jobs : list JobInfo)
| RemoveDeletedJob (job : option JobInfo)
| GetActiveHelmRelease
| PublishHelmReleases (helm_releases : list HelmRelease)
| PublishClusterStatus (cluster_status : ClusterStatus)
| GetActiveNamespaces
| PublishNamespaces (namespaces : list NamespaceInfo)
| PublishClusterNodes (node_count : Z).

(** Run a computation for its effects. *)
Definition discard {A} (m : M A) : M unit := let* _ := m in ret tt.

(** Call one operation on the instance, dropping the value it returns. *)
Definition perform (E : Env) (op : Operation) : M unit :=
  match op with
  | PersistFinding finding => persist_finding E finding
  | PersistServices services => persist_services E services
  | GetActiveServices => discard (get_active_services E)
  | HasClusterFindings => discard (has_cluster_findings E)
  | GetActiveNodes => discard (get_active_nodes E)
  | PublishNodes nodes => publish_nodes E nodes
  | GetActiveJobs => discard (get_active_jobs E)
  | PublishJobs jobs => publish_jobs E jobs
  | RemoveDeletedJob job => remove_deleted_job E job
  | GetActiveHelmRelease => discard (get_active_helm_release E)
  | PublishHelmReleases helm_releases => publish_helm_releases E helm_releases
  | PublishClusterStatus cluster_status => publish_cluster_status E cluster_status
  | GetActiveNamespaces => discard (get_active_namespaces E)
  | PublishNamespaces namespaces => publish_namespaces E namespaces
  | PublishClusterNodes node_count => publish_cluster_nodes E node_count
  end.

(** ** Trace invariants *)

(** The tenant scope of an instance. *)
Definition in_scope (acct cl : string) (s : SupabaseDal) : Prop :=
  account_id s = acct /\ cluster s = cl.

(** [emits_only acct cl phi m]: started on an instance of scope
    [(acct, cl)], the computation [m] keeps that scope and only appends events
    satisfying [phi] to the trace. *)
Definition emits_only (acct cl : string) (phi : Event -> Prop) {A} (m : M A) : Prop :=
  forall w, in_scope acct cl (self w) ->
    in_scope acct cl (self (snd (m w)))
    /\ exists added, trace (snd (m w)) = (added ++ trace w)%list
                     /\ Forall phi added.

(** Events that are not requests to the gateway. *)
Definition local_event (e : Event) : Prop :=
  match e with
  | EvTime | EvLog _ _ | EvAuthSignIn _ _ => True
  | _ => False
  end.

(** The column holding the cluster identifier in each table. *)
Definition cluster_column (t : string) : string :=
  if String.eqb t SERVICES_TABLE || String.eqb t ISSUES_TABLE
  then "cluster" else "cluster_id".

(** The values a query's filters require of column [col]. *)
Definition filter_values (col : string) (q : Query) : list JSON :=
  map snd (List.filter (fun f => String.eqb (fst f) col) (q_filters q)).

Definition row_in_scope (acct cl col : string) (row : Dict) : Prop :=
  row !! "account_id" = Some (JStr acct) /\ row !! col = Some (JStr cl).

Definition query_in_scope (E : Env) (acct cl : string) (q : Query) : Prop :=
  match q_verb q with
  | Select _ | Delete =>
      filter_values "account_id" q = [JStr acct]
      /\ filter_values (cluster_column (q_table q)) q = [JStr cl]
  | Insert (Rows rows) _ =>
      Forall (row_in_scope acct cl (cluster_column (q_table q))) rows
  | Insert (OneRow row) _ =>
      (q_table q = EVIDENCE_TABLE
       /\ exists sink sk fid enrichment,
            row = to_evidence_json E acct cl sink sk fid enrichment)
      \/ (q_table q = ISSUES_TABLE
          /\ exists finding, row = to_finding_json E acct cl finding)
      \/ q_table q = CLUSTERS_STATUS_TABLE
  end.

(** What every request of the data-access layer satisfies: selects filter on
    the instance's account and cluster; the raw delete is built from a query
    that filters on them and is sent to that query's rendering by the client
    library with every [%22] removed; rows of bulk writes and RPC arguments
    carry them; evidence and issue rows are built by [ModelConversion] from
    them; a cluster-status row is the entity's own mapping. *)
Definition tenant_scoped (E : Env) (acct cl : string) (e : Event) : Prop :=
  match e with
  | EvExecute q => query_in_scope E acct cl q
  | EvRequestsDelete target q =>
      query_in_scope E acct cl q
      /\ target = (rstrip_slash (base_url E (q_table q)) ++ "?"
                   ++ remove_pct22 (params E q))%string
  | EvRequestsPost _ body =>
      body !! "_account_id" = Some (JStr acct)
      /\ (body !! "_cluster" = Some (JStr cl)
          \/ body !! "_cluster_id" = Some (JStr cl))
  | EvTime | EvLog _ _ | EvAuthSignIn _ _ => True
  end.

(** A cluster status reported for another tenant. *)
Definition example_foreign_status : ClusterStatus :=
  mkClusterStatus None []
    (<["account_id" := JStr "acct-2"]>
       (<["cluster_id" := JStr "cluster-b"]>
          (<["version" := JStr "0.10.0"]> ∅))).

(** A write to the evidence or the issues table. *)
Definition is_finding_write (e : Event) : bool :=
  match e with
  | EvExecute q =>
      String.eqb (q_table q) EVIDENCE_TABLE || String.eqb (q_table q) ISSUES_TABLE
  | _ => false
  end.

(** From its [k]-th call on, the gateway answers every [execute()] with
    status 200 or 201. *)
Definition gateway_succeeds_from (E : Env) (k : nat) : Prop :=
  forall n, (k <= n)%nat ->
    exists res : Dict,
      gateway E n = inr res /\ py_in (res !! "status_code") [200; 201]%Z = true.

(** From its [k]-th call on, every raw request is answered with status 200,
    201 or 204. *)
Definition transport_succeeds_from (E : Env) (k : nat) : Prop :=
  forall n, (k <= n)%nat ->
    exists response : Response,
      transport E n = inr response
      /\ existsb (Z.eqb (status_code response)) [200; 201; 204]%Z = true.

(** A finding whose only enrichment is a scan report. *)
Definition example_scan_enrichment : Enrichment :=
  mkEnrichment
    [ScanReportBlock (JStr "scan-1") "2023-01-01 10:00:00" "2023-01-01 10:05:00"
       (JStr "popeye") (JNum 87)
       [mkScanReportRow (<["scan_id" := JStr "scan-1"]> ∅)]]
    (<["scan" := JBool true]> ∅).

Definition example_scan_finding : Finding :=
  mkFinding (JStr "finding-1") [example_scan_enrichment].

(** A finding with one ordinary enrichment. *)
Definition example_enrichment : Enrichment := mkEnrichment [OtherBlock] ∅.

Definition example_finding : Finding :=
  mkFinding (JStr "finding-2") [example_enrichment].

(** A world reached from [w] by appending events. *)
Definition later (w w' : World) : Prop :=
  self w' = self w /\ exists added, trace w' = (added ++ trace w)%list.

(** ** Classification of results *)

(** An operation treats its result as a failure when it logs an error. *)
Definition errors (w : World) : nat := count is_error_log (trace w).

Definition failed (E : Env) (op : Operation) (w : World) : Prop :=
  (errors w < errors (snd (perform E op w)))%nat.

(** The operations that send exactly one request, by kind of request. *)
Inductive Kind : Type := KSelect | KUpsert | KDelete | KRpc.

Definition kind_of (op : Operation) : option Kind :=
  match op with
  | GetActiveServices | HasClusterFindings | GetActiveNodes | GetActiveJobs
  | GetActiveHelmRelease | GetActiveNamespaces => Some KSelect
  | PersistServices (_ :: _) | PublishNodes (_ :: _) | PublishJobs (_ :: _)
  | PublishHelmReleases (_ :: _) | PublishNamespaces (_ :: _)
  | PublishClusterStatus _ => Some KUpsert
  | RemoveDeletedJob (Some _) => Some KDelete
  | PublishClusterNodes _ => Some KRpc
  | _ => None
  end.

(** The statuses the code accepts for each kind. *)
Definition accepted (k : Kind) : list Z :=
  match k with
  | KSelect => [200]
  | KUpsert => [200; 201]
  | KDelete => [200; 202; 204]
  | KRpc => [200; 201; 204]
  end%Z.

(** The status an operation of kind [k] observes, given the answer [res] of
    the client library and the raw [response]. *)
Definition observed (k : Kind) (res : Dict) (response : Response) : option JSON :=
  match k with
  | KSelect | KUpsert => res !! "status_code"
  | KDelete | KRpc => Some (JNum (status_code response))
  end.

(** ** Auxiliary definitions for the statements *)

Definition with_sign_in (s : SupabaseDal) (t : Q) (ss : option Dict) : SupabaseDal :=
  mkDal (url s) (key s) (account_id s) (cluster s) (email s) (password s) t
    (sink_name s) (signing_key s) ss.

Definition raised (failure : option exn) : exn + unit :=
  match failure with
  | Some e => inl e
  | None => inr tt
  end.

(** Number of identity-service round trips performed so far. *)
Definition sign_in_calls (w : World) : nat := count is_auth_sign_in (trace w).

(** Number of clock readings so far: the next [time.time()] returns
    [now E (clock_reads w)]. *)
Definition clock_reads (w : World) : nat := count is_time (trace w).

(** ** Example environments and instances *)

Definition example_dal : SupabaseDal :=
  mkDal "https://db.example" "anon-key" "acct-1" "cluster-a" "agent@example"
    "secret" 0 "robusta_ui" "signing" None.

Definition example_world : World := mkWorld example_dal [].

Definition example_session : Dict := <["access_token" := JStr "jwt-1"]> ∅.

(** A decoder recognising a few literals, enough to run the examples. *)
Definition example_loads (body : string) : option JSON :=
  if String.eqb body "[]" then Some (JArr [])
  else if String.eqb body "{}" then Some (JObj [])
  else if String.eqb body "null" then Some JNull
  else None.

(** A constructor for the examples: it takes the arguments as they are and
    rejects a missing name. *)
Definition example_service_init (kwargs : Dict) : exn + ServiceInfo :=
  match kwargs !! "name" with
  | None | Some JNull => inl (LibraryError "pydantic.ValidationError")
  | Some name =>
      inr (mkServiceInfo name
             (default JNull (kwargs !! "service_type"))
             (default JNull (kwargs !! "namespace"))
             (default JNull (kwargs !! "classification"))
             (JBool false)
             (match kwargs !! "service_config" with
              | Some JNull | None => None
              | Some c => Some c
              end)
             (default JNull (kwargs !! "total_pods"))
             (default JNull (kwargs !! "ready_pods")))
  end.

(** The clock reads 1000, 1001, 1500, 3000, 3001, ...; the cooldown is 900
    seconds; every round trip succeeds. *)
Definition example_env : Env :=
  mkEnv 900
    (fun n => match n with
              | 0%nat => 1000 | 1%nat => 1001 | 2%nat => 1500 | 3%nat => 3000
              | _ => 3001
              end%Q)
    (fun _ => (None, Some example_session))
    (fun _ => inr (<["data" := JArr []]> (<["status_code" := JNum 201]> ∅)))
    (fun _ => inr (mkResponse 200 ""))
    example_loads
    (fun t => "https://db.example/rest/v1/" ++ t ++ "/")
    (fun _ => "account_id=eq.%22acct-1%22")
    "scan"
    (fun _ => "<value>")
    (fun _ => JStr "ns/Deployment/app")
    (fun _ => inr (mkJobInfo ∅ (JStr "ns/Job/j")))
    (fun _ => inr (mkHelmRelease ∅ (JStr "ns/helm/h")))
    (fun _ => inr (mkNamespaceInfo ∅))
    (fun account cl _ _ _ _ =>
       <["account_id" := JStr account]> (<["cluster_id" := JStr cl]> ∅))
    (fun account cl _ =>
       <["account_id" := JStr account]> (<["cluster" := JStr cl]> ∅))
    example_service_init
    (fun kwargs => inr (mkNodeInfo kwargs))
    (fun address api_key =>
       if String.eqb address "" then Some (Exception "supabase_url is required")
       else if String.eqb api_key "" then Some (Exception "supabase_key is required")
       else None).

(** Variants of an environment. *)
Definition with_identity (E : Env) (idp : nat -> option exn * option Dict) : Env :=
  mkEnv (SUPABASE_LOGIN_RATE_LIMIT_SEC E) (now E) idp (gateway E)
    (transport E) (json_loads E) (base_url E) (params E) (SCAN E) (repr E)
    (service_get_service_key E) (job_from_db_row E) (helm_from_db_row E)
    (namespace_from_db_row E) (to_evidence_json E) (to_finding_json E)
    (ServiceInfo_init E) (NodeInfo_init E) (RobustaClient_init E).

Definition with_gateway (E : Env) (gw : nat -> exn + Dict) : Env :=
  mkEnv (SUPABASE_LOGIN_RATE_LIMIT_SEC E) (now E) (identity E) gw
    (transport E) (json_loads E) (base_url E) (params E) (SCAN E) (repr E)
    (service_get_service_key E) (job_from_db_row E) (helm_from_db_row E)
    (namespace_from_db_row E) (to_evidence_json E) (to_finding_json E)
    (ServiceInfo_init E) (NodeInfo_init E) (RobustaClient_init E).

Definition with_transport (E : Env) (tp : nat -> exn + Response) : Env :=
  mkEnv (SUPABASE_LOGIN_RATE_LIMIT_SEC E) (now E) (identity E) (gateway E)
    tp (json_loads E) (base_url E) (params E) (SCAN E) (repr E)
    (service_get_service_key E) (job_from_db_row E) (helm_from_db_row E)
    (namespace_from_db_row E) (to_evidence_json E) (to_finding_json E)
    (ServiceInfo_init E) (NodeInfo_init E) (RobustaClient_init E).

(** An identity service that is down. *)
Definition example_env_auth_down : Env :=
  with_identity example_env
    (fun _ => (Some (LibraryError "gotrue: connection refused"), None)).

(** A gateway answering raw requests with an HTML error page. *)
Definition example_env_html_error : Env :=
  with_transport example_env
    (fun _ => inr (mkResponse 500 "<html>Internal Server Error</html>")).

(** A gateway answering raw requests with 204 and no body. *)
Definition example_env_no_content : Env :=
  with_transport example_env (fun _ => inr (mkResponse 204 "")).

Definition example_delete_query : Query :=
  table_delete JOBS_TABLE
  |> filter_eq "account_id" (JStr "acct-1")
  |> filter_eq "cluster_id" (JStr "cluster-a")
  |> filter_eq "service_key" (JStr "ns/Job/backup").

(** The result dict built by both normalisers. *)
Definition result_dict (data : JSON) (status : Z) : Dict :=
  <["data" := data]> (<["status_code" := JNum status]> ∅).

(** Clients for the auth-header examples. *)
Definition example_client_signed_out : RobustaClient :=
  mkClient "anon-key" (Some (mkAuthClient None)).

Definition example_client_odd_session : RobustaClient :=
  mkClient "anon-key"
    (Some (mkAuthClient (Some (<["user" := JStr "agent@example"]> ∅)))).

(** The access-token entry of the client's current session, if any. *)
Definition session_token (c : RobustaClient) : option JSON :=
  match auth_session (client_auth c) with
  | Some d => d !! "access_token"
  | None => None
  end.

(** The bearer credential: the session's token when there is a non-empty
    one, the static key otherwise. *)
Definition bearer (E : Env) (c : RobustaClient) : string :=
  match session_token c with
  | Some v => if truthy v then py_str E v else supabase_key c
  | None => supabase_key c
  end.

(** A gateway that rejects the evidence insert of a finding with 401 and
    accepts the issue insert that follows. *)
Definition example_env_evidence_rejected : Env :=
  with_gateway example_env
    (fun n => match n with
              | 0%nat => inr (<["data" := JStr "JWT expired"]>
                                (<["status_code" := JNum 401]> ∅))
              | _ => inr (<["data" := JArr []]> (<["status_code" := JNum 201]> ∅))
              end).

(** A gateway that accepts the evidence insert and rejects the issue insert
    with 401. *)
Definition example_env_issue_rejected : Env :=
  with_gateway example_env
    (fun n => match n with
              | 1%nat => inr (<["data" := JStr "JWT expired"]>
                                (<["status_code" := JNum 401]> ∅))
              | _ => inr (<["data" := JArr []]> (<["status_code" := JNum 201]> ∅))
              end).

(** ** Definitions for the further properties *)

(** A run of [n] slashes. *)
Fixpoint slashes (n : nat) : string :=
  match n with
  | O => EmptyString
  | S n' => String "/"%char (slashes n')
  end.

Fixpoint last_char (s : string) : option ascii :=
  match s with
  | EmptyString => None
  | String c EmptyString => Some c
  | String _ r => last_char r
  end.

(** [c in s] *)
Fixpoint has_char (c : ascii) (s : string) : bool :=
  match s with
  | EmptyString => false
  | String c' r => Ascii.eqb c c' || has_char c r
  end.

(** The row [to_db_cluster_status] builds, without the logging. *)
Definition cluster_status_row (data : ClusterStatus) : Dict :=
  <["updated_at" := JStr "now()"]>
    (match last_alert_at data with
     | None => delete "last_alert_at" (cluster_status_dict data)
     | Some _ => cluster_status_dict data
     end).

(** The columns [get_active_services] selects. *)
Definition service_columns : list string :=
  ["name"; "type"; "namespace"; "classification"; "config"; "ready_pods";
   "total_pods"].

(** A row object with every column [service_of_row] subscripts. *)
Definition has_service_columns (row : JSON) : bool :=
  match row with
  | JObj fields =>
      forallb (fun k => match assoc k fields with Some _ => true | None => false end)
        ["name"; "type"; "namespace"; "classification"; "ready_pods"; "total_pods"]
  | _ => false
  end.

(** The query sent by [get_active_services]. *)
Definition active_services_query (s : SupabaseDal) : Query :=
  table_select SERVICES_TABLE service_columns
  |> filter_eq "account_id" (JStr (account_id s))
  |> filter_eq "cluster" (JStr (cluster s))
  |> filter_eq "deleted" (JBool false).

Definition example_service : ServiceInfo :=
  mkServiceInfo (JStr "api") (JStr "Deployment") (JStr "prod") (JStr "None")
    (JBool true) (Some (JObj [("replicas", JNum 2)])) (JNum 2) (JNum 1).

Definition example_service_row : JSON :=
  JObj [("name", JStr "api"); ("type", JStr "Deployment");
        ("namespace", JStr "prod"); ("classification", JStr "None");
        ("config", JObj [("replicas", JNum 2)]);
        ("ready_pods", JNum 1); ("total_pods", JNum 2)].


(** The query sent by [has_cluster_findings]. *)
Definition cluster_findings_query (s : SupabaseDal) : Query :=
  table_select ISSUES_TABLE ["*"]
  |> filter_eq "account_id" (JStr (account_id s))
  |> filter_eq "cluster" (JStr (cluster s))
  |> limit 1.

(** Number of requests sent to the gateway so far, through the client
    library or raw. *)
Definition requests_sent (w : World) : nat :=
  (count is_execute (trace w) + count is_requests (trace w))%nat.

(** The request of an operation of kind [k] started in [w] raises [e]. *)
Definition outcome_raises (E : Env) (w : World) (k : Kind) (e : exn) : Prop :=
  match k with
  | KSelect | KUpsert => gateway E (count is_execute (trace w)) = inl e
  | KDelete | KRpc => transport E (count is_requests (trace w)) = inl e
  end.

(** The two single-request operations that log a failure and go on. *)
Definition continues_on_failure (op : Operation) : bool :=
  match op with
  | PublishClusterStatus _ | PublishClusterNodes _ => true
  | _ => false
  end.

(** A gateway that refuses connections. *)
Definition example_env_gateway_down : Env :=
  with_transport
    (with_gateway example_env (fun _ => inl (LibraryError "ConnectionError")))
    (fun _ => inl (LibraryError "ConnectionError")).

(** From its [k]-th call on, [execute()] returns a result (it does not
    raise), whatever the status. *)
Definition gateway_returns_from (E : Env) (k : nat) : Prop :=
  forall n, (k <= n)%nat -> exists res : Dict, gateway E n = inr res.

(** A gateway that rejects everything with 500. *)
Definition example_env_rejecting : Env :=
  with_gateway example_env
    (fun _ => inr (<["data" := JStr "boom"]> (<["status_code" := JNum 500]> ∅))).

(** [preserves I m]: the computation [m] keeps the invariant [I] of worlds,
    whether it returns or raises. *)
Definition preserves (I : World -> Prop) {A} (m : M A) : Prop :=
  forall w, I w -> I (snd (m w)).

(** A caller running operations one after the other, going on after an
    operation that raised. *)
Fixpoint perform_all (E : Env) (ops : list Operation) (w : World) : World :=
  match ops with
  | [] => w
  | op :: ops' => perform_all E ops' (snd (perform E op w))
  end.

(** The attributes of an instance that are set by the constructor only. *)
Definition settings (s : SupabaseDal)
  : string * string * string * string * string * string * string * string :=
  (url s, key s, account_id s, cluster s, email s, password s, sink_name s,
   signing_key s).

(** Every sign-in recorded in the trace used the given credentials. *)
Definition signs_in_as (em pw : string) (tr : list Event) : Prop :=
  Forall (fun e => match e with
                   | EvAuthSignIn em' pw' => em' = em /\ pw' = pw
                   | _ => True
                   end) tr.

Definition with_now (E : Env) (clock : nat -> Q) : Env :=
  mkEnv (SUPABASE_LOGIN_RATE_LIMIT_SEC E) clock (identity E) (gateway E)
    (transport E) (json_loads E) (base_url E) (params E) (SCAN E) (repr E)
    (service_get_service_key E) (job_from_db_row E) (helm_from_db_row E)
    (namespace_from_db_row E) (to_evidence_json E) (to_finding_json E)
    (ServiceInfo_init E) (NodeInfo_init E) (RobustaClient_init E).

(** The [RobustaClient] of an instance: built from its key, with an auth
    client holding the instance's current session. *)
Definition client_of (s : SupabaseDal) : RobustaClient :=
  mkClient (key s) (Some (mkAuthClient (session s))).

(** The [ServiceInfo] constructor accepts the keyword arguments taken from
    a row (vacuously when they cannot be taken). *)
Definition service_constructor_accepts (E : Env) (row : JSON) : bool :=
  match service_kwargs row with
  | inr kwargs =>
      match ServiceInfo_init E kwargs with
      | inr _ => true
      | inl _ => false
      end
  | inl _ => true
  end.

(** ** Definitions for the classification of a whole finding *)

(** The status seen by the [n]-th [execute()] and by the [n]-th raw
    request. *)
Definition gateway_status (E : Env) (n : nat) : option JSON :=
  match gateway E n with
  | inr res => res !! "status_code"
  | inl _ => None
  end.

Definition transport_status (E : Env) (n : nat) : option JSON :=
  match transport E n with
  | inr response => Some (JNum (status_code response))
  | inl _ => None
  end.

(** From its [r]-th call on, every raw request returns a response. *)
Definition transport_returns_from (E : Env) (r : nat) : Prop :=
  forall n, (r <= n)%nat -> exists response : Response, transport E n = inr response.

(** Number of scan report blocks, each of which is written with one insert
    and one RPC. *)
Fixpoint scan_block_count (bs : list Block) : nat :=
  match bs with
  | [] => 0
  | ScanReportBlock _ _ _ _ _ _ :: bs' => S (scan_block_count bs')
  | OtherBlock :: bs' => scan_block_count bs'
  end.

Fixpoint scan_writes (l : list Enrichment) : nat :=
  match l with
  | [] => 0
  | e :: l' => (scan_block_count (blocks e) + scan_writes l')%nat
  end.

(** Every scan report block of [bs] is accepted, the first one reading the
    [k]-th [execute()] status against {200, 201} and the [r]-th raw status
    against {200, 201, 204}, the next one the following statuses. *)
Fixpoint blocks_accepted (E : Env) (bs : list Block) (k r : nat) : bool :=
  match bs with
  | [] => true
  | OtherBlock :: bs' => blocks_accepted E bs' k r
  | ScanReportBlock _ _ _ _ _ _ :: bs' =>
      py_in (gateway_status E k) [200; 201]%Z
      && py_in (transport_status E r) [200; 201; 204]%Z
      && blocks_accepted E bs' (S k) (S r)
  end.

Fixpoint scans_accepted (E : Env) (l : list Enrichment) (k r : nat) : bool :=
  match l with
  | [] => true
  | e :: l' =>
      blocks_accepted E (blocks e) k r
      && scans_accepted E l' (k + scan_block_count (blocks e))
           (r + scan_block_count (blocks e))
  end.

(** Number of evidence inserts answered with a status other than 201, the
    first enrichment reading the [k]-th [execute()] status. *)
Fixpoint evidence_rejections (E : Env) (l : list Enrichment) (k : nat) : nat :=
  match l with
  | [] => 0
  | _ :: l' =>
      ((if py_in (gateway_status E k) [201]%Z then 0 else 1)
       + evidence_rejections E l' (S k))%nat
  end.

Definition is_log (lvl : Level) (msg : string) (e : Event) : bool :=
  match e, lvl with
  | EvLog DEBUG m, DEBUG | EvLog INFO m, INFO | EvLog ERROR m, ERROR =>
      String.eqb m msg
  | _, _ => false
  end.

Definition evidence_error : string :=
  "Failed to persist finding {finding.id} enrichment {enrichment} error: {res.get('data')}".

Definition issue_error : string :=
  "Failed to persist finding {finding.id} error: {res.get('data')}".

(** The queries sent through [execute()], oldest first. *)
Fixpoint executed (tr : list Event) : list Query :=
  match tr with
  | [] => []
  | EvExecute q :: tr' => (executed tr' ++ [q])%list
  | _ :: tr' => executed tr'
  end.

(** The evidence insert of one enrichment and the issue insert of a finding,
    as [persist_finding] builds them. *)
Definition evidence_query (E : Env) (s : SupabaseDal) (finding : Finding)
    (enrichment : Enrichment) : Query :=
  table_insert EVIDENCE_TABLE
    (OneRow (to_evidence_json E (account_id s) (cluster s) (sink_name s)
               (signing_key s) (finding_id finding) enrichment))
    false.

Definition issue_query (E : Env) (s : SupabaseDal) (finding : Finding) : Query :=
  table_insert ISSUES_TABLE
    (OneRow (to_finding_json E (account_id s) (cluster s) finding)) false.

(** The events [handle_supabase_error] can add. *)
Definition recovery_event (e : Event) : Prop :=
  match e with
  | EvTime | EvAuthSignIn _ _ => True
  | EvLog lvl msg =>
      (lvl = INFO /\ msg = "Supabase dal login")
      \/ (lvl = ERROR /\ msg = "Failed to sign in on error")
  | _ => False
  end.

(** An event that is not an error log. *)
Definition quiet (e : Event) : Prop := is_error_log e = false.

(** The early return of [persist_finding]: there are scans and nothing
    else. *)
Definition returns_early (E : Env) (finding : Finding) : bool :=
  (0 <? length (List.filter (is_scan E) (enrichments finding)))%nat
  && (length (List.filter (fun e => negb (is_scan E e)) (enrichments finding)) =? 0)%nat.

(** A gateway that accepts the first and the third [execute()] with 201 and
    rejects the second with 500. *)
Definition example_env_second_rejected : Env :=
  with_gateway example_env
    (fun n => match n with
              | 1%nat => inr (<["data" := JStr "boom"]>
                                (<["status_code" := JNum 500]> ∅))
              | _ => inr (<["data" := JArr []]> (<["status_code" := JNum 201]> ∅))
              end).

Definition example_finding_two : Finding :=
  mkFinding (JStr "finding-4") [example_enrichment; example_enrichment].

(** * Properties *)

(** ** Session manager *)

Lemma Qgtb_true (a b : Q) : Qgtb a b = true <-> (b < a)%Q.
Proof.
  unfold Qgtb. rewrite negb_true_iff, <- not_true_iff_false, Qle_bool_iff.
  split; [apply Qnot_le_lt | apply Qlt_not_le].
Qed.

Lemma Qgtb_false (a b : Q) : Qgtb a b = false <-> (a <= b)%Q.
Proof. unfold Qgtb. rewrite negb_false_iff. apply Qle_bool_iff. Qed.

Ltac run :=
  cbv [sign_in handle_supabase_error try_except time_time auth_sign_in
       set_sign_in_time set_session logging get_self get_index emit bind ret
       raise lift self trace].

Lemma sign_in_limited (E : Env) (w : World) :
  (now E (count is_time (trace w))
   <= sign_in_time (self w) + SUPABASE_LOGIN_RATE_LIMIT_SEC E)%Q ->
  sign_in E w = (inr tt, mkWorld (self w) (EvTime :: trace w)).
Proof.
  intros H. apply Qgtb_false in H. destruct w as [s tr]. run. simpl in *.
  now rewrite H.
Qed.

Lemma sign_in_attempt (E : Env) (w : World) :
  (sign_in_time (self w) + SUPABASE_LOGIN_RATE_LIMIT_SEC E
   < now E (count is_time (trace w)))%Q ->
  sign_in E w =
    (raised (fst (identity E (count is_auth_sign_in (trace w)))),
     mkWorld
       (with_sign_in (self w) (now E (S (count is_time (trace w))))
          (snd (identity E (count is_auth_sign_in (trace w)))))
       (EvAuthSignIn (email (self w)) (password (self w))
          :: EvTime :: EvLog INFO "Supabase dal login" :: EvTime :: trace w)).
Proof.
  intros H. apply Qgtb_true in H. destruct w as [s tr]. run. simpl in *.
  rewrite H. simpl.
  destruct (identity E (count is_auth_sign_in tr)) as [[e|] ss]; reflexivity.
Qed.

(** The constructor fixes the tenant scope and, when the client is built and
    the clock is past the cooldown, signs in once. *)
Lemma init_signs_in (E : Env)
    (address api_key account mail pass sink cluster_name sign_key : string)
    (before : list Event) :
  RobustaClient_init E address api_key = None ->
  (SUPABASE_LOGIN_RATE_LIMIT_SEC E < now E (count is_time before))%Q ->
  let w := snd (__init__ E address api_key account mail pass sink
                  cluster_name sign_key before) in
  account_id (self w) = account
  /\ cluster (self w) = cluster_name
  /\ sign_in_time (self w) = now E (S (count is_time before))
  /\ trace w = EvAuthSignIn mail pass
                 :: EvTime :: EvLog INFO "Supabase dal login" :: EvTime :: before.
Proof.
  intros Hclient Hclock. unfold __init__. rewrite Hclient.
  rewrite sign_in_attempt; [now repeat split |].
  simpl. lra.
Qed.

(** C1. Starting from a call that is not rate-limited, a second [sign_in]
    within [SUPABASE_LOGIN_RATE_LIMIT_SEC] of the recorded attempt is a silent
    no-op, so the two calls perform exactly one identity-service round trip;
    a third call after the cooldown has elapsed performs a second one. *)
Theorem sign_in_rate_limited (E : Env) (w : World) :
  let w1 := snd (sign_in E w) in
  let w2 := snd (sign_in E w1) in
  let w3 := snd (sign_in E w2) in
  (sign_in_time (self w) + SUPABASE_LOGIN_RATE_LIMIT_SEC E
   < now E (clock_reads w))%Q ->
  (now E (clock_reads w1)
   <= sign_in_time (self w1) + SUPABASE_LOGIN_RATE_LIMIT_SEC E)%Q ->
  (sign_in_time (self w2) + SUPABASE_LOGIN_RATE_LIMIT_SEC E
   < now E (clock_reads w2))%Q ->
  sign_in_calls w1 = S (sign_in_calls w)
  /\ sign_in E w1 = (inr tt, mkWorld (self w1) (EvTime :: trace w1))
  /\ sign_in_calls w2 = S (sign_in_calls w)
  /\ sign_in_calls w3 = S (S (sign_in_calls w)).
Proof.
  intros w1 w2 w3 H1 H2 H3.
  assert (E2 := sign_in_limited E w1 H2).
  assert (E3 := sign_in_attempt E w2 H3).
  subst w3. rewrite E3. subst w2. rewrite E2.
  subst w1. rewrite (sign_in_attempt E w H1).
  unfold sign_in_calls. simpl. repeat split; reflexivity.
Qed.

Lemma sign_in_rate_limited_witness :
  sign_in_calls (snd (sign_in example_env example_world)) = 1%nat
  /\ sign_in_calls
       (snd (sign_in example_env (snd (sign_in example_env example_world)))) = 1%nat
  /\ sign_in_calls
       (snd (sign_in example_env
               (snd (sign_in example_env
                       (snd (sign_in example_env example_world)))))) = 2%nat.
Proof.
  pose proof (sign_in_rate_limited example_env example_world) as H.
  cbv zeta in H.
  destruct H as (A & _ & B & C).
  - vm_compute; reflexivity.
  - vm_compute; discriminate.
  - vm_compute; reflexivity.
  - exact (conj A (conj B C)).
Defined.

(** C9. [sign_in] stores the attempt timestamp before it calls the identity
    service: when that call raises, the exception propagates, the timestamp of
    the failed attempt is already recorded, and a further [sign_in] within the
    cooldown of the failed attempt is a silent no-op. *)
Theorem sign_in_failure_consumes_cooldown
    (E : Env) (w : World) (e : exn) (ss : option Dict) :
  let w1 := snd (sign_in E w) in
  (sign_in_time (self w) + SUPABASE_LOGIN_RATE_LIMIT_SEC E
   < now E (clock_reads w))%Q ->
  identity E (sign_in_calls w) = (Some e, ss) ->
  (now E (clock_reads w1)
   <= sign_in_time (self w1) + SUPABASE_LOGIN_RATE_LIMIT_SEC E)%Q ->
  fst (sign_in E w) = inl e
  /\ sign_in_time (self w1) = now E (S (clock_reads w))
  /\ trace w1 =
       EvAuthSignIn (email (self w)) (password (self w))
         :: EvTime :: EvLog INFO "Supabase dal login" :: EvTime :: trace w
  /\ sign_in E w1 = (inr tt, mkWorld (self w1) (EvTime :: trace w1)).
Proof.
  intros w1 Hfirst Hdown Hsoon.
  pose proof (sign_in_attempt E w Hfirst) as Hrun.
  unfold sign_in_calls in Hdown. rewrite Hdown in Hrun. simpl in Hrun.
  split; [now rewrite Hrun |].
  split; [subst w1; now rewrite Hrun |].
  split; [subst w1; now rewrite Hrun |].
  now apply sign_in_limited.
Qed.

Lemma sign_in_failure_consumes_cooldown_witness :
  fst (sign_in example_env_auth_down example_world)
    = inl (LibraryError "gotrue: connection refused")
  /\ fst (sign_in example_env_auth_down
            (snd (sign_in example_env_auth_down example_world))) = inr tt
  /\ sign_in_calls
       (snd (sign_in example_env_auth_down
               (snd (sign_in example_env_auth_down example_world)))) = 1%nat.
Proof.
  pose proof (sign_in_failure_consumes_cooldown example_env_auth_down
                example_world (LibraryError "gotrue: connection refused") None)
    as H.
  cbv zeta in H.
  destruct H as (A & _ & _ & B).
  - vm_compute; reflexivity.
  - reflexivity.
  - vm_compute; discriminate.
  - split; [exact A |]. rewrite B. split; reflexivity.
Defined.

(** C5. [handle_supabase_error] never raises: whatever exception the
    [sign_in] it invokes throws is caught and logged at error level. *)
Theorem handle_supabase_error_never_raises (E : Env) (w : World) :
  fst (handle_supabase_error E w) = inr tt
  /\ forall (e : exn) (w' : World),
       sign_in E w = (inl e, w') ->
       handle_supabase_error E w =
         (inr tt,
          mkWorld (self w') (EvLog ERROR "Failed to sign in on error" :: trace w')).
Proof.
  unfold handle_supabase_error, try_except.
  destruct (sign_in E w) as [[e | []] w'] eqn:Hrun.
  - split; [reflexivity |]. intros e0 w0 Heq. now inversion Heq.
  - split; [reflexivity |]. intros e0 w0 Heq. discriminate Heq.
Qed.

Lemma handle_supabase_error_never_raises_witness :
  handle_supabase_error example_env_auth_down example_world =
    (inr tt,
     mkWorld (with_sign_in example_dal 1001 None)
       [EvLog ERROR "Failed to sign in on error";
        EvAuthSignIn "agent@example" "secret";
        EvTime; EvLog INFO "Supabase dal login"; EvTime]).
Proof.
  exact (proj2 (handle_supabase_error_never_raises example_env_auth_down
                  example_world)
           (LibraryError "gotrue: connection refused")
           (mkWorld (with_sign_in example_dal 1001 None)
              [EvAuthSignIn "agent@example" "secret";
               EvTime; EvLog INFO "Supabase dal login"; EvTime])
           eq_refl).
Defined.

(** ** Entity operations on empty input *)

(** C7. Every publish operation called with an empty list returns at once,
    without error and without any effect: the world, and with it the trace of
    network calls, is unchanged. *)
Theorem publish_empty_is_noop (E : Env) (w : World) :
  persist_services E [] w = (inr tt, w)
  /\ publish_nodes E [] w = (inr tt, w)
  /\ publish_jobs E [] w = (inr tt, w)
  /\ publish_helm_releases E [] w = (inr tt, w)
  /\ publish_namespaces E [] w = (inr tt, w).
Proof. repeat split. Qed.

(** ** Response normaliser *)

Example rstrip_slash_trailing :
  rstrip_slash "https://db.example/rest/v1/Jobs//" = "https://db.example/rest/v1/Jobs"
  /\ rstrip_slash "a/b" = "a/b" /\ rstrip_slash "//" = "".
Proof. repeat split. Qed.

Example remove_pct22_quotes :
  remove_pct22 "service_key=eq.%22ns/Job/a.b%22&x=%2" = "service_key=eq.ns/Job/a.b&x=%2".
Proof. reflexivity. Qed.

Example delete_patch_no_content :
  __delete_patch example_env_no_content example_delete_query example_world
  = (inr (result_dict (JStr "") 204),
     mkWorld example_dal
       [EvLog DEBUG "Failed to parse delete response data";
        EvRequestsDelete "https://db.example/rest/v1/Jobs?account_id=eq.acct-1"
          example_delete_query]).
Proof. reflexivity. Qed.

Lemma delete_patch_run (E : Env) (q : Query) (w : World) (response : Response) :
  transport E (count is_requests (trace w)) = inr response ->
  __delete_patch E q w =
    (inr (result_dict (default (JStr "") (json_loads E (content response)))
            (status_code response)),
     mkWorld (self w)
       (match json_loads E (content response) with
        | Some _ => []
        | None => [EvLog DEBUG "Failed to parse delete response data"]
        end
        ++ EvRequestsDelete
             (rstrip_slash (base_url E (q_table q)) ++ "?"
              ++ remove_pct22 (params E q)) q
        :: trace w)).
Proof.
  intros Hresp. destruct w as [s tr]. simpl in Hresp.
  cbv [__delete_patch requests_delete response_json try_except logging
       get_index emit bind ret raise lift self trace].
  rewrite Hresp.
  destruct (json_loads E (content response)); reflexivity.
Qed.

Lemma rpc_patch_run (E : Env) (func_name : string) (body : Dict) (w : World)
    (response : Response) :
  transport E (count is_requests (trace w)) = inr response ->
  __rpc_patch E func_name body w =
    (inr (result_dict
            (if String.eqb (content response) "" then JObj []
             else default (JObj []) (json_loads E (content response)))
            (status_code response)),
     mkWorld (self w)
       ((if String.eqb (content response) "" then []
         else match json_loads E (content response) with
              | Some _ => []
              | None => [EvLog DEBUG "Failed to parse delete response data"]
              end)
        ++ EvRequestsPost (rstrip_slash (base_url E ("rpc/" ++ func_name))) body
        :: trace w)).
Proof.
  intros Hresp. destruct w as [s tr]. simpl in Hresp.
  cbv [__rpc_patch requests_post response_json try_except logging
       get_index emit bind ret raise lift self trace].
  rewrite Hresp.
  destruct (String.eqb (content response) ""); simpl; [reflexivity |].
  destruct (json_loads E (content response)); reflexivity.
Qed.

(** C3, as the code has it.  For every HTTP response, both normalisers return
    a result (they do not raise) whose [status_code] is the HTTP status and
    whose only other entry is [data]: the decoded body, or the empty default
    (the empty string for delete, the empty dict for RPC) when the body does
    not decode; the RPC path does not try to decode an empty body.  On both
    paths a failed decode adds one debug-level log entry after the request
    and nothing else; no [parse_failure] entry exists. *)
Theorem normalizer_total (E : Env) (q : Query) (func_name : string)
    (body : Dict) (w : World) (response : Response) :
  transport E (count is_requests (trace w)) = inr response ->
  exists res_delete res_rpc : Dict,
    fst (__delete_patch E q w) = inr res_delete
    /\ fst (__rpc_patch E func_name body w) = inr res_rpc
    /\ res_delete !! "status_code" = Some (JNum (status_code response))
    /\ res_rpc !! "status_code" = Some (JNum (status_code response))
    /\ res_delete !! "data"
       = Some (default (JStr "") (json_loads E (content response)))
    /\ res_rpc !! "data"
       = Some (if String.eqb (content response) "" then JObj []
               else default (JObj []) (json_loads E (content response)))
    /\ (forall k, k <> "data" -> k <> "status_code" ->
          res_delete !! k = None /\ res_rpc !! k = None)
    /\ trace (snd (__delete_patch E q w))
       = (match json_loads E (content response) with
          | Some _ => []
          | None => [EvLog DEBUG "Failed to parse delete response data"]
          end
          ++ EvRequestsDelete
               (rstrip_slash (base_url E (q_table q)) ++ "?"
                ++ remove_pct22 (params E q))%string q
          :: trace w)%list
    /\ trace (snd (__rpc_patch E func_name body w))
       = ((if String.eqb (content response) "" then []
           else match json_loads E (content response) with
                | Some _ => []
                | None => [EvLog DEBUG "Failed to parse delete response data"]
                end)
          ++ EvRequestsPost
               (rstrip_slash (base_url E ("rpc/" ++ func_name)%string)) body
          :: trace w)%list.
Proof.
  intros Hresp.
  rewrite (delete_patch_run E q w response Hresp).
  rewrite (rpc_patch_run E func_name body w response Hresp).
  do 2 eexists. do 2 (split; [reflexivity |]). unfold result_dict.
  split; [now rewrite lookup_insert_ne, lookup_insert_eq |].
  split; [now rewrite lookup_insert_ne, lookup_insert_eq |].
  split; [now rewrite lookup_insert_eq |].
  split; [now rewrite lookup_insert_eq |].
  split.
  { intros k Hd Hs. now rewrite !lookup_insert_ne, lookup_empty by congruence. }
  split; reflexivity.
Qed.

Lemma normalizer_total_witness :
  fst (__delete_patch example_env_no_content example_delete_query example_world)
    = inr (result_dict (JStr "") 204)
  /\ fst (__rpc_patch example_env_no_content "insert_scan_meta" ∅ example_world)
     = inr (result_dict (JObj []) 204).
Proof.
  destruct (normalizer_total example_env_no_content example_delete_query
              "insert_scan_meta" ∅ example_world (mkResponse 204 "") eq_refl)
    as (rd & rr & Hd & Hr & _).
  split; [rewrite Hd | rewrite Hr]; f_equal.
  - vm_compute in Hd. now inversion Hd.
  - vm_compute in Hr. now inversion Hr.
Defined.

(** C3 as stated does not hold: an undecodable body is not recorded as
    [parse_failure = true]; the result has no such entry. *)
Lemma normalizer_has_no_parse_failure_entry :
  exists res : Dict,
    fst (__delete_patch example_env_html_error example_delete_query example_world)
      = inr res
    /\ json_loads example_env_html_error "<html>Internal Server Error</html>" = None
    /\ res !! "status_code" = Some (JNum 500)
    /\ res !! "data" = Some (JStr "")
    /\ res !! "parse_failure" <> Some (JBool true).
Proof.
  exists (result_dict (JStr "") 500).
  split; [reflexivity |]. split; [reflexivity |].
  split; [reflexivity |]. split; [reflexivity |].
  intros H. vm_compute in H. discriminate H.
Qed.

(** ** Auth headers *)

(** C10, as the code has it.  For a client whose session, when it is not
    empty, has an [access_token] entry, header construction returns headers
    with [apiKey] set to the static key and a populated [Authorization]
    entry: the bearer is the session's token when it is non-empty and the
    static key in every other case (no auth client, no session, an empty
    session, an empty token). *)
Theorem auth_headers_fallback (E : Env) (c : RobustaClient) :
  (forall d, auth_session (client_auth c) = Some d ->
             dict_truthy d = true -> is_Some (d !! "access_token")) ->
  exists headers : gmap string string,
    _get_auth_headers E c = inr headers
    /\ headers !! "apiKey" = Some (supabase_key c)
    /\ headers !! "Authorization" = Some ("Bearer " ++ bearer E c)
    /\ (session_token c = None
        \/ (exists v, session_token c = Some v /\ truthy v = false) ->
        headers !! "Authorization" = Some ("Bearer " ++ supabase_key c)).
Proof.
  intros Hwf. unfold _get_auth_headers, bearer, session_token.
  destruct c as [k [[[d|]]|]]; simpl in *.
  - destruct (dict_truthy d) eqn:Hd.
    + destruct (Hwf d eq_refl Hd) as [v Hv].
      unfold dict_subscript. rewrite Hv. simpl.
      destruct (truthy v) eqn:Hv'; simpl.
      * eexists. split; [reflexivity |].
        split; [reflexivity |]. split; [reflexivity |].
        intros [Hn | (v0 & Hn & Hf)]; congruence.
      * eexists. do 3 (split; [reflexivity |]). reflexivity.
    + assert (Hnone : d !! "access_token" = None).
      { unfold dict_truthy in Hd.
        destruct (map_to_list d) eqn:Hl; [| discriminate].
        apply map_to_list_empty_iff in Hl. subst d. apply lookup_empty. }
      rewrite Hnone. simpl. eexists. do 3 (split; [reflexivity |]). reflexivity.
  - eexists. do 3 (split; [reflexivity |]). reflexivity.
  - eexists. do 3 (split; [reflexivity |]). reflexivity.
Qed.

Lemma auth_headers_fallback_witness :
  exists headers : gmap string string,
    _get_auth_headers example_env example_client_signed_out = inr headers
    /\ headers !! "Authorization" = Some "Bearer anon-key".
Proof.
  destruct (auth_headers_fallback example_env example_client_signed_out)
    as (h & Hrun & _ & Hauth & _).
  - intros d Hd. discriminate Hd.
  - exists h. split; [exact Hrun | exact Hauth].
Defined.

(** C10 as stated does not hold: header construction is not total.  A
    session that is not empty and has no [access_token] entry makes the
    subscript raise [KeyError]. *)
Lemma auth_headers_key_error :
  session_token example_client_odd_session = None
  /\ _get_auth_headers example_env example_client_odd_session
     = inl (KeyError "access_token").
Proof. split; reflexivity. Qed.

(** ** Trace invariants of the monad *)

Section Emits.

Variables (acct cl : string) (phi : Event -> Prop).
Hypothesis phi_local : forall e, local_event e -> phi e.

Lemma emits_ret {A} (a : A) : emits_only acct cl phi (ret a).
Proof. intros w Hs. split; [exact Hs |]. now exists []. Qed.

Lemma emits_raise {A} (e : exn) : emits_only acct cl phi (@raise A e).
Proof. intros w Hs. split; [exact Hs |]. now exists []. Qed.

Lemma emits_lift {A} (r : exn + A) : emits_only acct cl phi (lift r).
Proof. destruct r; [apply emits_raise | apply emits_ret]. Qed.

Lemma emits_bind {A B} (m : M A) (k : A -> M B) :
  emits_only acct cl phi m -> (forall a, emits_only acct cl phi (k a)) ->
  emits_only acct cl phi (bind m k).
Proof.
  intros Hm Hk w Hs. unfold bind.
  destruct (Hm w Hs) as (Hs1 & added1 & Ht1 & Hphi1).
  destruct (m w) as [[e | a] w1]; simpl in *.
  - split; [exact Hs1 |]. now exists added1.
  - destruct (Hk a w1 Hs1) as (Hs2 & added2 & Ht2 & Hphi2).
    split; [exact Hs2 |]. exists (added2 ++ added1)%list.
    split; [now rewrite Ht2, Ht1, app_assoc | now apply Forall_app].
Qed.

Lemma emits_try_except {A} (m : M A) (h : exn -> M A) :
  emits_only acct cl phi m -> (forall e, emits_only acct cl phi (h e)) ->
  emits_only acct cl phi (try_except m h).
Proof.
  intros Hm Hh w Hs. unfold try_except.
  destruct (Hm w Hs) as (Hs1 & added1 & Ht1 & Hphi1).
  destruct (m w) as [[e | a] w1]; simpl in *.
  - destruct (Hh e w1 Hs1) as (Hs2 & added2 & Ht2 & Hphi2).
    split; [exact Hs2 |]. exists (added2 ++ added1)%list.
    split; [now rewrite Ht2, Ht1, app_assoc | now apply Forall_app].
  - split; [exact Hs1 |]. now exists added1.
Qed.

Lemma emits_get_self {A} (k : SupabaseDal -> M A) :
  (forall s, in_scope acct cl s -> emits_only acct cl phi (k s)) ->
  emits_only acct cl phi (bind get_self k).
Proof. intros Hk w Hs. unfold bind, get_self. now apply Hk. Qed.

Lemma emits_get_index (p : Event -> bool) :
  emits_only acct cl phi (get_index p).
Proof. intros w Hs. split; [exact Hs |]. now exists []. Qed.

Lemma emits_emit (e : Event) : phi e -> emits_only acct cl phi (emit e).
Proof.
  intros He w Hs. split; [exact Hs |]. exists [e]. split; [reflexivity |].
  now constructor.
Qed.

Lemma emits_logging (lvl : Level) (msg : string) :
  emits_only acct cl phi (logging lvl msg).
Proof. apply emits_emit, phi_local. exact I. Qed.

Lemma emits_for_each {A} (l : list A) (body : A -> M unit) :
  (forall x, emits_only acct cl phi (body x)) ->
  emits_only acct cl phi (for_each l body).
Proof.
  intros Hbody. induction l as [| x l IH]; simpl.
  - apply emits_ret.
  - apply emits_bind; [apply Hbody | intros _; exact IH].
Qed.

Lemma emits_set_sign_in_time (t : Q) : emits_only acct cl phi (set_sign_in_time t).
Proof. intros w Hs. split; [exact Hs |]. now exists []. Qed.

Lemma emits_set_session (ss : option Dict) : emits_only acct cl phi (set_session ss).
Proof. intros w Hs. split; [exact Hs |]. now exists []. Qed.

Lemma emits_sign_in (E : Env) : emits_only acct cl phi (sign_in E).
Proof.
  unfold sign_in, time_time, auth_sign_in.
  apply emits_bind.
  { apply emits_bind; [apply emits_get_index | intros n].
    apply emits_bind; [apply emits_emit, phi_local; exact I | intros _].
    apply emits_ret. }
  intros t. apply emits_get_self. intros s Hs.
  destruct (Qgtb _ _); [| apply emits_ret].
  apply emits_bind; [apply emits_logging | intros _].
  apply emits_bind.
  { apply emits_bind; [apply emits_get_index | intros n].
    apply emits_bind; [apply emits_emit, phi_local; exact I | intros _].
    apply emits_ret. }
  intros t'. apply emits_bind; [apply emits_set_sign_in_time | intros _].
  apply emits_bind; [apply emits_get_index | intros n].
  apply emits_bind; [apply emits_emit, phi_local; exact I | intros _].
  destruct (identity E n) as [failure ss].
  apply emits_bind; [apply emits_set_session | intros _].
  destruct failure; [apply emits_raise | apply emits_ret].
Qed.

Lemma emits_handle_supabase_error (E : Env) :
  emits_only acct cl phi (handle_supabase_error E).
Proof.
  apply emits_try_except; [apply emits_sign_in | intros e; apply emits_logging].
Qed.

Lemma emits_execute (E : Env) (q : Query) :
  phi (EvExecute q) -> emits_only acct cl phi (execute E q).
Proof.
  intros Hq. unfold execute.
  apply emits_bind; [apply emits_get_index | intros n].
  apply emits_bind; [now apply emits_emit | intros _]. apply emits_lift.
Qed.

Lemma emits_delete_patch (E : Env) (q : Query) :
  phi (EvRequestsDelete
         (rstrip_slash (base_url E (q_table q)) ++ "?"
          ++ remove_pct22 (params E q))%string q) ->
  emits_only acct cl phi (__delete_patch E q).
Proof.
  intros Hq. unfold __delete_patch, requests_delete, response_json.
  apply emits_bind.
  { apply emits_bind; [apply emits_get_index | intros n].
    apply emits_bind; [apply emits_emit, Hq | intros _]. apply emits_lift. }
  intros response. apply emits_bind; [| intros data; apply emits_ret].
  apply emits_try_except.
  - destruct (json_loads E (content response)); [apply emits_ret | apply emits_raise].
  - intros e. apply emits_bind; [apply emits_logging | intros _; apply emits_ret].
Qed.

Lemma emits_rpc_patch (E : Env) (func_name : string) (body : Dict) :
  (forall target, phi (EvRequestsPost target body)) ->
  emits_only acct cl phi (__rpc_patch E func_name body).
Proof.
  intros Hq. unfold __rpc_patch, requests_post, response_json.
  apply emits_bind.
  { apply emits_bind; [apply emits_get_index | intros n].
    apply emits_bind; [apply emits_emit, Hq | intros _]. apply emits_lift. }
  intros response. apply emits_bind; [| intros data; apply emits_ret].
  apply emits_try_except.
  - destruct (negb _); [| apply emits_ret].
    destruct (json_loads E (content response)); [apply emits_ret | apply emits_raise].
  - intros e. apply emits_bind; [apply emits_logging | intros _; apply emits_ret].
Qed.

End Emits.

Ltac emits_step local :=
  first
    [ apply emits_ret | apply emits_raise | apply emits_lift
    | apply (emits_logging _ _ _ local)
    | apply (emits_handle_supabase_error _ _ _ local)
    | apply emits_get_index
    | apply emits_execute
    | apply (emits_delete_patch _ _ _ local)
    | apply (emits_rpc_patch _ _ _ local); intros ?
    | apply emits_get_self; intros ? [? ?]
    | apply emits_for_each; intros ?
    | apply emits_bind; [| intros ?]
    | match goal with
      | |- emits_only _ _ _ (if ?c then _ else _) => destruct c
      | |- emits_only _ _ _ (match ?x with _ => _ end) => destruct x
      end ].

Ltac use_scope :=
  repeat match goal with
         | H : account_id _ = ?a |- _ => is_var a; subst a
         | H : cluster _ = ?c |- _ => is_var c; subst c
         end.

Ltac dict_lookup :=
  repeat first [ rewrite lookup_insert_eq
               | rewrite lookup_insert_ne by discriminate ].

(** ** Tenant scope *)

Lemma tenant_scoped_local (E : Env) (acct cl : string) (e : Event) :
  local_event e -> tenant_scoped E acct cl e.
Proof. destruct e; simpl; tauto. Qed.

Lemma to_service_in_scope (E : Env) (s : SupabaseDal) (service : ServiceInfo) :
  row_in_scope (account_id s) (cluster s) "cluster" (to_service E s service).
Proof. unfold row_in_scope, to_service. split; now dict_lookup. Qed.

Lemma to_db_node_in_scope (s : SupabaseDal) (node : NodeInfo) :
  row_in_scope (account_id s) (cluster s) "cluster_id" (__to_db_node s node).
Proof. unfold row_in_scope, __to_db_node. split; now dict_lookup. Qed.

Lemma to_db_job_in_scope (s : SupabaseDal) (job : JobInfo) :
  row_in_scope (account_id s) (cluster s) "cluster_id" (__to_db_job s job).
Proof. unfold row_in_scope, __to_db_job. split; now dict_lookup. Qed.

Lemma to_db_helm_release_in_scope (s : SupabaseDal) (helm_release : HelmRelease) :
  row_in_scope (account_id s) (cluster s) "cluster_id"
    (__to_db_helm_release s helm_release).
Proof. unfold row_in_scope, __to_db_helm_release. split; now dict_lookup. Qed.

Lemma to_db_namespace_in_scope (s : SupabaseDal) (namespace : NamespaceInfo) :
  row_in_scope (account_id s) (cluster s) "cluster_id"
    (__to_db_namespace s namespace).
Proof. unfold row_in_scope, __to_db_namespace. split; now dict_lookup. Qed.

Lemma to_db_scanResult_in_scope (s : SupabaseDal) (scanResult : ScanReportRow) :
  row_in_scope (account_id s) (cluster s) "cluster_id"
    (__to_db_scanResult s scanResult).
Proof. unfold row_in_scope, __to_db_scanResult. split; now dict_lookup. Qed.

Lemma rows_in_scope {A} (acct cl col : string) (codec : A -> Dict) (l : list A) :
  (forall x, row_in_scope acct cl col (codec x)) ->
  Forall (row_in_scope acct cl col) (map codec l).
Proof. intros H. apply List.Forall_map, Forall_forall. intros x _. apply H. Qed.

Create HintDb tenant.
#[local] Hint Resolve to_service_in_scope to_db_node_in_scope to_db_job_in_scope
  to_db_helm_release_in_scope to_db_namespace_in_scope
  to_db_scanResult_in_scope : tenant.

Ltac scoped_request :=
  simpl; use_scope;
  first
    [ split; reflexivity
    | split; [split; reflexivity | reflexivity]
    | unfold query_in_scope; simpl; constructor;
      [| apply rows_in_scope; intros ?]; solve [auto with tenant]
    | apply rows_in_scope; intros ?; auto with tenant
    | left; split; [reflexivity | do 4 eexists; reflexivity ]
    | right; left; split; [reflexivity | eexists; reflexivity ]
    | right; right; reflexivity
    | split; [ now dict_lookup | left; now dict_lookup ]
    | split; [ now dict_lookup | right; now dict_lookup ] ].

Lemma perform_tenant_scoped (E : Env) (acct cl : string) (op : Operation) :
  emits_only acct cl (tenant_scoped E acct cl) (perform E op).
Proof.
  destruct op; simpl;
    unfold persist_finding, persist_scan, persist_scan_block, persist_services,
      get_active_services,
      has_cluster_findings, get_active_nodes, publish_nodes, get_active_jobs,
      publish_jobs, remove_deleted_job, get_active_helm_release,
      publish_helm_releases, publish_cluster_status, to_db_cluster_status,
      get_active_namespaces, publish_namespaces, publish_cluster_nodes, discard;
    repeat emits_step (tenant_scoped_local E acct cl);
    scoped_request.
Qed.

Lemma to_db_cluster_status_row (data : ClusterStatus) (w : World) :
  exists row : Dict,
    fst (to_db_cluster_status data w) = inr row
    /\ row !! "account_id" = status_fields data !! "account_id"
    /\ row !! "cluster_id" = status_fields data !! "cluster_id".
Proof.
  eexists. split; [reflexivity |]. unfold cluster_status_dict.
  destruct (last_alert_at data); simpl;
    split; dict_lookup; rewrite ?lookup_delete_ne by discriminate;
    now dict_lookup.
Qed.

(** A value holding an encoded quote does not reach the gateway as it is:
    the delete path drops the quote from the rendered filter. *)
Example delete_target_loses_quotes :
  remove_pct22 "account_id=eq.acct-1&cluster_id=eq.a%22b"
  = "account_id=eq.acct-1&cluster_id=eq.ab".
Proof. reflexivity. Qed.

(** C6, as the code has it.  No operation changes the account or the cluster
    of the instance, and every request an operation builds is scoped by them:
    selects filter on exactly that account and cluster, every row of a bulk
    write and every RPC argument set carries them, evidence and issue rows
    are built by the model conversion from them.  The job delete is built
    from a query filtering on exactly that account and cluster, and is sent
    to the client library's rendering of that query with every [%22]
    removed.  The cluster status row is the exception: it carries the account
    and cluster of the [ClusterStatus] entity, none is injected. *)
Theorem tenant_scope_invariant (E : Env) (op : Operation) (w : World) :
  let acct := account_id (self w) in
  let cl := cluster (self w) in
  let w' := snd (perform E op w) in
  account_id (self w') = acct
  /\ cluster (self w') = cl
  /\ (exists added,
        trace w' = (added ++ trace w)%list
        /\ Forall (tenant_scoped E acct cl) added)
  /\ (forall data : ClusterStatus,
        exists row : Dict,
          fst (to_db_cluster_status data w) = inr row
          /\ row !! "account_id" = status_fields data !! "account_id"
          /\ row !! "cluster_id" = status_fields data !! "cluster_id").
Proof.
  intros acct cl w'.
  destruct (perform_tenant_scoped E acct cl op w (conj eq_refl eq_refl))
    as ([Ha Hc] & Hadded).
  split; [exact Ha |]. split; [exact Hc |]. split; [exact Hadded |].
  intros data. apply to_db_cluster_status_row.
Qed.

(** C6 as stated does not hold for every write: the row written by
    [publish_cluster_status] carries the tenant scope of the entity it is
    given, here another account and cluster than the instance's. *)
Lemma cluster_status_row_not_scoped :
  exists row : Dict,
    trace (snd (publish_cluster_status example_env example_foreign_status
                  example_world))
    = [EvExecute (table_insert CLUSTERS_STATUS_TABLE (OneRow row) true);
       EvLog INFO "cluster status {log_cluster_status}"]
    /\ row !! "account_id" = Some (JStr "acct-2")
    /\ row !! "cluster_id" = Some (JStr "cluster-b")
    /\ account_id (self example_world) = "acct-1"
    /\ cluster (self example_world) = "cluster-a"
    /\ ~ row_in_scope (account_id (self example_world))
           (cluster (self example_world)) "cluster_id" row.
Proof.
  exists (<["updated_at" := JStr "now()"]>
            (delete "last_alert_at" (cluster_status_dict example_foreign_status))).
  split; [reflexivity |]. split; [reflexivity |]. split; [reflexivity |].
  split; [reflexivity |]. split; [reflexivity |].
  intros [H _]. vm_compute in H. discriminate H.
Qed.

(** ** Findings made of scans only *)

Lemma execute_run (E : Env) (q : Query) (w : World) :
  execute E q w =
    (gateway E (count is_execute (trace w)),
     mkWorld (self w) (EvExecute q :: trace w)).
Proof.
  destruct w as [s tr].
  cbv [execute get_index emit bind ret raise lift self trace].
  destruct (gateway E (count is_execute tr)); reflexivity.
Qed.

Lemma filter_all {A} (p : A -> bool) (l : list A) :
  forallb p l = true -> List.filter p l = l.
Proof.
  induction l as [| x l IH]; simpl; [reflexivity |].
  intros H. apply andb_true_iff in H as [Hx Hl]. rewrite Hx. f_equal. auto.
Qed.

Lemma filter_none {A} (p : A -> bool) (l : list A) :
  forallb p l = true -> List.filter (fun x => negb (p x)) l = [].
Proof.
  induction l as [| x l IH]; simpl; [reflexivity |].
  intros H. apply andb_true_iff in H as [Hx Hl]. rewrite Hx. simpl. auto.
Qed.

Lemma later_refl (w : World) : later w w.
Proof. split; [reflexivity |]. now exists []. Qed.

Lemma later_trans (w1 w2 w3 : World) : later w1 w2 -> later w2 w3 -> later w1 w3.
Proof.
  intros [Hs1 [a1 Ht1]] [Hs2 [a2 Ht2]]. split; [congruence |].
  exists (a2 ++ a1)%list. now rewrite Ht2, Ht1, app_assoc.
Qed.

Lemma count_app (p : Event -> bool) (l1 l2 : list Event) :
  count p (l1 ++ l2) = (count p l1 + count p l2)%nat.
Proof. induction l1 as [| e l1 IH]; simpl; [reflexivity | rewrite IH; lia]. Qed.

Lemma later_count (p : Event -> bool) (w w' : World) :
  later w w' -> (count p (trace w) <= count p (trace w'))%nat.
Proof. intros [_ [added Ht]]. rewrite Ht, count_app. lia. Qed.

Lemma bind_eq {A B} (m : M A) (k : A -> M B) (w : World) :
  bind m k w = match m w with
               | (inr a, w') => k a w'
               | (inl e, w') => (inl e, w')
               end.
Proof. reflexivity. Qed.

Lemma for_each_ok {A} (l : list A) (body : A -> M unit) (w : World) :
  (forall x w1, later w w1 ->
     exists w2, body x w1 = (inr tt, w2) /\ later w1 w2) ->
  exists w', for_each l body w = (inr tt, w') /\ later w w'.
Proof.
  revert w. induction l as [| x l IH]; intros w Hbody; simpl.
  - exists w. split; [reflexivity | apply later_refl].
  - destruct (Hbody x w (later_refl w)) as (w1 & Hrun & Hl).
    rewrite bind_eq, Hrun.
    destruct (IH w1) as (w2 & Hrun2 & Hl2).
    + intros y w' Hw'. apply Hbody. now apply later_trans with w1.
    + exists w2. split; [exact Hrun2 | now apply later_trans with w1].
Qed.

Lemma persist_scan_block_ok (E : Env) (block : Block) (w : World) :
  gateway_succeeds_from E (count is_execute (trace w)) ->
  transport_succeeds_from E (count is_requests (trace w)) ->
  exists w', persist_scan_block E block w = (inr tt, w') /\ later w w'.
Proof.
  intros Hgw Htp. destruct block as [scan_id st en ty sc results |];
    [| exists w; split; [reflexivity | apply later_refl]].
  destruct (Hgw _ (le_n _)) as (res & Hres & Hok).
  destruct (Htp _ (le_n _)) as (response & Hresp & Hst).
  unfold persist_scan_block.
  rewrite bind_eq. unfold get_self at 1.
  rewrite bind_eq, execute_run, Hres.
  unfold py_not_in at 1. rewrite Hok. cbv [negb].
  rewrite bind_eq. unfold ret at 1.
  rewrite bind_eq.
  erewrite rpc_patch_run by (simpl; exact Hresp).
  unfold result_dict, py_not_in.
  rewrite lookup_insert_ne, lookup_insert_eq by discriminate.
  unfold py_in. rewrite Hst. cbv [negb].
  eexists. split; [reflexivity |].
  split; [reflexivity |].
  eexists. simpl.
  match goal with
  | |- (?X ++ ?a :: ?b :: _)%list = _ => instantiate (1 := (X ++ [a; b])%list)
  end.
  now rewrite <- app_assoc.
Qed.

Lemma succeeds_later (E : Env) (w w' : World) :
  later w w' ->
  gateway_succeeds_from E (count is_execute (trace w)) ->
  transport_succeeds_from E (count is_requests (trace w)) ->
  gateway_succeeds_from E (count is_execute (trace w'))
  /\ transport_succeeds_from E (count is_requests (trace w')).
Proof.
  intros Hl Hgw Htp.
  pose proof (later_count is_execute w w' Hl).
  pose proof (later_count is_requests w w' Hl).
  split; intros n Hn; [apply Hgw | apply Htp]; lia.
Qed.

Lemma persist_scan_ok (E : Env) (enrichment : Enrichment) (w : World) :
  gateway_succeeds_from E (count is_execute (trace w)) ->
  transport_succeeds_from E (count is_requests (trace w)) ->
  exists w', persist_scan E enrichment w = (inr tt, w') /\ later w w'.
Proof.
  intros Hgw Htp. unfold persist_scan. apply for_each_ok.
  intros block w1 Hl.
  destruct (succeeds_later E w w1 Hl Hgw Htp) as [Hgw1 Htp1].
  now apply persist_scan_block_ok.
Qed.

Lemma only_scan_writes (E : Env) (acct cl : string) (enrichment : Enrichment) :
  emits_only acct cl (fun e => is_finding_write e = false)
    (persist_scan E enrichment).
Proof.
  assert (Hlocal : forall e, local_event e -> is_finding_write e = false)
    by (intros [] H; simpl in *; tauto).
  unfold persist_scan, persist_scan_block.
  repeat emits_step Hlocal; reflexivity.
Qed.

(** C8. For a finding with at least one enrichment, all of them flagged as
    scans, and a gateway that accepts every scan-result insert (200 or 201)
    and every scan-metadata RPC (200, 201 or 204), [persist_finding] returns
    normally and sends no request to the evidence table or the issues
    table. *)
Theorem scan_only_finding_writes_no_issue
    (E : Env) (finding : Finding) (w : World) :
  enrichments finding <> [] ->
  forallb (is_scan E) (enrichments finding) = true ->
  gateway_succeeds_from E (count is_execute (trace w)) ->
  transport_succeeds_from E (count is_requests (trace w)) ->
  fst (persist_finding E finding w) = inr tt
  /\ exists added,
       trace (snd (persist_finding E finding w)) = (added ++ trace w)%list
       /\ Forall (fun e => is_finding_write e = false) added.
Proof.
  intros Hne Hall Hgw Htp.
  assert (Hrun : persist_finding E finding w
                 = for_each (enrichments finding) (persist_scan E) w).
  { unfold persist_finding.
    rewrite (filter_all _ _ Hall), (filter_none _ _ Hall).
    destruct (enrichments finding) as [| e l]; [congruence |]. simpl length.
    simpl andb. cbv iota.
    rewrite bind_eq.
    destruct (for_each (e :: l) (persist_scan E) w) as [[ex | []] w1]; reflexivity. }
  rewrite Hrun. split.
  - destruct (for_each_ok (enrichments finding) (persist_scan E) w)
      as (w' & Hok & _); [| now rewrite Hok].
    intros enrichment w1 Hl.
    destruct (succeeds_later E w w1 Hl Hgw Htp) as [Hgw1 Htp1].
    now apply persist_scan_ok.
  - assert (Hlocal : forall e, local_event e -> is_finding_write e = false)
      by (intros [] H; simpl in *; tauto).
    destruct (emits_for_each (account_id (self w)) (cluster (self w)) _
                (enrichments finding) (persist_scan E)
                (only_scan_writes E _ _) w (conj eq_refl eq_refl))
      as (_ & Hadded).
    exact Hadded.
Qed.

Lemma scan_only_finding_writes_no_issue_witness :
  persist_finding example_env example_scan_finding example_world
  = for_each [example_scan_enrichment] (persist_scan example_env) example_world
  /\ fst (persist_finding example_env example_scan_finding example_world) = inr tt
  /\ count is_finding_write
       (trace (snd (persist_finding example_env example_scan_finding
                      example_world))) = 0%nat.
Proof.
  destruct (scan_only_finding_writes_no_issue example_env example_scan_finding
              example_world) as (Hret & added & Htrace & Hnone).
  - discriminate.
  - reflexivity.
  - intros n _. eexists. split; reflexivity.
  - intros n _. eexists. split; reflexivity.
  - split; [reflexivity |]. split; [exact Hret |]. reflexivity.
Defined.

(** ** Classification of results *)

(** [handle_supabase_error] returns; it reads the clock once or twice, calls
    the identity service at most once, and sends nothing to the gateway. *)
Lemma handle_supabase_error_run (E : Env) (w : World) :
  exists w' added,
    handle_supabase_error E w = (inr tt, w')
    /\ trace w' = (added ++ trace w)%list
    /\ Forall local_event added
    /\ (1 <= count is_time added <= 2)%nat
    /\ (count is_auth_sign_in added <= 1)%nat.
Proof.
  unfold handle_supabase_error, try_except.
  destruct (Qlt_le_dec
              (sign_in_time (self w) + SUPABASE_LOGIN_RATE_LIMIT_SEC E)
              (now E (count is_time (trace w)))) as [Hgo | Hstay].
  - rewrite (sign_in_attempt E w Hgo).
    destruct (fst (identity E (count is_auth_sign_in (trace w)))) as [e |];
      simpl; do 2 eexists; (split; [reflexivity |]); simpl.
    + split; [now instantiate (1 := [_; _; _; _; _]) |].
      split; [repeat constructor |]. simpl. lia.
    + split; [now instantiate (1 := [_; _; _; _]) |].
      split; [repeat constructor |]. simpl. lia.
  - rewrite (sign_in_limited E w Hstay). do 2 eexists.
    split; [reflexivity |]. simpl.
    split; [now instantiate (1 := [_]) |].
    split; [repeat constructor |]. simpl. lia.
Qed.

Lemma py_in_delete_order (v : option JSON) :
  py_in v [204; 200; 202]%Z = py_in v [200; 202; 204]%Z.
Proof.
  destruct v as [[| b | n | | |]|]; simpl; try reflexivity;
    repeat match goal with
           | |- context [Z.eqb ?a ?b] => destruct (Z.eqb a b)
           end; reflexivity.
Qed.

Ltac exec :=
  cbv [perform discard persist_finding persist_scan persist_scan_block
       persist_services get_active_services has_cluster_findings
       get_active_nodes publish_nodes get_active_jobs publish_jobs
       remove_deleted_job get_active_helm_release publish_helm_releases
       publish_cluster_status to_db_cluster_status get_active_namespaces
       publish_namespaces publish_cluster_nodes
       execute bind ret raise lift get_self get_index emit logging
       self trace fst snd py_not_in py_ne negb];
  cbn [count is_execute is_requests Nat.add].

Ltac settle :=
  repeat match goal with
    | |- context [handle_supabase_error ?E ?W] =>
        let w' := fresh "w'" in
        let added := fresh "added" in
        let Hrun := fresh "Hrun" in
        let Htr := fresh "Htr" in
        let Hloc := fresh "Hloc" in
        let Hclock := fresh "Hclock" in
        let Hauth := fresh "Hauth" in
        destruct (handle_supabase_error_run E W)
          as (w' & added & Hrun & Htr & Hloc & Hclock & Hauth);
        rewrite Hrun; destruct w' as [? ?]; simpl in Htr; subst
    | |- context [match ?x with inl _ => _ | inr _ => _ end] => destruct x
    | |- context [json_loads ?E ?c] => destruct (json_loads E c)
    | |- context [String.eqb ?a ?b] => destruct (String.eqb a b)
    end;
  simpl; rewrite ?count_app; simpl;
  split; intros; try discriminate; try lia; try reflexivity.

Lemma single_request_classification (E : Env) (w : World) (op : Operation)
    (k : Kind) (res : Dict) (response : Response) :
  kind_of op = Some k ->
  gateway E (count is_execute (trace w)) = inr res ->
  transport E (count is_requests (trace w)) = inr response ->
  failed E op w <-> py_in (observed k res response) (accepted k) = false.
Proof.
  intros Hk Hres Hresp. unfold failed, errors. destruct w as [s tr].
  simpl in Hres, Hresp.
  destruct op as [f | [|x l] | | | | [|x l] | | [|x l] | [j|] | |
                  [|x l] | cs | | [|x l] | n];
    simpl in Hk; inversion Hk; subst k; clear Hk; simpl observed; simpl accepted.
  all: exec;
    first [ rewrite Hres
          | erewrite delete_patch_run by (simpl; exact Hresp)
          | erewrite rpc_patch_run by (simpl; exact Hresp) ];
    unfold result_dict; rewrite ?lookup_insert_ne, ?lookup_insert_eq by discriminate;
    rewrite ?py_in_delete_order;
    exec;
    match goal with |- context [py_in ?a ?b] => destruct (py_in a b) eqn:Hin end;
    exec; settle.
Qed.

Lemma scan_finding_classification (E : Env) (w : World) (res : Dict)
    (response : Response) (id scan_id : JSON) (st en : string) (ty sc : JSON)
    (results : list ScanReportRow) (ann : Dict) :
  gateway E (count is_execute (trace w)) = inr res ->
  transport E (count is_requests (trace w)) = inr response ->
  is_scan E (mkEnrichment [ScanReportBlock scan_id st en ty sc results] ann) = true ->
  failed E
    (PersistFinding
       (mkFinding id [mkEnrichment [ScanReportBlock scan_id st en ty sc results] ann]))
    w
  <-> py_in (res !! "status_code") [200; 201]%Z = false
      \/ py_in (Some (JNum (status_code response))) [200; 201; 204]%Z = false.
Proof.
  intros Hres Hresp Hscan. unfold failed, errors. destruct w as [s tr].
  simpl in Hres, Hresp.
  unfold perform, persist_finding. simpl enrichments. simpl List.filter.
  rewrite Hscan. simpl List.filter. simpl length. simpl andb. cbv iota.
  cbv [persist_scan for_each blocks]. exec. rewrite Hres. exec.
  destruct (py_in (res !! "status_code") [200; 201]%Z) eqn:Hin; exec.
  2: { settle; intuition (try discriminate; try lia; auto). }
  erewrite rpc_patch_run by (simpl; exact Hresp).
  unfold result_dict; rewrite ?lookup_insert_ne, ?lookup_insert_eq by discriminate.
  exec.
  destruct (py_in (Some (JNum (status_code response))) [200; 201; 204]%Z) eqn:Hin2;
    exec; settle; intuition (try discriminate; try lia; auto).
Qed.

Lemma evidence_finding_classification (E : Env) (w : World) (res res2 : Dict)
    (id : JSON) (enrichment : Enrichment) :
  gateway E (count is_execute (trace w)) = inr res ->
  gateway E (S (count is_execute (trace w))) = inr res2 ->
  is_scan E enrichment = false ->
  failed E (PersistFinding (mkFinding id [enrichment])) w
  <-> py_in (res !! "status_code") [201]%Z = false
      \/ py_in (res2 !! "status_code") [201]%Z = false.
Proof.
  intros Hres Hres2 Hscan. unfold failed, errors. destruct w as [s tr].
  simpl in Hres, Hres2.
  unfold perform, persist_finding. simpl enrichments. simpl List.filter.
  rewrite Hscan. simpl List.filter. simpl length. simpl andb. cbv iota.
  cbv [for_each]. exec. rewrite Hres. exec.
  destruct (py_in (res !! "status_code") [201]%Z) eqn:Hin; exec;
    rewrite Hres2; exec;
    destruct (py_in (res2 !! "status_code") [201]%Z) eqn:Hin2; exec; settle;
    intuition (try discriminate; try lia; auto).
Qed.

(** ** Classification over a whole finding *)

Lemma handle_supabase_error_trace (E : Env) (w : World) :
  exists w' added,
    handle_supabase_error E w = (inr tt, w')
    /\ trace w' = (added ++ trace w)%list
    /\ Forall recovery_event added.
Proof.
  unfold handle_supabase_error, try_except.
  destruct (Qlt_le_dec
              (sign_in_time (self w) + SUPABASE_LOGIN_RATE_LIMIT_SEC E)
              (now E (count is_time (trace w)))) as [Hgo | Hstay].
  - rewrite (sign_in_attempt E w Hgo).
    destruct (fst (identity E (count is_auth_sign_in (trace w)))) as [e |];
      simpl; do 2 eexists; (split; [reflexivity |]); simpl.
    + split; [now instantiate (1 := [_; _; _; _; _]) |].
      repeat constructor; simpl; tauto.
    + split; [now instantiate (1 := [_; _; _; _]) |].
      repeat constructor; simpl; tauto.
  - rewrite (sign_in_limited E w Hstay). do 2 eexists.
    split; [reflexivity |]. simpl.
    split; [now instantiate (1 := [_]) |]. repeat constructor.
Qed.

Lemma count_recovery (p : Event -> bool) (added : list Event) :
  (forall e, recovery_event e -> p e = false) ->
  Forall recovery_event added -> count p added = 0%nat.
Proof.
  intros Hp Hall. induction Hall as [| e l He _ IH]; simpl; [reflexivity |].
  now rewrite (Hp e He), IH.
Qed.

Lemma recovery_not_execute (e : Event) : recovery_event e -> is_execute e = false.
Proof. now destruct e. Qed.

Lemma recovery_not_requests (e : Event) : recovery_event e -> is_requests e = false.
Proof. now destruct e. Qed.

Lemma recovery_not_evidence_error (e : Event) :
  recovery_event e -> is_log ERROR evidence_error e = false.
Proof.
  destruct e as [| lvl msg | | | |]; try reflexivity.
  intros [[-> ->] | [-> ->]]; reflexivity.
Qed.

Lemma recovery_not_issue_error (e : Event) :
  recovery_event e -> is_log ERROR issue_error e = false.
Proof.
  destruct e as [| lvl msg | | | |]; try reflexivity.
  intros [[-> ->] | [-> ->]]; reflexivity.
Qed.

Lemma executed_app (tr1 tr2 : list Event) :
  executed (tr1 ++ tr2) = (executed tr2 ++ executed tr1)%list.
Proof.
  induction tr1 as [| e tr1 IH]; simpl; [now rewrite app_nil_r |].
  destruct e; try exact IH. now rewrite IH, app_assoc.
Qed.

Lemma executed_recovery (added : list Event) :
  Forall recovery_event added -> executed added = [].
Proof.
  intros Hall. induction Hall as [| e l He _ IH]; simpl; [reflexivity |].
  destruct e; try exact IH. destruct He.
Qed.

Lemma executed_length (tr : list Event) : length (executed tr) = count is_execute tr.
Proof.
  induction tr as [| e tr IH]; simpl; [reflexivity |].
  destruct e; simpl; try exact IH. rewrite length_app. simpl. lia.
Qed.

Lemma quiet_counts (msg : string) (added : list Event) :
  Forall quiet added ->
  count is_error_log added = 0%nat /\ count (is_log ERROR msg) added = 0%nat.
Proof.
  intros Hall. induction Hall as [| e l He _ [IH1 IH2]]; simpl; [now split |].
  unfold quiet in He. rewrite He, IH1, IH2.
  split; [reflexivity |].
  destruct e as [| [] m | | | |]; simpl in *; try reflexivity. discriminate He.
Qed.

(** The failure path shared by the raising operations. *)
Lemma failure_path_run {A} (E : Env) (msg : string) (e : exn) (w : World) :
  exists w',
    (logging ERROR msg ;; handle_supabase_error E ;; @raise A e) w = (inl e, w')
    /\ (errors w < errors w')%nat.
Proof.
  destruct w as [s tr].
  destruct (handle_supabase_error_trace E (mkWorld s (EvLog ERROR msg :: tr)))
    as (w' & added & Hrun & Htr & _).
  exists w'. unfold errors. rewrite Htr, count_app. simpl.
  split; [| lia].
  cbv [logging emit bind raise]. cbn [self trace]. now rewrite Hrun.
Qed.

Lemma gateway_status_at (E : Env) (n : nat) (res : Dict) :
  gateway E n = inr res -> gateway_status E n = res !! "status_code".
Proof. intros H. unfold gateway_status. now rewrite H. Qed.

Lemma transport_status_at (E : Env) (n : nat) (response : Response) :
  transport E n = inr response ->
  transport_status E n = Some (JNum (status_code response)).
Proof. intros H. unfold transport_status. now rewrite H. Qed.

(** One scan report block: both writes accepted, or an exception after an
    error log. *)
Lemma scan_block_run (E : Env) (w : World) (res : Dict) (response : Response)
    (scan_id : JSON) (st en : string) (ty sc : JSON) (results : list ScanReportRow) :
  gateway E (count is_execute (trace w)) = inr res ->
  transport E (count is_requests (trace w)) = inr response ->
  if py_in (res !! "status_code") [200; 201]%Z
     && py_in (Some (JNum (status_code response))) [200; 201; 204]%Z
  then exists w' added,
         persist_scan_block E (ScanReportBlock scan_id st en ty sc results) w
         = (inr tt, w')
         /\ self w' = self w
         /\ trace w' = (added ++ trace w)%list
         /\ Forall quiet added
         /\ count is_execute added = 1%nat
         /\ count is_requests added = 1%nat
  else exists msg w',
         persist_scan_block E (ScanReportBlock scan_id st en ty sc results) w
         = (inl (Exception msg), w')
         /\ (errors w < errors w')%nat.
Proof.
  intros Hres Hresp. destruct w as [s tr]. cbn [trace] in Hres, Hresp.
  assert (Hstart :
    forall k : SupabaseDal -> Dict -> M unit,
      (let* s := get_self in
       let* res := execute E (table_insert SCANS_RESULT_TABLE
                     (Rows (map (__to_db_scanResult s) results)) false) in
       k s res) (mkWorld s tr)
      = k s res (mkWorld s (EvExecute (table_insert SCANS_RESULT_TABLE
                     (Rows (map (__to_db_scanResult s) results)) false) :: tr))).
  { intros k. rewrite bind_eq. unfold get_self. cbn [self]. cbv iota beta.
    rewrite bind_eq, execute_run. cbn [self trace]. now rewrite Hres. }
  unfold persist_scan_block.
  destruct (py_in (res !! "status_code") [200; 201]%Z) eqn:Hin;
    [destruct (py_in (Some (JNum (status_code response))) [200; 201; 204]%Z) eqn:Hin2 |];
    cbv [andb];
    match goal with
    | |- context [bind get_self ?f] =>
        rewrite (Hstart (fun s res => ltac:(
          let body := eval cbv beta in (f s) in
          match body with
          | bind _ ?g => exact (g res)
          end)))
    end;
    unfold py_not_in at 1; rewrite Hin; cbv [negb]; cbv iota.
  - rewrite bind_eq. unfold ret at 1. cbv iota beta.
    rewrite bind_eq.
    erewrite rpc_patch_run by (cbn [trace count is_requests]; exact Hresp).
    cbv iota beta. cbn [self trace].
    unfold result_dict, py_not_in.
    rewrite lookup_insert_ne, lookup_insert_eq by discriminate.
    rewrite Hin2. cbv [negb].
    do 2 eexists. split; [reflexivity |]. cbn [trace self].
    split; [reflexivity |].
    split.
    { match goal with
      | |- (?X ++ ?a :: ?b :: _)%list = _ => instantiate (1 := (X ++ [a; b])%list)
      end.
      now rewrite <- app_assoc. }
    rewrite !count_app.
    destruct (String.eqb (content response) "");
      [| destruct (json_loads E (content response))];
      simpl; repeat split; repeat constructor.
  - rewrite bind_eq. unfold ret at 1. cbv iota beta.
    rewrite bind_eq.
    erewrite rpc_patch_run by (cbn [trace count is_requests]; exact Hresp).
    cbv iota beta. cbn [self trace].
    unfold result_dict, py_not_in.
    rewrite lookup_insert_ne, lookup_insert_eq by discriminate.
    rewrite Hin2. cbv [negb].
    match goal with
    | |- context [(logging ERROR ?m ;; handle_supabase_error E ;; raise ?e) ?W] =>
        destruct (@failure_path_run unit E m e W) as (w' & Hrun & Herr)
    end.
    rewrite Hrun. do 2 eexists. split; [reflexivity |].
    unfold errors in *. cbn [trace] in Herr. rewrite count_app in Herr.
    simpl in Herr.
    destruct (String.eqb (content response) "");
      [| destruct (json_loads E (content response))]; simpl in Herr; cbn [trace]; lia.
  - rewrite bind_eq.
    match goal with
    | |- context [(logging ERROR ?m ;; handle_supabase_error E ;; raise ?e) ?W] =>
        destruct (@failure_path_run unit E m e W) as (w' & Hrun & Herr)
    end.
    rewrite Hrun. do 2 eexists. split; [reflexivity |].
    unfold errors in *. simpl in Herr. cbn [trace]. lia.
Qed.

Lemma for_each_cons {A} (x : A) (l : list A) (body : A -> M unit) (w : World) :
  for_each (x :: l) body w
  = match body x w with
    | (inr _, w') => for_each l body w'
    | (inl e, w') => (inl e, w')
    end.
Proof. reflexivity. Qed.

Lemma quiet_errors (w w' : World) (added : list Event) :
  trace w' = (added ++ trace w)%list -> Forall quiet added -> errors w' = errors w.
Proof.
  intros Htr Hq. unfold errors. rewrite Htr, count_app.
  now rewrite (proj1 (quiet_counts "" added Hq)).
Qed.

(** The blocks of one scan: all accepted, or an exception after an error
    log at the first rejected status. *)
Lemma scan_blocks_run (E : Env) (bs : list Block) (w : World) :
  gateway_returns_from E (count is_execute (trace w)) ->
  transport_returns_from E (count is_requests (trace w)) ->
  if blocks_accepted E bs (count is_execute (trace w)) (count is_requests (trace w))
  then exists w' added,
         for_each bs (persist_scan_block E) w = (inr tt, w')
         /\ self w' = self w
         /\ trace w' = (added ++ trace w)%list
         /\ Forall quiet added
         /\ count is_execute added = scan_block_count bs
         /\ count is_requests added = scan_block_count bs
  else exists msg w',
         for_each bs (persist_scan_block E) w = (inl (Exception msg), w')
         /\ (errors w < errors w')%nat.
Proof.
  revert w. induction bs as [| b bs IH]; intros w Hgw Htp.
  - simpl. exists w, []. repeat split. constructor.
  - destruct b as [scan_id st en ty sc results |].
    + destruct (Hgw _ (le_n _)) as [res Hres].
      destruct (Htp _ (le_n _)) as [response Hresp].
      pose proof (scan_block_run E w res response scan_id st en ty sc results
                    Hres Hresp) as Hblock.
      cbn [blocks_accepted].
      rewrite (gateway_status_at E _ res Hres),
        (transport_status_at E _ response Hresp).
      rewrite for_each_cons.
      destruct (py_in (res !! "status_code") [200; 201]%Z
                && py_in (Some (JNum (status_code response))) [200; 201; 204]%Z).
      * destruct Hblock as (w1 & added1 & Hrun1 & Hself1 & Htr1 & Hq1 & Hex1 & Hrq1).
        rewrite Hrun1. cbn [andb].
        assert (HcE : count is_execute (trace w1) = S (count is_execute (trace w)))
          by (rewrite Htr1, count_app; lia).
        assert (HcR : count is_requests (trace w1) = S (count is_requests (trace w)))
          by (rewrite Htr1, count_app; lia).
        specialize (IH w1). rewrite HcE, HcR in IH.
        assert (Hgw1 : gateway_returns_from E (S (count is_execute (trace w))))
          by (intros n Hn; apply Hgw; lia).
        assert (Htp1 : transport_returns_from E (S (count is_requests (trace w))))
          by (intros n Hn; apply Htp; lia).
        specialize (IH Hgw1 Htp1).
        destruct (blocks_accepted E bs (S (count is_execute (trace w)))
                    (S (count is_requests (trace w)))).
        -- destruct IH as (w' & added & Hrun & Hself & Htr & Hq & Hex & Hrq).
           exists w', (added ++ added1)%list. split; [exact Hrun |].
           split; [congruence |].
           split; [now rewrite Htr, Htr1, app_assoc |].
           split; [now apply Forall_app |].
           rewrite !count_app. cbn [scan_block_count]. lia.
        -- destruct IH as (msg & w' & Hrun & Herr).
           exists msg, w'. split; [exact Hrun |].
           now rewrite <- (quiet_errors w w1 added1 Htr1 Hq1).
      * destruct Hblock as (msg & w' & Hrun & Herr). rewrite Hrun. cbn [andb].
        now exists msg, w'.
    + rewrite for_each_cons. cbn [persist_scan_block blocks_accepted scan_block_count].
      unfold ret at 1. now apply IH.
Qed.

(** The scans of a finding, one after the other. *)
Lemma scans_run (E : Env) (l : list Enrichment) (w : World) :
  gateway_returns_from E (count is_execute (trace w)) ->
  transport_returns_from E (count is_requests (trace w)) ->
  if scans_accepted E l (count is_execute (trace w)) (count is_requests (trace w))
  then exists w' added,
         for_each l (persist_scan E) w = (inr tt, w')
         /\ self w' = self w
         /\ trace w' = (added ++ trace w)%list
         /\ Forall quiet added
         /\ count is_execute added = scan_writes l
         /\ count is_requests added = scan_writes l
  else exists msg w',
         for_each l (persist_scan E) w = (inl (Exception msg), w')
         /\ (errors w < errors w')%nat.
Proof.
  revert w. induction l as [| x l IH]; intros w Hgw Htp.
  - simpl. exists w, []. repeat split. constructor.
  - rewrite for_each_cons. cbn [scans_accepted].
    change (persist_scan E x w) with (for_each (blocks x) (persist_scan_block E) w).
    pose proof (scan_blocks_run E (blocks x) w Hgw Htp) as Hblocks.
    destruct (blocks_accepted E (blocks x) (count is_execute (trace w))
                (count is_requests (trace w))).
    + destruct Hblocks as (w1 & added1 & Hrun1 & Hself1 & Htr1 & Hq1 & Hex1 & Hrq1).
      rewrite Hrun1. cbn [andb].
      assert (HcE : count is_execute (trace w1)
                    = (count is_execute (trace w) + scan_block_count (blocks x))%nat)
        by (rewrite Htr1, count_app; lia).
      assert (HcR : count is_requests (trace w1)
                    = (count is_requests (trace w) + scan_block_count (blocks x))%nat)
        by (rewrite Htr1, count_app; lia).
      specialize (IH w1). rewrite HcE, HcR in IH.
      assert (Hgw1 : gateway_returns_from E
                       (count is_execute (trace w) + scan_block_count (blocks x)))
        by (intros n Hn; apply Hgw; lia).
      assert (Htp1 : transport_returns_from E
                       (count is_requests (trace w) + scan_block_count (blocks x)))
        by (intros n Hn; apply Htp; lia).
      specialize (IH Hgw1 Htp1).
      destruct (scans_accepted E l
                  (count is_execute (trace w) + scan_block_count (blocks x))
                  (count is_requests (trace w) + scan_block_count (blocks x))).
      * destruct IH as (w' & added & Hrun & Hself & Htr & Hq & Hex & Hrq).
        exists w', (added ++ added1)%list. split; [exact Hrun |].
        split; [congruence |].
        split; [now rewrite Htr, Htr1, app_assoc |].
        split; [now apply Forall_app |].
        rewrite !count_app. cbn [scan_writes]. lia.
      * destruct IH as (msg & w' & Hrun & Herr).
        exists msg, w'. split; [exact Hrun |].
        now rewrite <- (quiet_errors w w1 added1 Htr1 Hq1).
    + destruct Hblocks as (msg & w' & Hrun & Herr). rewrite Hrun. cbn [andb].
      now exists msg, w'.
Qed.

(** The evidence loop of [persist_finding]: one insert into the evidence
    table per enrichment, in order, and one error log per status other than
    201; it does not raise. *)
Lemma evidence_loop_run (E : Env) (finding : Finding) (l : list Enrichment)
    (w : World) :
  gateway_returns_from E (count is_execute (trace w)) ->
  exists w' added,
    for_each l
      (fun enrichment =>
         let* s := get_self in
         let* res :=
           execute E
             (table_insert EVIDENCE_TABLE
                (OneRow (to_evidence_json E (account_id s) (cluster s)
                           (sink_name s) (signing_key s)
                           (finding_id finding) enrichment))
                false) in
         if py_ne (res !! "status_code") 201 then
           logging ERROR "Failed to persist finding {finding.id} enrichment {enrichment} error: {res.get('data')}"
         else ret tt) w
    = (inr tt, w')
    /\ self w' = self w
    /\ trace w' = (added ++ trace w)%list
    /\ executed added = map (evidence_query E (self w) finding) l
    /\ count is_requests added = 0%nat
    /\ count is_error_log added
       = evidence_rejections E l (count is_execute (trace w))
    /\ count (is_log ERROR evidence_error) added
       = evidence_rejections E l (count is_execute (trace w))
    /\ count (is_log ERROR issue_error) added = 0%nat.
Proof.
  revert w. induction l as [| x l IH]; intros w Hgw.
  - exists w, []. simpl. repeat split.
  - destruct (Hgw _ (le_n _)) as [res Hres].
    set (body := fun enrichment : Enrichment => _).
    rewrite for_each_cons.
    assert (Hstep : exists added1,
               body x w = (inr tt, mkWorld (self w) (added1 ++ trace w)%list)
               /\ executed added1 = [evidence_query E (self w) finding x]
               /\ count is_execute added1 = 1%nat
               /\ count is_requests added1 = 0%nat
               /\ count is_error_log added1
                  = (if py_in (res !! "status_code") [201]%Z then 0 else 1)%nat
               /\ count (is_log ERROR evidence_error) added1
                  = (if py_in (res !! "status_code") [201]%Z then 0 else 1)%nat
               /\ count (is_log ERROR issue_error) added1 = 0%nat).
    { subst body. destruct w as [s tr]. simpl in Hres.
      exec. rewrite Hres. exec.
      destruct (py_in (res !! "status_code") [201]%Z); exec.
      - exists [EvExecute (evidence_query E s finding x)]. repeat split.
      - exists [EvLog ERROR evidence_error; EvExecute (evidence_query E s finding x)].
        repeat split. }
    destruct Hstep as (added1 & Hrun1 & Hq1 & Hex1 & Hrq1 & Herr1 & Hev1 & Hiss1).
    rewrite Hrun1.
    destruct (IH (mkWorld (self w) (added1 ++ trace w)%list))
      as (w' & added & Hrun & Hself & Htr & Hq & Hrq & Herr & Hev & Hiss).
    { intros n Hn. apply Hgw. cbn [trace] in Hn. rewrite count_app in Hn. lia. }
    cbn [self trace] in *.
    rewrite count_app, Hex1 in Herr, Hev. cbn [Nat.add] in Herr, Hev.
    exists w', (added ++ added1)%list. split; [exact Hrun |].
    split; [exact Hself |].
    split; [now rewrite Htr, app_assoc |].
    rewrite executed_app, !count_app, Hq1, Hq. cbn [evidence_rejections map].
    rewrite (gateway_status_at E _ res Hres).
    split; [reflexivity |].
    destruct (py_in (res !! "status_code") [201]%Z); repeat split; lia.
Qed.

(** The issue row of [persist_finding]: one insert into the issues table,
    and on a status other than 201 one error log followed by the recovery;
    it does not raise. *)
Lemma issue_row_run (E : Env) (finding : Finding) (w : World) (res : Dict) :
  gateway E (count is_execute (trace w)) = inr res ->
  exists w' added,
    (let* s := get_self in
     let* res :=
       execute E (table_insert ISSUES_TABLE
                    (OneRow (to_finding_json E (account_id s) (cluster s) finding))
                    false) in
     if py_ne (res !! "status_code") 201 then
       logging ERROR "Failed to persist finding {finding.id} error: {res.get('data')}" ;;
       handle_supabase_error E
     else ret tt) w
    = (inr tt, w')
    /\ trace w' = (added ++ trace w)%list
    /\ executed added = [issue_query E (self w) finding]
    /\ count is_requests added = 0%nat
    /\ count (is_log ERROR evidence_error) added = 0%nat
    /\ count (is_log ERROR issue_error) added
       = (if py_in (res !! "status_code") [201]%Z then 0 else 1)%nat
    /\ (count is_error_log added = 0%nat
        <-> py_in (res !! "status_code") [201]%Z = true).
Proof.
  intros Hres. destruct w as [s tr]. simpl in Hres.
  exec. rewrite Hres. exec.
  destruct (py_in (res !! "status_code") [201]%Z); exec.
  - exists (mkWorld s (EvExecute (issue_query E s finding) :: tr)),
      [EvExecute (issue_query E s finding)].
    repeat split.
  - match goal with
    | |- context [handle_supabase_error E ?W] =>
        destruct (handle_supabase_error_trace E W) as (w' & added & Hrun & Htr & Hrec)
    end.
    rewrite Hrun. destruct w' as [s' tr']. cbn [trace] in Htr. subst tr'.
    exists (mkWorld s' (added ++ EvLog ERROR issue_error
                        :: EvExecute (issue_query E s finding) :: tr)%list), (added ++ [EvLog ERROR issue_error; EvExecute (issue_query E s finding)])%list.
    split; [reflexivity |].
    cbn [trace]. split; [now rewrite <- app_assoc |].
    rewrite executed_app, !count_app, (executed_recovery added Hrec),
      (count_recovery _ added recovery_not_requests Hrec),
      (count_recovery _ added recovery_not_evidence_error Hrec),
      (count_recovery _ added recovery_not_issue_error Hrec).
    simpl. repeat split; try discriminate. lia.
Qed.

(** [persist_finding] on any finding, as long as the gateway and the raw
    transport answer: the scans are written first and the first rejected one
    raises; otherwise, unless there are scans and nothing else, every other
    enrichment and then the issue row are written, each classified on its
    own status. *)
Lemma persist_finding_run (E : Env) (finding : Finding) (w : World) :
  gateway_returns_from E (count is_execute (trace w)) ->
  transport_returns_from E (count is_requests (trace w)) ->
  if scans_accepted E (List.filter (is_scan E) (enrichments finding))
       (count is_execute (trace w)) (count is_requests (trace w))
  then
    exists w' added,
      persist_finding E finding w = (inr tt, w')
      /\ trace w' = (added ++ trace w)%list
      /\ if returns_early E finding then Forall quiet added
         else
           count (is_log ERROR evidence_error) added
           = evidence_rejections E
               (List.filter (fun e => negb (is_scan E e)) (enrichments finding))
               (count is_execute (trace w)
                + scan_writes (List.filter (is_scan E) (enrichments finding)))
           /\ count (is_log ERROR issue_error) added
              = (if py_in
                      (gateway_status E
                         (count is_execute (trace w)
                          + scan_writes (List.filter (is_scan E) (enrichments finding))
                          + length (List.filter (fun e => negb (is_scan E e))
                                      (enrichments finding))))
                      [201]%Z
                 then 0 else 1)%nat
           /\ (count is_error_log added = 0%nat
               <-> evidence_rejections E
                     (List.filter (fun e => negb (is_scan E e)) (enrichments finding))
                     (count is_execute (trace w)
                      + scan_writes (List.filter (is_scan E) (enrichments finding)))
                   = 0%nat
                   /\ py_in
                        (gateway_status E
                           (count is_execute (trace w)
                            + scan_writes (List.filter (is_scan E) (enrichments finding))
                            + length (List.filter (fun e => negb (is_scan E e))
                                        (enrichments finding))))
                        [201]%Z = true)
  else
    exists msg w',
      persist_finding E finding w = (inl (Exception msg), w')
      /\ (errors w < errors w')%nat.
Proof.
  intros Hgw Htp.
  pose proof (scans_run E (List.filter (is_scan E) (enrichments finding)) w Hgw Htp)
    as Hscans.
  unfold returns_early.
  set (scans := List.filter (is_scan E) (enrichments finding)) in *.
  set (others := List.filter (fun e => negb (is_scan E e)) (enrichments finding)) in *.
  assert (Hunfold :
    persist_finding E finding w
    = match for_each scans (persist_scan E) w with
      | (inr _, w1) =>
          if (0 <? length scans)%nat && (length others =? 0)%nat
          then (inr tt, w1)
          else
            match
              for_each others
                (fun enrichment =>
                   let* s := get_self in
                   let* res :=
                     execute E
                       (table_insert EVIDENCE_TABLE
                          (OneRow (to_evidence_json E (account_id s) (cluster s)
                                     (sink_name s) (signing_key s)
                                     (finding_id finding) enrichment))
                          false) in
                   if py_ne (res !! "status_code") 201 then
                     logging ERROR "Failed to persist finding {finding.id} enrichment {enrichment} error: {res.get('data')}"
                   else ret tt) w1
            with
            | (inr _, w2) =>
                (let* s := get_self in
                 let* res :=
                   execute E (table_insert ISSUES_TABLE
                                (OneRow (to_finding_json E (account_id s) (cluster s)
                                           finding))
                                false) in
                 if py_ne (res !! "status_code") 201 then
                   logging ERROR "Failed to persist finding {finding.id} error: {res.get('data')}" ;;
                   handle_supabase_error E
                 else ret tt) w2
            | (inl e, w2) => (inl e, w2)
            end
      | (inl e, w1) => (inl e, w1)
      end).
  { unfold persist_finding. fold scans others. rewrite bind_eq.
    destruct (for_each scans (persist_scan E) w) as [[e | []] w1]; [reflexivity |].
    destruct ((0 <? length scans)%nat && (length others =? 0)%nat); reflexivity. }
  rewrite Hunfold. clear Hunfold.
  destruct (scans_accepted E scans (count is_execute (trace w))
              (count is_requests (trace w))).
  - destruct Hscans as (w1 & added1 & Hrun1 & Hself1 & Htr1 & Hq1 & Hex1 & Hrq1).
    rewrite Hrun1.
    destruct ((0 <? length scans)%nat && (length others =? 0)%nat).
    + now exists w1, added1.
    + assert (HcE : count is_execute (trace w1)
                    = (count is_execute (trace w) + scan_writes scans)%nat)
        by (rewrite Htr1, count_app; lia).
      destruct (evidence_loop_run E finding others w1)
        as (w2 & added2 & Hrun2 & Hself2 & Htr2 & _ & _ & Herr2 & Hev2 & Hiss2).
      { intros n Hn. apply Hgw. lia. }
      rewrite Hrun2. rewrite HcE in Herr2, Hev2.
      assert (HcE2 : count is_execute (trace w2)
                     = (count is_execute (trace w) + scan_writes scans
                        + length others)%nat).
      { rewrite Htr2, count_app, HcE.
        destruct (evidence_loop_run E finding others w1)
          as (w2' & added2' & Hrun2' & _ & Htr2' & Hexd & _).
        { intros n Hn. apply Hgw. lia. }
        rewrite Hrun2 in Hrun2'. injection Hrun2' as <-.
        rewrite Htr2 in Htr2'. apply app_inv_tail in Htr2'. subst added2'.
        rewrite <- executed_length, Hexd, length_map. lia. }
      destruct (Hgw (count is_execute (trace w2))) as [res Hres]; [lia |].
      destruct (issue_row_run E finding w2 res Hres)
        as (w3 & added3 & Hrun3 & Htr3 & _ & _ & Hev3 & Hiss3 & Herr3).
      rewrite Hrun3. rewrite HcE2 in Hres.
      rewrite (gateway_status_at E _ res Hres).
      destruct (quiet_counts evidence_error added1 Hq1) as [Herr1 Hev1].
      destruct (quiet_counts issue_error added1 Hq1) as [_ Hiss1].
      exists w3, (added3 ++ added2 ++ added1)%list.
      split; [reflexivity |].
      split; [now rewrite Htr3, Htr2, Htr1, !app_assoc |].
      rewrite !count_app.
      split; [lia |]. split; [lia |].
      rewrite <- Herr3. lia.
  - destruct Hscans as (msg & w' & Hrun & Herr). rewrite Hrun. now exists msg, w'.
Qed.

(** [persist_finding] treats a finding as failed exactly when a scan is
    rejected, or when the other enrichments are reached and one of their
    inserts, or the issue insert, is answered with a status other than 201. *)
Lemma finding_classification (E : Env) (finding : Finding) (w : World) :
  gateway_returns_from E (count is_execute (trace w)) ->
  transport_returns_from E (count is_requests (trace w)) ->
  (failed E (PersistFinding finding) w
   <-> scans_accepted E (List.filter (is_scan E) (enrichments finding))
         (count is_execute (trace w)) (count is_requests (trace w)) = false
       \/ (returns_early E finding = false
           /\ (0 < evidence_rejections E
                     (List.filter (fun e => negb (is_scan E e)) (enrichments finding))
                     (count is_execute (trace w)
                      + scan_writes (List.filter (is_scan E) (enrichments finding)))
               \/ py_in
                    (gateway_status E
                       (count is_execute (trace w)
                        + scan_writes (List.filter (is_scan E) (enrichments finding))
                        + length (List.filter (fun e => negb (is_scan E e))
                                    (enrichments finding))))
                    [201]%Z = false)%nat))
  /\ (scans_accepted E (List.filter (is_scan E) (enrichments finding))
        (count is_execute (trace w)) (count is_requests (trace w)) = true ->
      returns_early E finding = false ->
      count (is_log ERROR evidence_error)
        (trace (snd (perform E (PersistFinding finding) w)))
      = (count (is_log ERROR evidence_error) (trace w)
         + evidence_rejections E
             (List.filter (fun e => negb (is_scan E e)) (enrichments finding))
             (count is_execute (trace w)
              + scan_writes (List.filter (is_scan E) (enrichments finding))))%nat
      /\ count (is_log ERROR issue_error)
           (trace (snd (perform E (PersistFinding finding) w)))
         = (count (is_log ERROR issue_error) (trace w)
            + (if py_in
                    (gateway_status E
                       (count is_execute (trace w)
                        + scan_writes (List.filter (is_scan E) (enrichments finding))
                        + length (List.filter (fun e => negb (is_scan E e))
                                    (enrichments finding))))
                    [201]%Z
               then 0 else 1))%nat).
Proof.
  intros Hgw Htp.
  pose proof (persist_finding_run E finding w Hgw Htp) as Hrun.
  unfold failed, errors.
  change (perform E (PersistFinding finding) w)
    with (persist_finding E finding w).
  destruct (scans_accepted E (List.filter (is_scan E) (enrichments finding))
              (count is_execute (trace w)) (count is_requests (trace w))).
  - destruct Hrun as (w' & added & Hrun & Htr & Hcase). rewrite Hrun.
    cbn [snd]. rewrite Htr, !count_app.
    destruct (returns_early E finding).
    + destruct (quiet_counts "" added Hcase) as [Hq _]. rewrite Hq.
      split; [| intros _ H; discriminate H].
      split; [lia |]. intros [H | [H _]]; discriminate H.
    + destruct Hcase as (Hev & Hiss & Herr).
      split; [| intros _ _; split; lia].
      split.
      * intros Hlt.
        right. split; [reflexivity |].
        destruct (py_in _ [201]%Z) eqn:Hin; [| now right].
        left.
        destruct (evidence_rejections E _ _) eqn:Hrej; [| lia].
        exfalso. assert (count is_error_log added = 0%nat) by (apply Herr; now split).
        lia.
      * intros [H | [_ H]]; [discriminate H |].
        assert (count is_error_log added <> 0%nat); [| lia].
        intros H0. apply Herr in H0. destruct H0 as [Hrej Hin].
        destruct H as [H | H]; [lia | congruence].
  - destruct Hrun as (msg & w' & Hrun & Herr). rewrite Hrun. cbn [snd].
    split; [| intros H; discriminate H].
    unfold errors in Herr. split; [now left | intros _; exact Herr].
Qed.

(** C4, as the code has it.  Every operation classifies the status it
    observes against the set of its request: selects accept exactly {200};
    upserts and the scan-result insert accept exactly {200, 201}; the evidence
    and issue inserts of [persist_finding] accept exactly {201}; the delete
    accepts exactly {200, 202, 204}; RPC calls accept exactly {200, 201, 204}.
    Any other status, or a result without an integer status, is treated as a
    failure: an error is logged.  For [persist_finding] this holds for every
    list of enrichments: each scan report block is classified on the statuses
    of its own insert and RPC, each other enrichment on the status of its own
    evidence insert (one error log per rejected one), and the issue row on
    the status of its own insert. *)
Theorem expected_status_sets (E : Env) (w : World) (res res2 : Dict)
    (response : Response) :
  gateway E (count is_execute (trace w)) = inr res ->
  gateway E (S (count is_execute (trace w))) = inr res2 ->
  transport E (count is_requests (trace w)) = inr response ->
  (forall op k, kind_of op = Some k ->
     (failed E op w <-> py_in (observed k res response) (accepted k) = false))
  /\ (forall id scan_id st en ty sc results ann,
        is_scan E (mkEnrichment [ScanReportBlock scan_id st en ty sc results] ann)
        = true ->
        (failed E
           (PersistFinding
              (mkFinding id
                 [mkEnrichment [ScanReportBlock scan_id st en ty sc results] ann]))
           w
         <-> py_in (res !! "status_code") [200; 201]%Z = false
             \/ py_in (Some (JNum (status_code response))) [200; 201; 204]%Z
                = false))
  /\ (forall id enrichment,
        is_scan E enrichment = false ->
        (failed E (PersistFinding (mkFinding id [enrichment])) w
         <-> py_in (res !! "status_code") [201]%Z = false
             \/ py_in (res2 !! "status_code") [201]%Z = false))
  /\ (forall finding,
        gateway_returns_from E (count is_execute (trace w)) ->
        transport_returns_from E (count is_requests (trace w)) ->
        (failed E (PersistFinding finding) w
         <-> scans_accepted E (List.filter (is_scan E) (enrichments finding))
               (count is_execute (trace w)) (count is_requests (trace w)) = false
             \/ (returns_early E finding = false
                 /\ (0 < evidence_rejections E
                           (List.filter (fun e => negb (is_scan E e))
                              (enrichments finding))
                           (count is_execute (trace w)
                            + scan_writes
                                (List.filter (is_scan E) (enrichments finding)))
                     \/ py_in
                          (gateway_status E
                             (count is_execute (trace w)
                              + scan_writes
                                  (List.filter (is_scan E) (enrichments finding))
                              + length (List.filter (fun e => negb (is_scan E e))
                                          (enrichments finding))))
                          [201]%Z = false)%nat))
        /\ (scans_accepted E (List.filter (is_scan E) (enrichments finding))
              (count is_execute (trace w)) (count is_requests (trace w)) = true ->
            returns_early E finding = false ->
            count (is_log ERROR evidence_error)
              (trace (snd (perform E (PersistFinding finding) w)))
            = (count (is_log ERROR evidence_error) (trace w)
               + evidence_rejections E
                   (List.filter (fun e => negb (is_scan E e)) (enrichments finding))
                   (count is_execute (trace w)
                    + scan_writes
                        (List.filter (is_scan E) (enrichments finding))))%nat
            /\ count (is_log ERROR issue_error)
                 (trace (snd (perform E (PersistFinding finding) w)))
               = (count (is_log ERROR issue_error) (trace w)
                  + (if py_in
                          (gateway_status E
                             (count is_execute (trace w)
                              + scan_writes
                                  (List.filter (is_scan E) (enrichments finding))
                              + length (List.filter (fun e => negb (is_scan E e))
                                          (enrichments finding))))
                          [201]%Z
                     then 0 else 1))%nat)).
Proof.
  intros Hres Hres2 Hresp. split; [| split; [| split]].
  - intros op k Hk. now apply single_request_classification.
  - intros. now apply scan_finding_classification.
  - intros. now apply evidence_finding_classification with (res2 := res2).
  - intros finding Hgw Htp. now apply finding_classification.
Qed.

Lemma expected_status_sets_witness :
  failed example_env GetActiveServices example_world
  /\ ~ failed example_env (PersistServices [mkServiceInfo JNull JNull JNull JNull
                                             JNull None JNull JNull])
         example_world
  /\ ~ failed example_env (PersistFinding example_finding) example_world
  /\ failed example_env_second_rejected (PersistFinding example_finding_two)
       example_world
  /\ count (is_log ERROR evidence_error)
       (trace (snd (perform example_env_second_rejected
                      (PersistFinding example_finding_two) example_world)))
     = 1%nat.
Proof.
  destruct (expected_status_sets example_env example_world
              (<["data" := JArr []]> (<["status_code" := JNum 201]> ∅))
              (<["data" := JArr []]> (<["status_code" := JNum 201]> ∅))
              (mkResponse 200 "") eq_refl eq_refl eq_refl)
    as (Hone & _ & Hfinding & _).
  destruct (expected_status_sets example_env_second_rejected example_world
              (<["data" := JArr []]> (<["status_code" := JNum 201]> ∅))
              (<["data" := JStr "boom"]> (<["status_code" := JNum 500]> ∅))
              (mkResponse 200 "") eq_refl eq_refl eq_refl)
    as (_ & _ & _ & Hany).
  destruct (Hany example_finding_two) as (Hfailed & Hlogs).
  { intros n _. destruct n as [| [| n]]; eexists; reflexivity. }
  { intros n _. eexists. reflexivity. }
  destruct (Hlogs eq_refl eq_refl) as (Hevidence & _).
  split; [| split; [| split; [| split]]].
  - apply (Hone GetActiveServices KSelect eq_refl). reflexivity.
  - intros Hfail.
    apply (Hone (PersistServices [_]) KUpsert eq_refl) in Hfail.
    discriminate Hfail.
  - intros Hfail.
    apply (Hfinding (JStr "finding-2") example_enrichment eq_refl) in Hfail.
    destruct Hfail as [H | H]; discriminate H.
  - apply Hfailed. right. split; [reflexivity |]. left. vm_compute. lia.
  - exact Hevidence.
Defined.

(** C4 as stated does not hold: a select answered with 201 is treated as a
    failure, and so is an evidence or issue insert answered with 200. *)
Lemma select_rejects_201_insert_rejects_200 :
  gateway example_env 0
    = inr (<["data" := JArr []]> (<["status_code" := JNum 201]> ∅))
  /\ fst (get_active_services example_env example_world)
     = inl (Exception
              "Failed to get existing services (supabase) error: {res.get('data')}")
  /\ failed example_env GetActiveServices example_world
  /\ failed
       (with_gateway example_env
          (fun _ => inr (<["data" := JArr []]> (<["status_code" := JNum 200]> ∅))))
       (PersistFinding example_finding) example_world.
Proof.
  split; [reflexivity |]. split; [reflexivity |].
  split; vm_compute; lia.
Qed.

(** ** Recovery on failure *)

(** Every operation that sends a single request calls
    [handle_supabase_error], and with it reads the clock for the rate limit,
    exactly when it treats the result as a failure. *)
Lemma single_request_failure_recovers (E : Env) (w : World) (op : Operation)
    (k : Kind) (res : Dict) (response : Response) :
  kind_of op = Some k ->
  gateway E (count is_execute (trace w)) = inr res ->
  transport E (count is_requests (trace w)) = inr response ->
  failed E op w <-> (clock_reads w < clock_reads (snd (perform E op w)))%nat.
Proof.
  intros Hk Hres Hresp. unfold failed, errors, clock_reads. destruct w as [s tr].
  simpl in Hres, Hresp.
  destruct op as [f | [|x l] | | | | [|x l] | | [|x l] | [j|] | |
                  [|x l] | cs | | [|x l] | n];
    simpl in Hk; inversion Hk; subst k; clear Hk.
  all: exec;
    first [ rewrite Hres
          | erewrite delete_patch_run by (simpl; exact Hresp)
          | erewrite rpc_patch_run by (simpl; exact Hresp) ];
    unfold result_dict; rewrite ?lookup_insert_ne, ?lookup_insert_eq by discriminate;
    exec;
    match goal with |- context [py_in ?a ?b] => destruct (py_in a b) eqn:Hin end;
    exec; settle.
Qed.

(** The issue insert of [persist_finding] recovers in the same way. *)
Lemma issue_failure_recovers (E : Env) (w : World) (res res2 : Dict)
    (id : JSON) (enrichment : Enrichment) :
  gateway E (count is_execute (trace w)) = inr res ->
  gateway E (S (count is_execute (trace w))) = inr res2 ->
  is_scan E enrichment = false ->
  py_in (res2 !! "status_code") [201]%Z = false
  <-> (clock_reads w
       < clock_reads (snd (persist_finding E (mkFinding id [enrichment]) w)))%nat.
Proof.
  intros Hres Hres2 Hscan. unfold clock_reads. destruct w as [s tr].
  simpl in Hres, Hres2.
  unfold persist_finding. simpl enrichments. simpl List.filter.
  rewrite Hscan. simpl List.filter. simpl length. simpl andb. cbv iota.
  cbv [for_each]. exec. rewrite Hres. exec.
  destruct (py_in (res !! "status_code") [201]%Z) eqn:Hin; exec;
    rewrite Hres2; exec;
    destruct (py_in (res2 !! "status_code") [201]%Z) eqn:Hin2; exec; settle.
Qed.

(** So do the two writes of [persist_scan]. *)
Lemma scan_failure_recovers (E : Env) (w : World) (res : Dict)
    (response : Response) (id scan_id : JSON) (st en : string) (ty sc : JSON)
    (results : list ScanReportRow) (ann : Dict) :
  gateway E (count is_execute (trace w)) = inr res ->
  transport E (count is_requests (trace w)) = inr response ->
  is_scan E (mkEnrichment [ScanReportBlock scan_id st en ty sc results] ann) = true ->
  failed E
    (PersistFinding
       (mkFinding id [mkEnrichment [ScanReportBlock scan_id st en ty sc results] ann]))
    w
  <-> (clock_reads w
       < clock_reads
           (snd (persist_finding E
                   (mkFinding id
                      [mkEnrichment [ScanReportBlock scan_id st en ty sc results] ann])
                   w)))%nat.
Proof.
  intros Hres Hresp Hscan. unfold failed, errors, clock_reads. destruct w as [s tr].
  simpl in Hres, Hresp.
  unfold perform, persist_finding. simpl enrichments. simpl List.filter.
  rewrite Hscan. simpl List.filter. simpl length. simpl andb. cbv iota.
  cbv [persist_scan for_each blocks]. exec. rewrite Hres. exec.
  destruct (py_in (res !! "status_code") [200; 201]%Z) eqn:Hin; exec.
  2: { settle. }
  erewrite rpc_patch_run by (simpl; exact Hresp).
  unfold result_dict; rewrite ?lookup_insert_ne, ?lookup_insert_eq by discriminate.
  exec.
  destruct (py_in (Some (JNum (status_code response))) [200; 201; 204]%Z) eqn:Hin2;
    exec; settle.
Qed.

(** C2 fails on the evidence insert of [persist_finding].  With the cooldown
    long elapsed, an evidence insert answered with 401 is logged as an error
    and the operation completes, but no re-authentication is attempted: the
    clock is not read and the identity service is not called.  The same
    answer to the issue insert does trigger the attempt. *)
Theorem evidence_failure_skips_recovery :
  persist_finding example_env_evidence_rejected example_finding example_world
  = (inr tt,
     mkWorld example_dal
       [EvExecute
          (table_insert ISSUES_TABLE
             (OneRow (to_finding_json example_env "acct-1" "cluster-a"
                        example_finding))
             false);
        EvLog ERROR
          "Failed to persist finding {finding.id} enrichment {enrichment} error: {res.get('data')}";
        EvExecute
          (table_insert EVIDENCE_TABLE
             (OneRow (to_evidence_json example_env "acct-1" "cluster-a"
                        "robusta_ui" "signing" (JStr "finding-2")
                        example_enrichment))
             false)])
  /\ failed example_env_evidence_rejected (PersistFinding example_finding)
       example_world
  /\ (sign_in_time example_dal
      + SUPABASE_LOGIN_RATE_LIMIT_SEC example_env_evidence_rejected
      < now example_env_evidence_rejected 0)%Q
  /\ clock_reads
       (snd (persist_finding example_env_evidence_rejected example_finding
               example_world)) = 0%nat
  /\ sign_in_calls
       (snd (persist_finding example_env_evidence_rejected example_finding
               example_world)) = 0%nat
  /\ sign_in_calls
       (snd (persist_finding example_env_issue_rejected example_finding
               example_world)) = 1%nat.
Proof.
  split; [reflexivity |].
  split; [vm_compute; lia |].
  split; [vm_compute; reflexivity |].
  repeat split; reflexivity.
Qed.

(** * Further properties *)

(** ** String helpers of the delete path *)

(** X11. [rstrip("/")] removes trailing slashes and nothing else: the input
    is the result followed by a run of slashes, and the result does not end
    with a slash. *)
Theorem rstrip_slash_strips_exactly_trailing_slashes (s : string) :
  (exists n, s = rstrip_slash s ++ slashes n)
  /\ last_char (rstrip_slash s) <> Some "/"%char.
Proof.
  induction s as [| c r [[n Hn] Hlast]]; simpl.
  - split; [now exists 0%nat | discriminate].
  - destruct (rstrip_slash r) as [| c' r'] eqn:Hr.
    + destruct (Ascii.eqb c "/") eqn:Hc.
      * apply Ascii.eqb_eq in Hc. subst c. split; [| discriminate].
        exists (S n). now rewrite Hn.
      * split; [exists n; now rewrite Hn |].
        simpl. intros [= ->]. now rewrite Ascii.eqb_refl in Hc.
    + split; [exists n; now rewrite Hn at 1 |].
      exact Hlast.
Qed.

Lemma remove_pct22_other (c : ascii) (r : string) :
  Ascii.eqb "%" c = false -> remove_pct22 (String c r) = String c (remove_pct22 r).
Proof.
  destruct c as [[] [] [] [] [] [] [] []]; intros H; try reflexivity;
    discriminate H.
Qed.

(** X12. [replace("%22", "")] unquotes a value: after a prefix without a
    percent sign, which is kept as it is, an encoded quote is dropped. *)
Theorem remove_pct22_unquotes (a b : string) :
  has_char "%" a = false ->
  remove_pct22 a = a
  /\ remove_pct22 (a ++ "%22" ++ b) = a ++ remove_pct22 b.
Proof.
  induction a as [| c a IH]; intros Hno.
  - split; reflexivity.
  - simpl in Hno. apply orb_false_iff in Hno as [Hc Ha].
    destruct (IH Ha) as [IH1 IH2].
    change (String c a ++ "%22" ++ b) with (String c (a ++ "%22" ++ b)).
    rewrite !remove_pct22_other by exact Hc.
    split; [now rewrite IH1 | now rewrite IH2].
Qed.

Lemma remove_pct22_unquotes_witness :
  remove_pct22 ("service_key=eq." ++ "%22" ++ "ns/Job/a.b%22")
  = "service_key=eq." ++ remove_pct22 "ns/Job/a.b%22".
Proof.
  exact (proj2 (remove_pct22_unquotes "service_key=eq." "ns/Job/a.b%22" eq_refl)).
Defined.

(** ** Entity codecs *)

(** X13. The cluster-status row has a [last_alert_at] entry exactly when the
    entity has an alert time (a missing one is deleted, not written as null),
    always carries [updated_at = "now()"] and the entity's [light_actions],
    and keeps every other field of the entity; building it logs once at info
    level and touches nothing else. *)
Theorem cluster_status_row_fields (data : ClusterStatus) (w : World) :
  exists row : Dict,
    to_db_cluster_status data w
    = (inr row,
       mkWorld (self w) (EvLog INFO "cluster status {log_cluster_status}" :: trace w))
    /\ row !! "last_alert_at" = last_alert_at data
    /\ row !! "updated_at" = Some (JStr "now()")
    /\ row !! "light_actions" = Some (JArr (light_actions data))
    /\ forall k, k <> "last_alert_at" -> k <> "updated_at" -> k <> "light_actions" ->
         row !! k = status_fields data !! k.
Proof.
  exists (cluster_status_row data). split; [reflexivity |].
  unfold cluster_status_row, cluster_status_dict.
  destruct (last_alert_at data) as [v |]; simpl.
  - split; [now dict_lookup |]. split; [now dict_lookup |].
    split; [now dict_lookup |].
    intros k H1 H2 H3. now rewrite !lookup_insert_ne by congruence.
  - split.
    { rewrite lookup_insert_ne by discriminate. apply lookup_delete_eq. }
    split; [now dict_lookup |].
    split.
    { rewrite lookup_insert_ne, lookup_delete_ne by discriminate. now dict_lookup. }
    intros k H1 H2 H3.
    rewrite lookup_insert_ne, lookup_delete_ne by congruence.
    now rewrite !lookup_insert_ne by congruence.
Qed.

(** X14. The row codecs of nodes, jobs, helm releases, namespaces and scan
    results overwrite whatever account, cluster, update time (and service key)
    the entity's own mapping holds and keep every other field as it is. *)
Theorem codecs_keep_entity_fields (s : SupabaseDal) :
  (forall (node : NodeInfo) k,
     __to_db_node s node !! k
     = if decide (k = "updated_at") then Some (JStr "now()")
       else if decide (k = "cluster_id") then Some (JStr (cluster s))
       else if decide (k = "account_id") then Some (JStr (account_id s))
       else node_dict node !! k)
  /\ (forall (job : JobInfo) k,
        __to_db_job s job !! k
        = if decide (k = "updated_at") then Some (JStr "now()")
          else if decide (k = "service_key") then Some (job_service_key job)
          else if decide (k = "cluster_id") then Some (JStr (cluster s))
          else if decide (k = "account_id") then Some (JStr (account_id s))
          else job_dict job !! k)
  /\ (forall (helm_release : HelmRelease) k,
        __to_db_helm_release s helm_release !! k
        = if decide (k = "updated_at") then Some (JStr "now()")
          else if decide (k = "service_key") then Some (helm_service_key helm_release)
          else if decide (k = "cluster_id") then Some (JStr (cluster s))
          else if decide (k = "account_id") then Some (JStr (account_id s))
          else helm_dict helm_release !! k)
  /\ (forall (namespace : NamespaceInfo) k,
        __to_db_namespace s namespace !! k
        = if decide (k = "updated_at") then Some (JStr "now()")
          else if decide (k = "cluster_id") then Some (JStr (cluster s))
          else if decide (k = "account_id") then Some (JStr (account_id s))
          else namespace_dict namespace !! k)
  /\ (forall (scanResult : ScanReportRow) k,
        __to_db_scanResult s scanResult !! k
        = if decide (k = "cluster_id") then Some (JStr (cluster s))
          else if decide (k = "account_id") then Some (JStr (account_id s))
          else scan_row_dict scanResult !! k).
Proof.
  unfold __to_db_node, __to_db_job, __to_db_helm_release, __to_db_namespace,
    __to_db_scanResult.
  repeat split; intros x k;
    repeat (case_decide;
            [subst k; now dict_lookup | rewrite lookup_insert_ne by congruence]);
    reflexivity.
Qed.

(** ** Reading services and nodes back *)

Lemma service_kwargs_succeeds (row : JSON) :
  (exists kwargs, service_kwargs row = inr kwargs)
  <-> has_service_columns row = true.
Proof.
  destruct row as [| b | n | str | items | fields];
    try (split; [intros [x Hx]; discriminate Hx | discriminate]).
  unfold service_kwargs, has_service_columns, subscript, get_method, bind_sum.
  simpl forallb.
  repeat match goal with
         | |- context [assoc ?k fields] =>
             lazymatch k with
             | "config" => fail
             | _ => destruct (assoc k fields)
             end
         end; simpl;
    (split; [intros [x Hx]; first [reflexivity | discriminate Hx]
            | intros Hc; first [discriminate Hc | eexists; reflexivity]]).
Qed.

(** X1. What is written is what is read: for a row object that holds, for
    the selected columns, what [to_service] wrote, the decoder calls the
    [ServiceInfo] constructor with exactly the service's name, type,
    namespace, classification, config (null when there is none) and pod
    counts, and with nothing else ([deleted] is not passed); the decoded
    service is what the constructor returns for them. *)
Theorem service_row_round_trip (E : Env) (s : SupabaseDal) (service : ServiceInfo)
    (fields : list (string * JSON)) :
  (forall k, In k service_columns -> assoc k fields = to_service E s service !! k) ->
  exists kwargs : Dict,
    service_kwargs (JObj fields) = inr kwargs
    /\ service_of_row E (JObj fields) = ServiceInfo_init E kwargs
    /\ forall k,
         kwargs !! k
         = if decide (k = "name") then Some (svc_name service)
           else if decide (k = "service_type") then Some (service_type service)
           else if decide (k = "namespace") then Some (svc_namespace service)
           else if decide (k = "classification") then Some (classification service)
           else if decide (k = "service_config")
                then Some (default JNull (service_config service))
           else if decide (k = "ready_pods") then Some (ready_pods service)
           else if decide (k = "total_pods") then Some (total_pods service)
           else None.
Proof.
  intros Hrow.
  assert (Hkw : service_kwargs (JObj fields)
                = inr (<["name" := svc_name service]>
                      (<["service_type" := service_type service]>
                      (<["namespace" := svc_namespace service]>
                      (<["classification" := classification service]>
                      (<["service_config" := default JNull (service_config service)]>
                      (<["ready_pods" := ready_pods service]>
                      (<["total_pods" := total_pods service]> ∅)))))))).
  { unfold service_kwargs, subscript, get_method, bind_sum.
    repeat (rewrite Hrow by (simpl; tauto)).
    unfold to_service. dict_lookup. reflexivity. }
  eexists. split; [exact Hkw |]. split.
  - unfold service_of_row, bind_sum. now rewrite Hkw.
  - intros k.
    repeat (case_decide;
            [subst k; now dict_lookup | rewrite lookup_insert_ne by congruence]).
    apply lookup_empty.
Qed.

Lemma service_row_round_trip_witness :
  exists kwargs : Dict,
    service_kwargs example_service_row = inr kwargs
    /\ kwargs !! "name" = Some (JStr "api")
    /\ kwargs !! "deleted" = None.
Proof.
  destruct (service_row_round_trip example_env example_dal example_service
              [("name", JStr "api"); ("type", JStr "Deployment");
               ("namespace", JStr "prod"); ("classification", JStr "None");
               ("config", JObj [("replicas", JNum 2)]);
               ("ready_pods", JNum 1); ("total_pods", JNum 2)])
    as (kwargs & Hkw & _ & Hall).
  - intros k Hk. simpl in Hk.
    repeat (destruct Hk as [<- | Hk]; [reflexivity |]). destruct Hk.
  - exists kwargs. split; [exact Hkw |].
    split; [exact (Hall "name") | exact (Hall "deleted")].
Defined.

Lemma service_of_row_succeeds (E : Env) (row : JSON) :
  (exists service, service_of_row E row = inr service)
  <-> has_service_columns row && service_constructor_accepts E row = true.
Proof.
  unfold service_of_row, service_constructor_accepts, bind_sum.
  destruct (has_service_columns row) eqn:Hc.
  - apply service_kwargs_succeeds in Hc as [kw Hkw]. rewrite Hkw. simpl.
    destruct (ServiceInfo_init E kw) as [e | x].
    + split; [intros [y Hy]; discriminate Hy | discriminate].
    + split; [reflexivity | intros _; now exists x].
  - simpl. split; [| discriminate]. intros [x Hx].
    destruct (service_kwargs row) as [e | kw] eqn:Hkw; [discriminate Hx |].
    assert (Ht : has_service_columns row = true)
      by (apply service_kwargs_succeeds; now exists kw).
    congruence.
Qed.

Lemma traverse_succeeds {A B} (f : A -> exn + B) (l : list A) :
  (exists ys, traverse f l = inr ys)
  <-> forallb (fun x => match f x with inr _ => true | inl _ => false end) l = true.
Proof.
  induction l as [| x l IH]; simpl.
  - split; [reflexivity | now exists []].
  - destruct (f x) as [e | y]; simpl.
    + split; [intros [ys H]; discriminate H | discriminate].
    + rewrite <- IH. destruct (traverse f l) as [e | ys].
      * split; intros [zs H]; discriminate H.
      * split; intros _; eexists; reflexivity.
Qed.

Lemma forallb_pointwise {A} (p q : A -> bool) (l : list A) :
  (forall x, p x = q x) -> forallb p l = forallb q l.
Proof. intros H. induction l as [| x l IH]; simpl; [reflexivity | now rewrite H, IH]. Qed.

Lemma traverse_length {A B} (f : A -> exn + B) (l : list A) (ys : list B) :
  traverse f l = inr ys -> length ys = length l.
Proof.
  revert ys. induction l as [| x l IH]; simpl; intros ys H.
  - now inversion H.
  - destruct (f x) as [e | y]; [discriminate |].
    destruct (traverse f l) as [e | zs]; [discriminate |].
    inversion H. simpl. f_equal. now apply IH.
Qed.

(** X2. On status 200 with a list of rows, [get_active_services] sends its
    one select and nothing else (no log, no clock reading) and decodes the
    rows in order; it returns one service per row exactly when every row is
    an object with the six required columns ([config] may be missing) whose
    values the [ServiceInfo] constructor accepts; otherwise the error of the
    first failing row is raised. *)
Theorem get_active_services_decodes (E : Env) (w : World) (res : Dict)
    (rows : list JSON) :
  gateway E (count is_execute (trace w)) = inr res ->
  py_in (res !! "status_code") [200]%Z = true ->
  res !! "data" = Some (JArr rows) ->
  get_active_services E w
  = (traverse (service_of_row E) rows,
     mkWorld (self w) (EvExecute (active_services_query (self w)) :: trace w))
  /\ ((exists services,
         fst (get_active_services E w) = inr services
         /\ length services = length rows)
      <-> forallb (fun row => has_service_columns row
                              && service_constructor_accepts E row) rows = true).
Proof.
  intros Hres Hin Hdata.
  assert (Hrun : get_active_services E w
                 = (traverse (service_of_row E) rows,
                    mkWorld (self w)
                      (EvExecute (active_services_query (self w)) :: trace w))).
  { destruct w as [s tr]. simpl in Hres. exec. rewrite Hres. exec.
    rewrite Hin, Hdata. simpl.
    destruct (traverse (service_of_row E) rows); reflexivity. }
  split; [exact Hrun |]. rewrite Hrun. simpl.
  assert (Heq : forallb (fun row => has_service_columns row
                                    && service_constructor_accepts E row) rows
                = forallb (fun x => match service_of_row E x with
                                    | inr _ => true | inl _ => false end) rows).
  { apply forallb_pointwise. intros row.
    destruct (has_service_columns row && service_constructor_accepts E row) eqn:Hc.
    - apply service_of_row_succeeds in Hc as [x ->]. reflexivity.
    - destruct (service_of_row E row) as [e | x] eqn:Hd; [reflexivity |].
      assert (Ht : has_service_columns row && service_constructor_accepts E row = true)
        by (apply service_of_row_succeeds; now exists x).
      congruence. }
  rewrite Heq, <- traverse_succeeds. split.
  - intros (l & Hl & _). now exists l.
  - intros (l & Hl). exists l. split; [exact Hl |].
    now apply traverse_length with (f := service_of_row E).
Qed.

Lemma get_active_services_decodes_witness :
  exists services,
    fst (get_active_services
           (with_gateway example_env
              (fun _ => inr (<["data" := JArr [example_service_row]]>
                               (<["status_code" := JNum 200]> ∅))))
           example_world) = inr services
    /\ length services = 1%nat.
Proof.
  destruct (get_active_services_decodes
              (with_gateway example_env
                 (fun _ => inr (<["data" := JArr [example_service_row]]>
                                  (<["status_code" := JNum 200]> ∅))))
              example_world
              (<["data" := JArr [example_service_row]]>
                 (<["status_code" := JNum 200]> ∅))
              [example_service_row]) as [_ H].
  - reflexivity.
  - vm_compute; reflexivity.
  - vm_compute; reflexivity.
  - apply H. vm_compute; reflexivity.
Defined.



(** ** Reading findings *)

(** X4. On status 200, [has_cluster_findings] sends one select limited to one
    row and answers whether the returned list is non-empty; a result without
    [data] raises [TypeError] instead of answering. *)
Theorem has_cluster_findings_answer (E : Env) (w : World) (res : Dict) :
  gateway E (count is_execute (trace w)) = inr res ->
  py_in (res !! "status_code") [200]%Z = true ->
  snd (has_cluster_findings E w)
  = mkWorld (self w) (EvExecute (cluster_findings_query (self w)) :: trace w)
  /\ (forall items, res !! "data" = Some (JArr items) ->
        fst (has_cluster_findings E w)
        = inr (match items with [] => false | _ => true end))
  /\ (res !! "data" = None ->
      fst (has_cluster_findings E w) = inl (TypeError "object has no len()")).
Proof.
  intros Hres Hin. destruct w as [s tr]. simpl in Hres.
  exec. rewrite Hres. exec. rewrite Hin. simpl.
  split; [| split].
  - destruct (py_len (res !! "data")); reflexivity.
  - intros items ->. now destruct items.
  - intros ->. reflexivity.
Qed.

Lemma has_cluster_findings_answer_witness :
  fst (has_cluster_findings
         (with_gateway example_env
            (fun _ => inr (<["data" := JArr [JObj []]]>
                             (<["status_code" := JNum 200]> ∅))))
         example_world) = inr true.
Proof.
  destruct (has_cluster_findings_answer
              (with_gateway example_env
                 (fun _ => inr (<["data" := JArr [JObj []]]>
                                  (<["status_code" := JNum 200]> ∅))))
              example_world
              (<["data" := JArr [JObj []]]> (<["status_code" := JNum 200]> ∅)))
    as (_ & H & _).
  - reflexivity.
  - vm_compute; reflexivity.
  - apply (H [JObj []]). vm_compute; reflexivity.
Defined.

(** ** One attempt per operation *)

Lemma count_local (p : Event -> bool) (added : list Event) :
  (forall e, local_event e -> p e = false) ->
  Forall local_event added -> count p added = 0%nat.
Proof.
  intros Hp Hall. induction Hall as [| e l He _ IH]; simpl; [reflexivity |].
  now rewrite (Hp e He), IH.
Qed.

(** Recovery sends nothing to the gateway. *)
Lemma handle_supabase_error_counts (E : Env) (w : World) :
  exists w',
    handle_supabase_error E w = (inr tt, w')
    /\ count is_execute (trace w') = count is_execute (trace w)
    /\ count is_requests (trace w') = count is_requests (trace w)
    /\ count is_finding_write (trace w') = count is_finding_write (trace w).
Proof.
  destruct (handle_supabase_error_run E w) as (w' & added & Hrun & Htr & Hloc & _).
  exists w'. split; [exact Hrun |]. rewrite Htr, !count_app.
  rewrite !(count_local _ added) by (try exact Hloc; now intros []).
  repeat split.
Qed.

Ltac exec_all :=
  cbv [perform discard persist_finding persist_scan persist_scan_block
       persist_services get_active_services has_cluster_findings
       get_active_nodes publish_nodes get_active_jobs publish_jobs
       remove_deleted_job get_active_helm_release publish_helm_releases
       publish_cluster_status to_db_cluster_status get_active_namespaces
       publish_namespaces publish_cluster_nodes
       __delete_patch __rpc_patch requests_delete requests_post response_json
       try_except
       execute bind ret raise lift get_self get_index emit logging
       self trace fst snd py_not_in py_ne negb];
  cbn [count is_execute is_requests Nat.add].

Ltac case_outcome :=
  match goal with
  | |- context [handle_supabase_error ?E ?W] =>
      let w' := fresh "w'" in
      let Hrun := fresh "Hrun" in
      let Hex := fresh "Hex" in
      let Hrq := fresh "Hrq" in
      let Hfw := fresh "Hfw" in
      destruct (handle_supabase_error_counts E W) as (w' & Hrun & Hex & Hrq & Hfw);
      rewrite Hrun; destruct w' as [? ?]; simpl in Hex, Hrq, Hfw
  | |- context [gateway ?E ?n] => destruct (gateway E n)
  | |- context [transport ?E ?n] => destruct (transport E n)
  | |- context [py_in ?a ?b] => destruct (py_in a b)
  | |- context [json_loads ?E ?c] => destruct (json_loads E c)
  | |- context [String.eqb ?a ?b] => destruct (String.eqb a b)
  | |- context [match ?x with inl _ => _ | inr _ => _ end] => destruct x
  end; exec_all.

(** X5. No retry: whatever the gateway answers, and also when the request
    raises, an operation of the single-request kinds sends exactly one
    request. *)
Theorem single_request_no_retry (E : Env) (w : World) (op : Operation) (k : Kind) :
  kind_of op = Some k ->
  requests_sent (snd (perform E op w)) = S (requests_sent w).
Proof.
  intros Hk. unfold requests_sent. destruct w as [s tr].
  destruct op as [f | [|x l] | | | | [|x l] | | [|x l] | [j|] | |
                  [|x l] | cs | | [|x l] | n];
    simpl in Hk; inversion Hk; subst k; clear Hk.
  all: exec_all; repeat case_outcome; simpl; lia.
Qed.

Lemma single_request_no_retry_witness :
  requests_sent (snd (perform example_env_gateway_down GetActiveJobs example_world))
  = 1%nat.
Proof.
  exact (single_request_no_retry example_env_gateway_down example_world
           GetActiveJobs KSelect eq_refl).
Defined.

(** X6. An exception raised by the request itself (a connection error, for
    instance) leaves the operation as it is: no error is logged and
    [handle_supabase_error] is not called, so the clock is not read and no
    sign-in is attempted. *)
Theorem request_exception_propagates (E : Env) (w : World) (op : Operation)
    (k : Kind) (e : exn) :
  kind_of op = Some k ->
  outcome_raises E w k e ->
  fst (perform E op w) = inl e
  /\ errors (snd (perform E op w)) = errors w
  /\ clock_reads (snd (perform E op w)) = clock_reads w
  /\ sign_in_calls (snd (perform E op w)) = sign_in_calls w.
Proof.
  intros Hk Hraise. unfold errors, clock_reads, sign_in_calls.
  destruct w as [s tr].
  destruct op as [f | [|x l] | | | | [|x l] | | [|x l] | [j|] | |
                  [|x l] | cs | | [|x l] | n];
    simpl in Hk; inversion Hk; subst k; clear Hk; simpl in Hraise.
  all: exec_all; rewrite Hraise; repeat split.
Qed.

Lemma request_exception_propagates_witness :
  fst (perform example_env_gateway_down (RemoveDeletedJob (Some (mkJobInfo ∅ JNull)))
         example_world) = inl (LibraryError "ConnectionError")
  /\ clock_reads
       (snd (perform example_env_gateway_down
               (RemoveDeletedJob (Some (mkJobInfo ∅ JNull))) example_world)) = 0%nat.
Proof.
  destruct (request_exception_propagates example_env_gateway_down example_world
              (RemoveDeletedJob (Some (mkJobInfo ∅ JNull))) KDelete
              (LibraryError "ConnectionError") eq_refl eq_refl)
    as (Hret & _ & Hclock & _).
  exact (conj Hret Hclock).
Defined.

(** X7. Which failures reach the caller.  When the status is rejected,
    [publish_cluster_status] and [publish_cluster_nodes] still return
    normally, while every other single-request operation raises [Exception];
    a write whose status is accepted returns normally. *)
Theorem failure_raises_or_continues (E : Env) (w : World) (op : Operation)
    (k : Kind) (res : Dict) (response : Response) :
  kind_of op = Some k ->
  gateway E (count is_execute (trace w)) = inr res ->
  transport E (count is_requests (trace w)) = inr response ->
  (continues_on_failure op = true -> fst (perform E op w) = inr tt)
  /\ (continues_on_failure op = false -> failed E op w ->
      exists msg, fst (perform E op w) = inl (Exception msg))
  /\ (k <> KSelect -> ~ failed E op w -> fst (perform E op w) = inr tt).
Proof.
  intros Hk Hres Hresp. unfold failed, errors. destruct w as [s tr].
  simpl in Hres, Hresp.
  destruct op as [f | [|x l] | | | | [|x l] | | [|x l] | [j|] | |
                  [|x l] | cs | | [|x l] | n];
    simpl in Hk; inversion Hk; subst k; clear Hk; simpl continues_on_failure.
  all: exec;
    first [ rewrite Hres
          | erewrite delete_patch_run by (simpl; exact Hresp)
          | erewrite rpc_patch_run by (simpl; exact Hresp) ];
    unfold result_dict; rewrite ?lookup_insert_ne, ?lookup_insert_eq by discriminate;
    exec;
    match goal with |- context [py_in ?a ?b] => destruct (py_in a b) eqn:Hin end;
    exec;
    repeat match goal with
      | |- context [handle_supabase_error ?E ?W] =>
          let w' := fresh "w'" in
          let added := fresh "added" in
          let Hrun := fresh "Hrun" in
          let Htr := fresh "Htr" in
          let Hrest := fresh "Hrest" in
          destruct (handle_supabase_error_run E W)
            as (w' & added & Hrun & Htr & Hrest);
          rewrite Hrun; destruct w' as [? ?]; simpl in Htr; subst
      | |- context [json_loads ?E ?c] => destruct (json_loads E c)
      | |- context [String.eqb ?a ?b] => destruct (String.eqb a b)
      end;
    simpl; rewrite ?count_app; simpl;
    (split; [| split]);
    first [ discriminate 1
          | reflexivity
          | intros; eexists; reflexivity
          | intros ? Hf; exfalso; lia
          | intros ? Hf; exfalso; apply Hf; lia
          | intros ? ?; reflexivity
          | intros; congruence
          | idtac ].
  all: try (intros; match goal with |- context [match ?x with inl _ => _ | inr _ => _ end] =>
                      destruct x end; simpl in *; first [lia | congruence | eexists; reflexivity]).
Qed.

Lemma failure_raises_or_continues_witness :
  exists msg,
    fst (perform example_env GetActiveServices example_world) = inl (Exception msg).
Proof.
  destruct (failure_raises_or_continues example_env example_world GetActiveServices
              KSelect
              (<["data" := JArr []]> (<["status_code" := JNum 201]> ∅))
              (mkResponse 200 "") eq_refl eq_refl eq_refl) as (_ & Hraise & _).
  apply Hraise; [reflexivity | vm_compute; lia].
Defined.

(** ** Findings without scans *)

Lemma filter_reject {A} (p : A -> bool) (l : list A) :
  forallb (fun x => negb (p x)) l = true -> List.filter p l = [].
Proof.
  induction l as [| x l IH]; simpl; [reflexivity |].
  intros H. apply andb_true_iff in H as [Hx Hl].
  apply negb_true_iff in Hx. rewrite Hx. auto.
Qed.

Lemma evidence_rows_written (E : Env) (finding : Finding) (l : list Enrichment)
    (w : World) :
  gateway_returns_from E (count is_execute (trace w)) ->
  exists w',
    for_each l
      (fun enrichment =>
         let* s := get_self in
         let* res :=
           execute E
             (table_insert EVIDENCE_TABLE
                (OneRow (to_evidence_json E (account_id s) (cluster s)
                           (sink_name s) (signing_key s)
                           (finding_id finding) enrichment))
                false) in
         if py_ne (res !! "status_code") 201 then
           logging ERROR "Failed to persist finding {finding.id} enrichment {enrichment} error: {res.get('data')}"
         else ret tt) w
    = (inr tt, w')
    /\ count is_execute (trace w') = (count is_execute (trace w) + length l)%nat
    /\ count is_requests (trace w') = count is_requests (trace w)
    /\ count is_finding_write (trace w')
       = (count is_finding_write (trace w) + length l)%nat
    /\ clock_reads w' = clock_reads w.
Proof.
  revert w. induction l as [| x l IH]; intros w Hgw.
  - exists w. simpl. repeat split; lia.
  - destruct (Hgw _ (le_n _)) as [res Hres].
    set (body := fun enrichment : Enrichment => _).
    change (for_each (x :: l) body) with (bind (body x) (fun _ => for_each l body)).
    rewrite bind_eq.
    assert (Hstep : exists w1,
               body x w = (inr tt, w1)
               /\ count is_execute (trace w1) = S (count is_execute (trace w))
               /\ count is_requests (trace w1) = count is_requests (trace w)
               /\ count is_finding_write (trace w1)
                  = S (count is_finding_write (trace w))
               /\ clock_reads w1 = clock_reads w).
    { subst body. destruct w as [s tr]. simpl in Hres. unfold clock_reads.
      exec. rewrite Hres. exec.
      destruct (py_in (res !! "status_code") [201]%Z); exec;
        eexists; (split; [reflexivity |]); simpl; repeat split. }
    destruct Hstep as (w1 & Hrun & Hex & Hrq & Hfw & Hck). rewrite Hrun.
    subst body.
    destruct (IH w1) as (w' & Hrun' & Hex' & Hrq' & Hfw' & Hck').
    { intros n Hn. apply Hgw. lia. }
    exists w'. split; [exact Hrun' |]. simpl length. repeat split; lia.
Qed.

Lemma no_scan_finding_counts (E : Env) (finding : Finding)
    (w : World) :
  forallb (fun e => negb (is_scan E e)) (enrichments finding) = true ->
  gateway_returns_from E (count is_execute (trace w)) ->
  fst (persist_finding E finding w) = inr tt
  /\ count is_finding_write (trace (snd (persist_finding E finding w)))
     = (count is_finding_write (trace w) + length (enrichments finding) + 1)%nat
  /\ requests_sent (snd (persist_finding E finding w))
     = (requests_sent w + length (enrichments finding) + 1)%nat.
Proof.
  intros Hnone Hgw.
  assert (Hrun : exists w',
             persist_finding E finding w = (inr tt, w')
             /\ count is_execute (trace w')
                = (count is_execute (trace w) + length (enrichments finding) + 1)%nat
             /\ count is_requests (trace w') = count is_requests (trace w)
             /\ count is_finding_write (trace w')
                = (count is_finding_write (trace w)
                   + length (enrichments finding) + 1)%nat).
  { unfold persist_finding.
    rewrite (filter_reject _ _ Hnone), (filter_all _ _ Hnone).
    cbn [for_each length Nat.ltb Nat.leb andb]. rewrite bind_eq. unfold ret at 1.
    rewrite bind_eq.
    destruct (evidence_rows_written E finding (enrichments finding) w Hgw)
      as (w1 & Hrun & Hex & Hrq & Hfw & _).
    rewrite Hrun.
    assert (Hle : (count is_execute (trace w) <= count is_execute (trace w1))%nat)
      by lia.
    destruct (Hgw _ Hle) as [res Hres]. clear Hle.
    destruct w1 as [s1 tr1]. destruct w as [s0 tr0].
    simpl in Hex, Hrq, Hfw, Hres.
    exec. rewrite Hres. exec.
    destruct (py_in (res !! "status_code") [201]%Z); exec.
    - eexists. split; [reflexivity |]. simpl. repeat split; lia.
    - destruct (handle_supabase_error_counts E
                  (mkWorld s1
                     (EvLog ERROR
                        "Failed to persist finding {finding.id} error: {res.get('data')}"
                      :: EvExecute
                           (table_insert ISSUES_TABLE
                              (OneRow (to_finding_json E (account_id s1) (cluster s1)
                                         finding))
                              false)
                      :: tr1)))
        as (w2 & Hrun2 & Hex2 & Hrq2 & Hfw2).
      rewrite Hrun2. exists w2. split; [reflexivity |].
      simpl in Hex2, Hrq2, Hfw2. destruct w2 as [s2 tr2]. simpl in *.
      repeat split; lia. }
  destruct Hrun as (w' & Hrun & Hex & Hrq & Hfw).
  unfold requests_sent. rewrite Hrun. simpl. repeat split; lia.
Qed.

Lemma no_scan_finding_queries (E : Env) (finding : Finding)
    (w : World) :
  forallb (fun e => negb (is_scan E e)) (enrichments finding) = true ->
  gateway_returns_from E (count is_execute (trace w)) ->
  executed (trace (snd (persist_finding E finding w)))
  = (executed (trace w)
     ++ map (evidence_query E (self w) finding) (enrichments finding)
     ++ [issue_query E (self w) finding])%list.
Proof.
  intros Hnone Hgw. unfold persist_finding.
  rewrite (filter_reject _ _ Hnone), (filter_all _ _ Hnone).
  cbn [for_each length Nat.ltb Nat.leb andb]. rewrite bind_eq. unfold ret at 1.
  rewrite bind_eq.
  destruct (evidence_loop_run E finding (enrichments finding) w Hgw)
    as (w1 & added1 & Hrun1 & Hself1 & Htr1 & Hq1 & _).
  rewrite Hrun1.
  destruct (Hgw (count is_execute (trace w1))) as [res Hres].
  { rewrite Htr1, count_app. lia. }
  destruct (issue_row_run E finding w1 res Hres) as (w2 & added2 & Hrun2 & Htr2 & Hq2 & _).
  rewrite Hrun2. cbn [snd].
  now rewrite Htr2, Htr1, !executed_app, Hq1, Hq2, Hself1, <- app_assoc.
Qed.

(** X8. A finding without scan enrichments never makes [persist_finding]
    raise for a rejected status: as long as the gateway answers, the queries
    it executes are exactly one insert into the evidence table per
    enrichment, in the order of the enrichments and each carrying the row of
    its own enrichment, followed by one insert of the finding's row into the
    issues table, whatever statuses come back; no raw request is sent. *)
Theorem persist_finding_without_scans (E : Env) (finding : Finding) (w : World) :
  forallb (fun e => negb (is_scan E e)) (enrichments finding) = true ->
  gateway_returns_from E (count is_execute (trace w)) ->
  fst (persist_finding E finding w) = inr tt
  /\ executed (trace (snd (persist_finding E finding w)))
     = (executed (trace w)
        ++ map (evidence_query E (self w) finding) (enrichments finding)
        ++ [issue_query E (self w) finding])%list
  /\ count is_finding_write (trace (snd (persist_finding E finding w)))
     = (count is_finding_write (trace w) + length (enrichments finding) + 1)%nat
  /\ requests_sent (snd (persist_finding E finding w))
     = (requests_sent w + length (enrichments finding) + 1)%nat.
Proof.
  intros Hnone Hgw.
  destruct (no_scan_finding_counts E finding w Hnone Hgw)
    as (Hret & Hwrites & Hsent).
  split; [exact Hret |].
  split; [now apply no_scan_finding_queries |].
  split; assumption.
Qed.

Lemma persist_finding_without_scans_witness :
  fst (persist_finding example_env_rejecting example_finding_two example_world)
  = inr tt
  /\ executed
       (trace (snd (persist_finding example_env_rejecting example_finding_two
                      example_world)))
     = [evidence_query example_env_rejecting example_dal example_finding_two
          example_enrichment;
        evidence_query example_env_rejecting example_dal example_finding_two
          example_enrichment;
        issue_query example_env_rejecting example_dal example_finding_two]
  /\ requests_sent
       (snd (persist_finding example_env_rejecting example_finding_two
               example_world))
     = 3%nat.
Proof.
  destruct (persist_finding_without_scans example_env_rejecting example_finding_two
              example_world) as (Hret & Hqueries & _ & Hsent).
  - reflexivity.
  - intros n _. eexists. reflexivity.
  - exact (conj Hret (conj Hqueries Hsent)).
Defined.

(** ** Findings with a rejected scan *)

Lemma persist_scan_block_rejected (E : Env) (w : World) (res : Dict)
    (scan_id : JSON) (st en : string) (ty sc : JSON) (results : list ScanReportRow) :
  gateway E (count is_execute (trace w)) = inr res ->
  py_in (res !! "status_code") [200; 201]%Z = false ->
  exists w',
    persist_scan_block E (ScanReportBlock scan_id st en ty sc results) w
    = (inl (Exception
              "Failed to persist scan {block.scan_id} error: {res.get('data')}"),
       w')
    /\ count is_execute (trace w') = S (count is_execute (trace w))
    /\ count is_requests (trace w') = count is_requests (trace w)
    /\ count is_finding_write (trace w') = count is_finding_write (trace w).
Proof.
  intros Hres Hin. destruct w as [s tr]. simpl in Hres.
  exec. rewrite Hres. exec. rewrite Hin. exec.
  match goal with
  | |- context [handle_supabase_error ?E ?W] =>
      destruct (handle_supabase_error_counts E W) as (w' & Hrun & Hex & Hrq & Hfw)
  end.
  rewrite Hrun. exists w'. split; [reflexivity |].
  simpl in Hex, Hrq, Hfw. repeat split; assumption.
Qed.

(** X9. A rejected scan-result insert aborts the whole finding:
    [persist_finding] raises after that one request, so neither the scan
    metadata RPC, nor any later scan, nor any evidence or issue row is
    sent. *)
Theorem rejected_scan_aborts_finding (E : Env) (finding : Finding) (w : World)
    (res : Dict) (scan_id : JSON) (st en : string) (ty sc : JSON)
    (results : list ScanReportRow) (more : list Block) (ann : Dict)
    (others : list Enrichment) :
  List.filter (is_scan E) (enrichments finding)
  = mkEnrichment (ScanReportBlock scan_id st en ty sc results :: more) ann :: others ->
  gateway E (count is_execute (trace w)) = inr res ->
  py_in (res !! "status_code") [200; 201]%Z = false ->
  (exists msg, fst (persist_finding E finding w) = inl (Exception msg))
  /\ requests_sent (snd (persist_finding E finding w)) = S (requests_sent w)
  /\ count is_finding_write (trace (snd (persist_finding E finding w)))
     = count is_finding_write (trace w).
Proof.
  intros Hscans Hres Hin.
  destruct (persist_scan_block_rejected E w res scan_id st en ty sc results Hres Hin)
    as (w' & Hrun & Hex & Hrq & Hfw).
  assert (Hall : persist_finding E finding w
                 = (inl (Exception
                           "Failed to persist scan {block.scan_id} error: {res.get('data')}"),
                    w')).
  { unfold persist_finding. rewrite Hscans.
    rewrite bind_eq.
    change (for_each (?x :: others) (persist_scan E))
      with (bind (persist_scan E x) (fun _ => for_each others (persist_scan E))).
    rewrite bind_eq. unfold persist_scan at 1. cbn [blocks].
    change (for_each (?b :: more) (persist_scan_block E))
      with (bind (persist_scan_block E b)
              (fun _ => for_each more (persist_scan_block E))).
    rewrite bind_eq, Hrun. reflexivity. }
  rewrite Hall. unfold requests_sent. simpl.
  split; [eexists; reflexivity |]. split; lia.
Qed.

Lemma rejected_scan_aborts_finding_witness :
  exists msg,
    fst (persist_finding example_env_rejecting
           (mkFinding (JStr "finding-3") [example_enrichment; example_scan_enrichment])
           example_world) = inl (Exception msg).
Proof.
  destruct (rejected_scan_aborts_finding example_env_rejecting
              (mkFinding (JStr "finding-3")
                 [example_enrichment; example_scan_enrichment])
              example_world
              (<["data" := JStr "boom"]> (<["status_code" := JNum 500]> ∅))
              (JStr "scan-1") "2023-01-01 10:00:00" "2023-01-01 10:05:00"
              (JStr "popeye") (JNum 87)
              [mkScanReportRow (<["scan_id" := JStr "scan-1"]> ∅)] []
              (<["scan" := JBool true]> ∅) []) as (H & _).
  - reflexivity.
  - reflexivity.
  - vm_compute; reflexivity.
  - exact H.
Defined.

(** ** Invariants kept by every operation *)

Section Preserves.

Variable E : Env.
Variable I : World -> Prop.
Hypothesis I_quiet :
  forall w e, is_auth_sign_in e = false -> I w -> I (mkWorld (self w) (e :: trace w)).
Hypothesis I_sign_in : forall w, I w -> I (snd (sign_in E w)).

Lemma preserves_ret {A} (a : A) : preserves I (ret a).
Proof. intros w Hw. exact Hw. Qed.

Lemma preserves_raise {A} (e : exn) : preserves I (@raise A e).
Proof. intros w Hw. exact Hw. Qed.

Lemma preserves_lift {A} (r : exn + A) : preserves I (lift r).
Proof. destruct r; [apply preserves_raise | apply preserves_ret]. Qed.

Lemma preserves_bind {A B} (m : M A) (k : A -> M B) :
  preserves I m -> (forall a, preserves I (k a)) -> preserves I (bind m k).
Proof.
  intros Hm Hk w Hw. unfold bind. specialize (Hm w Hw).
  destruct (m w) as [[e | a] w1]; simpl in *; [exact Hm | now apply Hk].
Qed.

Lemma preserves_try_except {A} (m : M A) (h : exn -> M A) :
  preserves I m -> (forall e, preserves I (h e)) -> preserves I (try_except m h).
Proof.
  intros Hm Hh w Hw. unfold try_except. specialize (Hm w Hw).
  destruct (m w) as [[e | a] w1]; simpl in *; [now apply Hh | exact Hm].
Qed.

Lemma preserves_get_self : preserves I get_self.
Proof. intros w Hw. exact Hw. Qed.

Lemma preserves_get_index (p : Event -> bool) : preserves I (get_index p).
Proof. intros w Hw. exact Hw. Qed.

Lemma preserves_emit (e : Event) :
  is_auth_sign_in e = false -> preserves I (emit e).
Proof. intros He w Hw. now apply I_quiet. Qed.

Lemma preserves_for_each {A} (l : list A) (body : A -> M unit) :
  (forall x, preserves I (body x)) -> preserves I (for_each l body).
Proof.
  intros Hbody. induction l as [| x l IH]; simpl.
  - apply preserves_ret.
  - apply preserves_bind; [apply Hbody | intros _; exact IH].
Qed.

Lemma preserves_handle_supabase_error :
  preserves I (handle_supabase_error E).
Proof.
  apply preserves_try_except; [intros w; apply I_sign_in |].
  intros e. now apply preserves_emit.
Qed.

Lemma preserves_execute (q : Query) : preserves I (execute E q).
Proof.
  unfold execute.
  apply preserves_bind; [apply preserves_get_index | intros n].
  apply preserves_bind; [now apply preserves_emit | intros _].
  apply preserves_lift.
Qed.

Lemma preserves_delete_patch (q : Query) :
  preserves I (__delete_patch E q).
Proof.
  unfold __delete_patch, requests_delete, response_json, logging.
  apply preserves_bind.
  { apply preserves_bind; [apply preserves_get_index | intros n].
    apply preserves_bind; [now apply preserves_emit | intros _].
    apply preserves_lift. }
  intros response. apply preserves_bind; [| intros data; apply preserves_ret].
  apply preserves_try_except.
  - destruct (json_loads E (content response));
      [apply preserves_ret | apply preserves_raise].
  - intros e. apply preserves_bind;
      [now apply preserves_emit | intros _; apply preserves_ret].
Qed.

Lemma preserves_rpc_patch (func_name : string) (body : Dict) :
  preserves I (__rpc_patch E func_name body).
Proof.
  unfold __rpc_patch, requests_post, response_json, logging.
  apply preserves_bind.
  { apply preserves_bind; [apply preserves_get_index | intros n].
    apply preserves_bind; [now apply preserves_emit | intros _].
    apply preserves_lift. }
  intros response. apply preserves_bind; [| intros data; apply preserves_ret].
  apply preserves_try_except.
  - destruct (negb _); [| apply preserves_ret].
    destruct (json_loads E (content response));
      [apply preserves_ret | apply preserves_raise].
  - intros e. apply preserves_bind;
      [now apply preserves_emit | intros _; apply preserves_ret].
Qed.

Ltac preserves_step :=
  first
    [ apply preserves_ret | apply preserves_raise | apply preserves_lift
    | apply preserves_handle_supabase_error
    | apply preserves_get_index | apply preserves_get_self
    | apply preserves_execute | apply preserves_delete_patch
    | apply preserves_rpc_patch
    | apply preserves_emit; reflexivity
    | apply preserves_for_each; intros ?
    | apply preserves_bind; [| intros ?]
    | match goal with
      | |- preserves _ (if ?c then _ else _) => destruct c
      | |- preserves _ (match ?x with _ => _ end) => destruct x
      end ].

Lemma preserves_perform (op : Operation) : preserves I (perform E op).
Proof.
  destruct op; simpl;
    unfold persist_finding, persist_scan, persist_scan_block, persist_services,
      get_active_services, has_cluster_findings, get_active_nodes, publish_nodes,
      get_active_jobs, publish_jobs, remove_deleted_job, get_active_helm_release,
      publish_helm_releases, publish_cluster_status, to_db_cluster_status,
      get_active_namespaces, publish_namespaces, publish_cluster_nodes, discard,
      logging;
    repeat preserves_step.
Qed.

Lemma preserves_perform_all (ops : list Operation) (w : World) :
  I w -> I (perform_all E ops w).
Proof.
  revert w. induction ops as [| op ops IH]; intros w Hw; simpl; [exact Hw |].
  apply IH. now apply preserves_perform.
Qed.

End Preserves.

(** X10. No login storm: while every clock reading stays within the cooldown
    of the last recorded attempt, no sequence of operations, failing or not,
    calls the identity service or changes the recorded attempt time or the
    session. *)
Theorem no_sign_in_within_cooldown (E : Env) (ops : list Operation) (w : World) :
  (forall n, (clock_reads w <= n)%nat ->
     (now E n <= sign_in_time (self w) + SUPABASE_LOGIN_RATE_LIMIT_SEC E)%Q) ->
  sign_in_calls (perform_all E ops w) = sign_in_calls w
  /\ sign_in_time (self (perform_all E ops w)) = sign_in_time (self w)
  /\ session (self (perform_all E ops w)) = session (self w).
Proof.
  intros Hcool.
  set (I := fun w' : World =>
              sign_in_calls w' = sign_in_calls w
              /\ sign_in_time (self w') = sign_in_time (self w)
              /\ session (self w') = session (self w)
              /\ (clock_reads w <= clock_reads w')%nat).
  assert (HI : I (perform_all E ops w)).
  { apply preserves_perform_all.
    - intros w1 e He (Hc & Ht & Hs & Hk).
      unfold I, sign_in_calls, clock_reads in *. simpl. rewrite He.
      repeat split; try assumption. destruct (is_time e); simpl; lia.
    - intros w1 (Hc & Ht & Hs & Hk).
      rewrite sign_in_limited by (rewrite Ht; now apply Hcool).
      unfold I, sign_in_calls, clock_reads in *. simpl.
      repeat split; try assumption. lia.
    - unfold I. repeat split. lia. }
  destruct HI as (Hc & Ht & Hs & _). now repeat split.
Qed.

Lemma no_sign_in_within_cooldown_witness :
  sign_in_calls
    (perform_all (with_now example_env_rejecting (fun _ => 100%Q))
       [GetActiveJobs; PublishClusterNodes 3; GetActiveNodes] example_world)
  = 0%nat.
Proof.
  destruct (no_sign_in_within_cooldown
              (with_now example_env_rejecting (fun _ => 100%Q))
              [GetActiveJobs; PublishClusterNodes 3; GetActiveNodes] example_world)
    as (H & _).
  - intros n _. vm_compute. discriminate.
  - exact H.
Defined.

(** X16. Only the constructor sets the connection settings and credentials:
    no sequence of operations changes the URL, key, account, cluster, email,
    password, sink name or signing key, and every sign-in an operation
    triggers uses the instance's email and password. *)
Theorem operations_keep_settings (E : Env) (ops : list Operation) (w : World) :
  settings (self (perform_all E ops w)) = settings (self w)
  /\ exists added,
       trace (perform_all E ops w) = (added ++ trace w)%list
       /\ signs_in_as (email (self w)) (password (self w)) added.
Proof.
  set (I := fun w' : World =>
              settings (self w') = settings (self w)
              /\ exists added,
                   trace w' = (added ++ trace w)%list
                   /\ signs_in_as (email (self w)) (password (self w)) added).
  apply (preserves_perform_all E I).
  - intros w1 e He (Hs & added & Htr & Hsig). split; [exact Hs |].
    exists (e :: added). simpl. split; [now rewrite Htr |].
    constructor; [| exact Hsig]. now destruct e.
  - intros w1 (Hs & added & Htr & Hsig).
    destruct (Qlt_le_dec
                (sign_in_time (self w1) + SUPABASE_LOGIN_RATE_LIMIT_SEC E)
                (now E (count is_time (trace w1)))) as [Hgo | Hstay].
    + rewrite (sign_in_attempt E w1 Hgo). simpl. split; [exact Hs |].
      eexists (_ :: _ :: _ :: _ :: added). split; [now rewrite Htr |].
      unfold settings in Hs. injection Hs as _ _ _ _ Hem Hpw _ _.
      repeat (constructor; [first [exact I | now split] |]). exact Hsig.
    + rewrite (sign_in_limited E w1 Hstay). simpl. split; [exact Hs |].
      exists (EvTime :: added). split; [now rewrite Htr |].
      constructor; [exact Logic.I | exact Hsig].
  - split; [reflexivity |]. exists []. split; [reflexivity | constructor].
Qed.

(** ** Construction and the bearer token *)

(** X15. The constructor first builds the client: if that raises, the
    constructor raises the same exception without reading the clock or
    signing in.  Otherwise it signs in unless the clock reads no more than the
    cooldown (the recorded attempt time starts at 0): in that case the
    instance is built silently without any sign-in and without a session;
    else the identity service is called once and the constructor raises
    exactly the exception that call raises, if any. *)
Theorem init_outcome (E : Env)
    (address api_key account mail pass sink cluster_name sign_key : string)
    (before : list Event) :
  let r := __init__ E address api_key account mail pass sink cluster_name sign_key
             before in
  (forall e, RobustaClient_init E address api_key = Some e ->
     fst r = inl e /\ trace (snd r) = before)
  /\ (RobustaClient_init E address api_key = None ->
      (now E (count is_time before) <= SUPABASE_LOGIN_RATE_LIMIT_SEC E)%Q ->
      fst r = inr tt
      /\ sign_in_calls (snd r) = count is_auth_sign_in before
      /\ session (self (snd r)) = None)
  /\ (RobustaClient_init E address api_key = None ->
      (SUPABASE_LOGIN_RATE_LIMIT_SEC E < now E (count is_time before))%Q ->
      fst r = raised (fst (identity E (count is_auth_sign_in before)))
      /\ sign_in_calls (snd r) = S (count is_auth_sign_in before)
      /\ session (self (snd r)) = snd (identity E (count is_auth_sign_in before))).
Proof.
  intros r. subst r. unfold __init__. split; [| split].
  - intros e He. rewrite He. now split.
  - intros Hc Hclock. rewrite Hc.
    rewrite sign_in_limited by (simpl; lra). now repeat split.
  - intros Hc Hclock. rewrite Hc.
    rewrite sign_in_attempt by (simpl; lra). now repeat split.
Qed.

Lemma init_outcome_witness :
  fst (__init__ example_env_auth_down "https://db.example" "anon-key" "acct-1"
         "agent@example" "secret" "robusta_ui" "cluster-a" "signing" [])
  = inl (LibraryError "gotrue: connection refused")
  /\ __init__ example_env "" "anon-key" "acct-1" "agent@example" "secret"
       "robusta_ui" "cluster-a" "signing" []
     = (inl (Exception "supabase_url is required"),
        mkWorld (mkDal "" "anon-key" "acct-1" "cluster-a" "agent@example" "secret"
                   0 "robusta_ui" "signing" None) []).
Proof.
  split.
  - destruct (init_outcome example_env_auth_down "https://db.example" "anon-key"
                "acct-1" "agent@example" "secret" "robusta_ui" "cluster-a"
                "signing" []) as (_ & _ & Hlate).
    destruct Hlate as (Hret & _); [reflexivity | vm_compute; reflexivity |].
    exact Hret.
  - reflexivity.
Defined.

(** X17. After a [sign_in] that went through and left a session with a
    non-empty string access token, the headers built for the instance's
    client carry that token as bearer; if it left no session, they fall back
    to the static key. *)
Theorem sign_in_sets_bearer (E : Env) (w : World) :
  (sign_in_time (self w) + SUPABASE_LOGIN_RATE_LIMIT_SEC E
   < now E (clock_reads w))%Q ->
  let w' := snd (sign_in E w) in
  (forall d token,
     snd (identity E (sign_in_calls w)) = Some d ->
     d !! "access_token" = Some (JStr token) -> token <> "" ->
     exists headers,
       _get_auth_headers E (client_of (self w')) = inr headers
       /\ headers !! "Authorization" = Some ("Bearer " ++ token)
       /\ headers !! "apiKey" = Some (key (self w)))
  /\ (snd (identity E (sign_in_calls w)) = None ->
      exists headers,
        _get_auth_headers E (client_of (self w')) = inr headers
        /\ headers !! "Authorization" = Some ("Bearer " ++ key (self w))).
Proof.
  intros Hgo w'. subst w'. rewrite (sign_in_attempt E w Hgo).
  unfold sign_in_calls. simpl. split.
  - intros d token Hd Htok Hne. rewrite Hd.
    unfold _get_auth_headers, client_of. simpl.
    assert (Htruthy : dict_truthy d = true).
    { unfold dict_truthy. destruct (map_to_list d) eqn:Hl; [| reflexivity].
      apply map_to_list_empty_iff in Hl. subst d.
      rewrite lookup_empty in Htok. discriminate. }
    rewrite Htruthy. unfold dict_subscript. rewrite Htok. simpl.
    assert (Hnz : negb (String.eqb token "") = true).
    { apply negb_true_iff, String.eqb_neq. exact Hne. }
    rewrite Hnz. simpl. eexists. split; [reflexivity |].
    split; now dict_lookup.
  - intros Hnone. rewrite Hnone. unfold _get_auth_headers, client_of. simpl.
    eexists. split; [reflexivity |]. now dict_lookup.
Qed.

Lemma sign_in_sets_bearer_witness :
  exists headers,
    _get_auth_headers example_env
      (client_of (self (snd (sign_in example_env example_world)))) = inr headers
    /\ headers !! "Authorization" = Some "Bearer jwt-1".
Proof.
  destruct (sign_in_sets_bearer example_env example_world) as (Hin & _).
  - vm_compute; reflexivity.
  - destruct (Hin example_session "jwt-1" eq_refl eq_refl) as (h & Hrun & Hauth & _).
    + discriminate.
    + exists h. exact (conj Hrun Hauth).
Defined.

Lemma cluster_status_row_fields_witness :
  exists row : Dict,
    fst (to_db_cluster_status example_foreign_status example_world) = inr row
    /\ row !! "last_alert_at" = None
    /\ row !! "version" = Some (JStr "0.10.0").
Proof.
  destruct (cluster_status_row_fields example_foreign_status example_world)
    as (row & Hrun & Hlast & _ & _ & Hrest).
  exists row. split; [now rewrite Hrun |]. split; [exact Hlast |].
  rewrite Hrest by discriminate. reflexivity.
Defined.
